(** * NeuralNetworkFlexibility: the models of [models.py]

    A shallow embedding of the four models of [models.py] (perceptron,
    regression, digit classification, language identification) and of their
    training loops, together with the properties of the specification.

    The models are written against the [nn] engine (parameters, graph nodes,
    gradients) and a dataset object, neither of which is part of [models.py].
    The engine's node constructors are modelled from the specification in
    [Module nn]; the two loss functions and the differentiation itself stay
    parameters of the development.

    Python raises on a failed assertion or on an index out of range: every
    operation that can raise returns a [result].  The training loops mutate
    the model in place; they are state transformers whose state survives an
    exception. *)

From Stdlib Require Import String.
From Stdlib Require Import List ZArith QArith Lia Bool.
Import ListNotations.

Close Scope Q_scope.
Set Implicit Arguments.

(* ------------------------------------------------------------------ *)
(** * Python results *)

Inductive exn : Type :=
| IndexError
| AssertionError.

Inductive result (A : Type) : Type :=
| Ok (a : A)
| Raise (e : exn).

Arguments Ok {A} a.
Arguments Raise {A} e.

Definition rbind {A B : Type} (c : result A) (k : A -> result B) : result B :=
  match c with
  | Ok a => k a
  | Raise e => Raise e
  end.

Declare Scope result_scope.
Delimit Scope result_scope with result.
Notation "x <- c ;; k" := (rbind c (fun x => k))
  (at level 61, c at next level, right associativity) : result_scope.

(** [assert cond] of Python. *)
Definition assert (cond : bool) : result unit :=
  if cond then Ok tt else Raise AssertionError.

(** [for a in l: acc = body(acc, a)] where the body may raise. *)
Fixpoint rfold {A B : Type} (body : B -> A -> result B) (l : list A) (acc : B)
  : result B :=
  match l with
  | [] => Ok acc
  | a :: l' => rbind (body acc a) (rfold body l')
  end.

(** [l[i]] of Python for a non-negative index. *)
Definition getitem {A : Type} (l : list A) (i : nat) : result A :=
  match nth_error l i with
  | Some a => Ok a
  | None => Raise IndexError
  end.

(* ------------------------------------------------------------------ *)
(** * Scalars

    The numbers of the program are Python floats.  The development is generic
    in the arithmetic: a [Scalar] gives the operations the engine and the
    models use.  [s_lit] reads a decimal literal of the source, [s_of_Z]
    converts a Python int for a comparison with a float. *)

Class Scalar (T : Type) : Type := {
  s_zero : T;
  s_add : T -> T -> T;
  s_mul : T -> T -> T;
  s_max : T -> T -> T;
  s_geb : T -> T -> bool;
  s_eqb : T -> T -> bool;
  s_of_Z : Z -> T;
  s_lit : Q -> T
}.

(** Exact rational arithmetic, in lowest terms. *)
#[export] Instance Scalar_Q : Scalar Q := {
  s_zero := 0%Q;
  s_add := fun a b => Qred (a + b);
  s_mul := fun a b => Qred (a * b);
  s_max := fun a b => if Qle_bool a b then b else a;
  s_geb := fun a b => Qle_bool b a;
  s_eqb := Qeq_bool;
  s_of_Z := inject_Z;
  s_lit := fun q => q
}.

(* ------------------------------------------------------------------ *)
(** * The engine *)

Module nn.
Section Engine.

Context {T : Type} `{Scalar T}.

(** Modelled from the spec: the tensor held by a parameter or a node (the
    engine is not part of [models.py]).  A two-dimensional array with its
    shape, stored by rows. *)
Record Tensor : Type := mkTensor {
  rows : nat;
  cols : nat;
  cells : list (list T)
}.

Definition shape (t : Tensor) : nat * nat := (rows t, cols t).

(** The cells agree with the shape. *)
Definition well_formed (t : Tensor) : Prop :=
  length (cells t) = rows t /\ Forall (fun r => length r = cols t) (cells t).

Definition well_formedb (t : Tensor) : bool :=
  (length (cells t) =? rows t) && forallb (fun r => length r =? cols t) (cells t).

Definition same_shape (a b : Tensor) : bool :=
  (rows a =? rows b) && (cols a =? cols b).

(** Modelled from the spec: a computation-graph node, "an immutable value
    produced by composing primitive operations over parameters and input
    batches".  A node keeps the operation that made it and the value computed
    when it was made. *)
Inductive Graph : Type :=
| GConstant (value : Tensor)
| GParameter (name : string)
| GDotProduct (features weights : Graph)
| GLinear (features weights : Graph)
| GAddBias (features bias : Graph)
| GAdd (x y : Graph)
| GReLU (x : Graph)
| GSquareLoss (a b : Graph)
| GSoftmaxLoss (logits labels : Graph).

Record Node : Type := mkNode {
  graph : Graph;
  data : Tensor
}.

(** An input batch or a gradient. *)
Definition Constant (t : Tensor) : Node := mkNode (GConstant t) t.

(** The node of a parameter of the model, named by its attribute. *)
Definition parameter_node (name : string) (t : Tensor) : Node :=
  mkNode (GParameter name) t.

(** ** Arithmetic on rows *)

Fixpoint zip_with {A B C : Type} (f : A -> B -> C) (l : list A) (m : list B)
  : list C :=
  match l, m with
  | a :: l', b :: m' => f a b :: zip_with f l' m'
  | _, _ => []
  end.

Definition dot (u v : list T) : T :=
  fold_left s_add (zip_with s_mul u v) s_zero.

Definition column (j : nat) (t : Tensor) : list T :=
  map (fun r => nth j r s_zero) (cells t).

Definition first_row (t : Tensor) : list T := hd [] (cells t).

(** The entry of row [i] and column [j]. *)
Definition cell (t : Tensor) (i j : nat) : T :=
  nth j (nth i (cells t) []) s_zero.

(** Two tensors of one shape whose entries are related one by one. *)
Definition cells_related (R : T -> T -> Prop) (a b : Tensor) : Prop :=
  shape a = shape b /\ Forall2 (Forall2 R) (cells a) (cells b).

(** ** Node constructors

    Modelled from the spec: "each takes node/parameter operands of compatible
    shapes and returns a new node"; "shape-mismatched operands raise from the
    underlying library". *)

Open Scope result_scope.

(** Batched dot product: features (batch x n), weights (1 x n), result
    (batch x 1). *)
Definition DotProduct (features weights : Node) : result Node :=
  let a := data features in
  let b := data weights in
  _ <- assert (rows b =? 1) ;;
  _ <- assert (cols a =? cols b) ;;
  Ok (mkNode (GDotProduct (graph features) (graph weights))
        (mkTensor (rows a) 1 (map (fun r => [dot r (first_row b)]) (cells a)))).

(** Linear transformation (matrix product): features (batch x n), weights
    (n x m), result (batch x m). *)
Definition Linear (features weights : Node) : result Node :=
  let a := data features in
  let b := data weights in
  _ <- assert (cols a =? rows b) ;;
  Ok (mkNode (GLinear (graph features) (graph weights))
        (mkTensor (rows a) (cols b)
           (map (fun r => map (fun j => dot r (column j b)) (seq 0 (cols b)))
              (cells a)))).

(** Adds a bias row to every row: features (batch x n), bias (1 x n). *)
Definition AddBias (features bias : Node) : result Node :=
  let a := data features in
  let b := data bias in
  _ <- assert (rows b =? 1) ;;
  _ <- assert (cols a =? cols b) ;;
  Ok (mkNode (GAddBias (graph features) (graph bias))
        (mkTensor (rows a) (cols a)
           (map (fun r => zip_with s_add r (first_row b)) (cells a)))).

(** Element-wise sum of two nodes of one shape. *)
Definition Add (x y : Node) : result Node :=
  let a := data x in
  let b := data y in
  _ <- assert (same_shape a b) ;;
  Ok (mkNode (GAdd (graph x) (graph y))
        (mkTensor (rows a) (cols a)
           (zip_with (zip_with s_add) (cells a) (cells b)))).

(** Element-wise rectification. *)
Definition ReLU (x : Node) : result Node :=
  let a := data x in
  Ok (mkNode (GReLU (graph x))
        (mkTensor (rows a) (cols a)
           (map (map (fun v => s_max v s_zero)) (cells a)))).

(** Scalar extraction: "given a single-element node, returns its numeric
    value". *)
Definition as_scalar (n : Node) : result T :=
  _ <- assert (rows (data n) * cols (data n) =? 1) ;;
  match cells (data n) with
  | [[v]] => Ok v
  | _ => Raise AssertionError
  end.

(** Modelled from the spec: Parameter.update, "given a direction (gradient or
    labeled example) and a scalar step size, mutates the parameter in place",
    as [parameter := parameter + s * d].  The new value of the parameter is
    returned. *)
Definition update (parameter : Tensor) (direction : Node) (multiplier : T)
  : result Tensor :=
  let d := data direction in
  _ <- assert (same_shape d parameter) ;;
  Ok (mkTensor (rows parameter) (cols parameter)
        (zip_with (zip_with (fun p g => s_add p (s_mul multiplier g)))
           (cells parameter) (cells d))).

(** ** The losses and the differentiation

    The value of a loss node is computed by the engine; its forward function
    is a parameter here. *)

Definition loss_node (forward : Tensor -> Tensor -> result Tensor)
  (mk : Graph -> Graph -> Graph) (a b : Node) : result Node :=
  _ <- assert (same_shape (data a) (data b)) ;;
  v <- forward (data a) (data b) ;;
  Ok (mkNode (mk (graph a) (graph b)) v).

End Engine.

Arguments Tensor T : clear implicits.
Arguments Graph T : clear implicits.
Arguments Node T : clear implicits.

End nn.

Module Import nn_backend.

(** The part of the engine the development does not fix: the values of the two
    losses and the differentiation ("given a loss node and an ordered list of
    parameters, returns a matching ordered list of gradient tensors"). *)
Class Backend (T : Type) `{Scalar T} : Type := {
  square_loss : nn.Tensor T -> nn.Tensor T -> result (nn.Tensor T);
  softmax_loss : nn.Tensor T -> nn.Tensor T -> result (nn.Tensor T);
  gradients : nn.Node T -> list (nn.Node T) -> result (list (nn.Node T))
}.

Definition SquareLoss {T : Type} `{Backend T} (a b : nn.Node T)
  : result (nn.Node T) :=
  nn.loss_node square_loss (@nn.GSquareLoss T) a b.

Definition SoftmaxLoss {T : Type} `{Backend T} (logits labels : nn.Node T)
  : result (nn.Node T) :=
  nn.loss_node softmax_loss (@nn.GSoftmaxLoss T) logits labels.

End nn_backend.

(* ------------------------------------------------------------------ *)
(** * Training state

    A training loop mutates the parameters of its model and calls the dataset.
    The state is the model together with the calls made on the dataset so
    far, oldest first. *)

Inductive call : Type :=
| IterateOnce (batch_size : nat)
| GetValidationAccuracy.

Record TrainState (Model : Type) : Type := mkState {
  self : Model;
  calls : list call
}.

(** Modelled from the spec: the dataset, an external collaborator.
    [iterate_once batch_size] is "a lazy, restartable, finite sequence of
    (input, label) batch pairs"; [get_validation_accuracy] evaluates the model
    as it is when asked and "returns a fraction". *)
Record Dataset (T Input Model : Type) : Type := mkDataset {
  iterate_once : nat -> list (Input * nn.Node T);
  get_validation_accuracy : Model -> T
}.

Section Monad.

Variable St : Type.

(** A computation on the state [St] that returns or raises; the state
    reached is kept in both cases. *)
Definition M (A : Type) : Type := St -> St * result A.

Definition ret {A : Type} (a : A) : M A := fun st => (st, Ok a).

Definition bind {A B : Type} (c : M A) (k : A -> M B) : M B :=
  fun st =>
    match c st with
    | (st', Ok a) => k a st'
    | (st', Raise e) => (st', Raise e)
    end.

(** A computation that reads the state and may raise. *)
Definition reading {A : Type} (f : St -> result A) : M A :=
  fun st => (st, f st).

(** A computation that replaces the state unless it raises. *)
Definition writing (f : St -> result St) : M unit :=
  fun st =>
    match f st with
    | Ok st' => (st', Ok tt)
    | Raise e => (st, Raise e)
    end.

(** [for a in l: acc = body(acc, a)]. *)
Fixpoint for_each {A B : Type} (body : B -> A -> M B) (l : list A) (acc : B)
  : M B :=
  match l with
  | [] => ret acc
  | a :: l' => bind (body acc a) (for_each body l')
  end.

(** [while True: body], where the body tells whether it leaves the loop (by
    [break] or [return]).  [None]: the fuel ran out before the loop ended. *)
Fixpoint while_true (fuel : nat) (body : M bool) (st : St)
  : option (St * result unit) :=
  match fuel with
  | O => None
  | S fuel' =>
      match body st with
      | (st', Ok true) => Some (st', Ok tt)
      | (st', Ok false) => while_true fuel' body st'
      | (st', Raise e) => Some (st', Raise e)
      end
  end.

(** [for i in range(n): body], where the body tells whether it leaves the
    loop (by [return]) and does not read [i]. *)
Fixpoint for_range (n : nat) (body : M bool) : M unit :=
  match n with
  | O => ret tt
  | S n' => bind body (fun leave => if leave then ret tt else for_range n' body)
  end.

(** [turns body k st st']: [k] turns of a loop in a row, each ending without
    an exception and without leaving the loop, lead from [st] to [st']. *)
Inductive turns (body : M bool) : nat -> St -> St -> Prop :=
| turns_O : forall st, turns body 0 st st
| turns_S : forall k st st1 st2,
    body st = (st1, Ok false) ->
    turns body k st1 st2 ->
    turns body (S k) st st2.

End Monad.

Arguments ret {St A} a.
Arguments while_true {St} fuel body st.
Arguments for_range {St} n body.
Arguments bind {St A B} c k.
Arguments reading {St A} f.
Arguments writing {St} f.
Arguments for_each {St A B} body l acc.

Declare Scope train_scope.
Delimit Scope train_scope with train.
Notation "x <- c ;; k" := (bind c (fun x => k))
  (at level 61, c at next level, right associativity) : train_scope.
Notation "c ;; k" := (bind c (fun _ => k))
  (at level 61, right associativity) : train_scope.

Section DatasetCalls.

Context {T Input Model : Type}.

Definition record_call (c : call) (st : TrainState Model) : TrainState Model :=
  mkState (self st) (calls st ++ [c]).

(** [dataset.iterate_once(batch_size)] *)
Definition call_iterate_once (dataset : Dataset T Input Model)
  (batch_size : nat) : M (TrainState Model) (list (Input * nn.Node T)) :=
  fun st => (record_call (IterateOnce batch_size) st,
             Ok (iterate_once dataset batch_size)).

(** [dataset.get_validation_accuracy()] *)
Definition call_get_validation_accuracy (dataset : Dataset T Input Model)
  : M (TrainState Model) T :=
  fun st => (record_call GetValidationAccuracy st,
             Ok (get_validation_accuracy dataset (self st))).

(** [self.<parameter>.update(direction, multiplier)] for the parameter read
    by [get] and written by [set]. *)
Definition update_parameter `{Scalar T} (get : Model -> nn.Tensor T)
  (set : Model -> nn.Tensor T -> Model) (direction : nn.Node T) (multiplier : T)
  : M (TrainState Model) unit :=
  writing (fun st =>
    (v <- nn.update (get (self st)) direction multiplier ;;
     Ok (mkState (set (self st) v) (calls st)))%result).

End DatasetCalls.

(** A computation that makes no call on the dataset. *)
Definition keeps_calls {Model A : Type} (c : M (TrainState Model) A) : Prop :=
  forall st, calls (fst (c st)) = calls st.

(** A property of the model of a state. *)
Definition model_satisfies {Model : Type} (Q : Model -> Prop)
  (st : TrainState Model) : Prop :=
  Q (self st).

(** The number of epochs started: the calls of [iterate_once]. *)
Definition epochs_started (l : list call) : nat :=
  length (filter (fun c => match c with IterateOnce _ => true | _ => false end) l).

(** The number of checks of the validation accuracy. *)
Definition accuracy_checks (l : list call) : nat :=
  length (filter (fun c => match c with GetValidationAccuracy => true | _ => false end) l).

(** Two batches of one width, one on top of the other ([numpy.vstack]). *)
Definition vstack {T : Type} (a b : nn.Tensor T) : nn.Tensor T :=
  nn.mkTensor (nn.rows a + nn.rows b) (nn.cols a) (nn.cells a ++ nn.cells b).

(** The sum of a list of rationals. *)
Definition qsum (l : list Q) : Q := fold_right Qplus 0%Q l.

(* ------------------------------------------------------------------ *)
(** * PerceptronModel *)

Module PerceptronModel.
Section Model.

Context {T : Type} `{Scalar T}.

Abbreviation Tensor := (nn.Tensor T).
Abbreviation Node := (nn.Node T).

(** [self.w = nn.Parameter(1, dimensions)] *)
Record Model : Type := mkModel {
  w : Tensor
}.

(** What [__init__(dimensions)] sets up: a parameter of shape
    (1 x dimensions), of any values. *)
Definition initialised (dimensions : nat) (m : Model) : Prop :=
  nn.shape (w m) = (1, dimensions) /\ nn.well_formed (w m).

Definition get_weights (m : Model) : Node := nn.parameter_node "w" (w m).

Definition run (m : Model) (x : Node) : result Node :=
  nn.DotProduct (get_weights m) x.

Definition get_prediction (m : Model) (x : Node) : result Z :=
  (score_node <- run m x ;;
   score <- nn.as_scalar score_node ;;
   if s_geb score s_zero then Ok 1%Z else Ok (-1)%Z)%result.

(** [nn.as_scalar(self.run(x))], the number [get_prediction] tests. *)
Definition score (m : Model) (x : Node) : result T :=
  (score_node <- run m x ;; nn.as_scalar score_node)%result.

Abbreviation State := (TrainState Model).

(** [self.w.update(direction, multiplier)] *)
Definition update_w (direction : Node) (multiplier : T) : M State unit :=
  update_parameter w (fun _ v => mkModel v) direction multiplier.

Open Scope train_scope.

(** The body of the [for] loop; [outcome] is the local flag. *)
Definition train_sample (outcome : bool) (xy : Node * Node) : M State bool :=
  let (x, y) := xy in
  label <- reading (fun _ => nn.as_scalar y) ;;
  prediction <- reading (fun st => get_prediction (self st) x) ;;
  if negb (s_eqb label (s_of_Z prediction)) then
    multiplier <- reading (fun _ => nn.as_scalar y) ;;
    update_w x multiplier ;;
    ret false
  else ret outcome.

(** One turn of the [while] loop up to its test: the flag after the pass. *)
Definition train_pass (dataset : Dataset T Node Model) : M State bool :=
  samples <- call_iterate_once dataset 1 ;;
  for_each train_sample samples true.

(** [while True: ... if outcome: break] *)
Definition train (fuel : nat) (dataset : Dataset T Node Model) (st : State)
  : option (State * result unit) :=
  while_true fuel (train_pass dataset) st.

(** What the test of the [if] says of a sample for the weights of [m]: the
    label and the predicted class are equal ([classified]) or differ
    ([misclassified]). *)
Definition classified (m : Model) (xy : Node * Node) : Prop :=
  exists label prediction,
    nn.as_scalar (snd xy) = Ok label /\
    get_prediction m (fst xy) = Ok prediction /\
    s_eqb label (s_of_Z prediction) = true.

Definition misclassified (m : Model) (xy : Node * Node) : Prop :=
  exists label prediction,
    nn.as_scalar (snd xy) = Ok label /\
    get_prediction m (fst xy) = Ok prediction /\
    s_eqb label (s_of_Z prediction) = false.

End Model.
End PerceptronModel.

(* ------------------------------------------------------------------ *)
(** * RegressionModel *)

Module RegressionModel.
Section Model.

Context {T : Type} `{Backend T}.

Abbreviation Tensor := (nn.Tensor T).
Abbreviation Node := (nn.Node T).

(** The four parameters made by [__init__]: [weight1] (1 x 100), [bias1]
    (1 x 100), [weight2] (100 x 1), [bias2] (1 x 1). *)
Record Model : Type := mkModel {
  weight1 : Tensor;
  bias1 : Tensor;
  weight2 : Tensor;
  bias2 : Tensor
}.

Definition batch_size : nat := 10.
Definition learning_rate : T := s_lit (-0.02)%Q.

(** What [__init__] sets up: parameters of these shapes, of any values. *)
Definition initialised (m : Model) : Prop :=
  (nn.shape (weight1 m) = (1, 100) /\ nn.well_formed (weight1 m)) /\
  (nn.shape (bias1 m) = (1, 100) /\ nn.well_formed (bias1 m)) /\
  (nn.shape (weight2 m) = (100, 1) /\ nn.well_formed (weight2 m)) /\
  (nn.shape (bias2 m) = (1, 1) /\ nn.well_formed (bias2 m)).

Definition weight1_node (m : Model) : Node := nn.parameter_node "weight1" (weight1 m).
Definition bias1_node (m : Model) : Node := nn.parameter_node "bias1" (bias1 m).
Definition weight2_node (m : Model) : Node := nn.parameter_node "weight2" (weight2 m).
Definition bias2_node (m : Model) : Node := nn.parameter_node "bias2" (bias2 m).

Definition run (m : Model) (x : Node) : result Node :=
  (l1 <- nn.Linear x (weight1_node m) ;;
   a1 <- nn.AddBias l1 (bias1_node m) ;;
   r1 <- nn.ReLU a1 ;;
   l2 <- nn.Linear r1 (weight2_node m) ;;
   nn.AddBias l2 (bias2_node m))%result.

Definition get_loss (m : Model) (x y : Node) : result Node :=
  (prediction <- run m x ;; SquareLoss prediction y)%result.

(** The shapes of the four parameters, in the order of the list given to
    [nn.gradients]. *)
Definition parameter_shapes (m : Model) : list (nat * nat) :=
  [nn.shape (weight1 m); nn.shape (weight2 m);
   nn.shape (bias1 m); nn.shape (bias2 m)].

Abbreviation State := (TrainState Model).

Definition set_weight1 (m : Model) (v : Tensor) : Model :=
  mkModel v (bias1 m) (weight2 m) (bias2 m).
Definition set_bias1 (m : Model) (v : Tensor) : Model :=
  mkModel (weight1 m) v (weight2 m) (bias2 m).
Definition set_weight2 (m : Model) (v : Tensor) : Model :=
  mkModel (weight1 m) (bias1 m) v (bias2 m).
Definition set_bias2 (m : Model) (v : Tensor) : Model :=
  mkModel (weight1 m) (bias1 m) (weight2 m) v.

Open Scope train_scope.

(** The body of the inner [for] loop. *)
Definition train_batch (xy : Node * Node) : M State unit :=
  let (x, y) := xy in
  gs <- reading (fun st =>
          let m := self st in
          (loss <- get_loss m x y ;;
           gradients loss
             [weight1_node m; weight2_node m; bias1_node m; bias2_node m])%result) ;;
  g0 <- reading (fun _ => getitem gs 0) ;;
  update_parameter weight1 set_weight1 g0 learning_rate ;;
  g1 <- reading (fun _ => getitem gs 1) ;;
  update_parameter weight2 set_weight2 g1 learning_rate ;;
  g2 <- reading (fun _ => getitem gs 2) ;;
  update_parameter bias1 set_bias1 g2 learning_rate ;;
  g3 <- reading (fun _ => getitem gs 3) ;;
  update_parameter bias2 set_bias2 g3 learning_rate.

(** The body of the outer [for] loop: the batch updates of an epoch. *)
Definition train_epoch (dataset : Dataset T Node Model) : M State unit :=
  batches <- call_iterate_once dataset 10 ;;
  for_each (fun _ xy => train_batch xy) batches tt.

(** [for i in range(1000): ...]; no turn leaves the loop. *)
Definition train (dataset : Dataset T Node Model) : M State unit :=
  for_range 1000 (train_epoch dataset ;; ret false).

End Model.
End RegressionModel.

(* ------------------------------------------------------------------ *)
(** * DigitClassificationModel *)

Module DigitClassificationModel.
Section Model.

Context {T : Type} `{Backend T}.

Abbreviation Tensor := (nn.Tensor T).
Abbreviation Node := (nn.Node T).

(** The four parameters made by [__init__]: [weight1] (784 x 100), [bias1]
    (1 x 100), [weight2] (100 x 10), [bias2] (1 x 10). *)
Record Model : Type := mkModel {
  weight1 : Tensor;
  bias1 : Tensor;
  weight2 : Tensor;
  bias2 : Tensor
}.

Definition batch_size : nat := 10.
Definition learning_rate : T := s_lit (-0.02)%Q.

(** What [__init__] sets up: parameters of these shapes, of any values. *)
Definition initialised (m : Model) : Prop :=
  (nn.shape (weight1 m) = (784, 100) /\ nn.well_formed (weight1 m)) /\
  (nn.shape (bias1 m) = (1, 100) /\ nn.well_formed (bias1 m)) /\
  (nn.shape (weight2 m) = (100, 10) /\ nn.well_formed (weight2 m)) /\
  (nn.shape (bias2 m) = (1, 10) /\ nn.well_formed (bias2 m)).

Definition weight1_node (m : Model) : Node := nn.parameter_node "weight1" (weight1 m).
Definition bias1_node (m : Model) : Node := nn.parameter_node "bias1" (bias1 m).
Definition weight2_node (m : Model) : Node := nn.parameter_node "weight2" (weight2 m).
Definition bias2_node (m : Model) : Node := nn.parameter_node "bias2" (bias2 m).

Definition run (m : Model) (x : Node) : result Node :=
  (first <- nn.Linear x (weight1_node m) ;;
   biased <- nn.AddBias first (bias1_node m) ;;
   rectified <- nn.ReLU biased ;;
   second <- nn.Linear rectified (weight2_node m) ;;
   nn.AddBias second (bias2_node m))%result.

Definition get_loss (m : Model) (x y : Node) : result Node :=
  (logits <- run m x ;; SoftmaxLoss logits y)%result.

(** The shapes of the four parameters, in the order of the list given to
    [nn.gradients]. *)
Definition parameter_shapes (m : Model) : list (nat * nat) :=
  [nn.shape (weight1 m); nn.shape (weight2 m);
   nn.shape (bias1 m); nn.shape (bias2 m)].

Abbreviation State := (TrainState Model).

Definition set_weight1 (m : Model) (v : Tensor) : Model :=
  mkModel v (bias1 m) (weight2 m) (bias2 m).
Definition set_bias1 (m : Model) (v : Tensor) : Model :=
  mkModel (weight1 m) v (weight2 m) (bias2 m).
Definition set_weight2 (m : Model) (v : Tensor) : Model :=
  mkModel (weight1 m) (bias1 m) v (bias2 m).
Definition set_bias2 (m : Model) (v : Tensor) : Model :=
  mkModel (weight1 m) (bias1 m) (weight2 m) v.

Open Scope train_scope.

(** The body of the inner [for] loop. *)
Definition train_batch (xy : Node * Node) : M State unit :=
  let (x, y) := xy in
  gs <- reading (fun st =>
          let m := self st in
          (loss <- get_loss m x y ;;
           gradients loss
             [weight1_node m; weight2_node m; bias1_node m; bias2_node m])%result) ;;
  g0 <- reading (fun _ => getitem gs 0) ;;
  update_parameter weight1 set_weight1 g0 learning_rate ;;
  g1 <- reading (fun _ => getitem gs 1) ;;
  update_parameter weight2 set_weight2 g1 learning_rate ;;
  g2 <- reading (fun _ => getitem gs 2) ;;
  update_parameter bias1 set_bias1 g2 learning_rate ;;
  g3 <- reading (fun _ => getitem gs 3) ;;
  update_parameter bias2 set_bias2 g3 learning_rate.

(** One turn of the outer [for] loop up to its test: the batch updates of an
    epoch, then the validation accuracy. *)
Definition train_epoch (dataset : Dataset T Node Model) : M State T :=
  batches <- call_iterate_once dataset batch_size ;;
  for_each (fun _ xy => train_batch xy) batches tt ;;
  call_get_validation_accuracy dataset.

(** The body of the outer [for] loop: an epoch, then the [return] when the
    accuracy is at least 0.97. *)
Definition train_turn (dataset : Dataset T Node Model) : M State bool :=
  accuracy <- train_epoch dataset ;;
  ret (s_geb accuracy (s_lit 0.97%Q)).

(** [for i in range(2000): ...] *)
Definition train (dataset : Dataset T Node Model) : M State unit :=
  for_range 2000 (train_turn dataset).

(** One batch of gradient updates, as a relation between the model before
    and the model after: the gradients of the loss of the batch are taken at
    the model before, and every parameter after is the update of the
    parameter before by the gradient at its own position, multiplied by the
    learning rate. *)
Definition batch_updated (m : Model) (xy : Node * Node) (m' : Model) : Prop :=
  exists loss gs g0 g1 g2 g3,
    get_loss m (fst xy) (snd xy) = Ok loss /\
    gradients loss [weight1_node m; weight2_node m; bias1_node m; bias2_node m]
      = Ok gs /\
    getitem gs 0 = Ok g0 /\ getitem gs 1 = Ok g1 /\
    getitem gs 2 = Ok g2 /\ getitem gs 3 = Ok g3 /\
    nn.update (weight1 m) g0 (s_lit (-0.02)%Q) = Ok (weight1 m') /\
    nn.update (weight2 m) g1 (s_lit (-0.02)%Q) = Ok (weight2 m') /\
    nn.update (bias1 m) g2 (s_lit (-0.02)%Q) = Ok (bias1 m') /\
    nn.update (bias2 m) g3 (s_lit (-0.02)%Q) = Ok (bias2 m').

(** A full epoch of gradient updates: every batch of the list, in order, each
    from the model the batch before it left. *)
Inductive epoch_updated : list (Node * Node) -> Model -> Model -> Prop :=
| epoch_updated_nil : forall m, epoch_updated [] m m
| epoch_updated_cons : forall xy l m m1 m2,
    batch_updated m xy m1 ->
    epoch_updated l m1 m2 ->
    epoch_updated (xy :: l) m m2.

End Model.
End DigitClassificationModel.

(* ------------------------------------------------------------------ *)
(** * LanguageIDModel *)

Module LanguageIDModel.
Section Model.

Context {T : Type} `{Backend T}.

Abbreviation Tensor := (nn.Tensor T).
Abbreviation Node := (nn.Node T).

(** The three parameters made by [__init__]: [weight] (47 x 300), [weight_h]
    (300 x 300), [weight_f] (300 x 5). *)
Record Model : Type := mkModel {
  weight : Tensor;
  weight_h : Tensor;
  weight_f : Tensor
}.

Definition num_chars : nat := 47.
Definition languages : list string :=
  ["English"; "Spanish"; "Finnish"; "Dutch"; "Polish"]%string.
Definition learning_rate : T := s_lit (-0.005)%Q.
Definition batch_size : nat := 2.
Definition hidden : nat := 300.
Definition dimension : nat := 5.

(** What [__init__] sets up: parameters of these shapes, of any values. *)
Definition initialised (m : Model) : Prop :=
  (nn.shape (weight m) = (num_chars, hidden) /\ nn.well_formed (weight m)) /\
  (nn.shape (weight_h m) = (hidden, hidden) /\ nn.well_formed (weight_h m)) /\
  (nn.shape (weight_f m) = (hidden, dimension) /\ nn.well_formed (weight_f m)).

Definition weight_node (m : Model) : Node := nn.parameter_node "weight" (weight m).
Definition weight_h_node (m : Model) : Node := nn.parameter_node "weight_h" (weight_h m).
Definition weight_f_node (m : Model) : Node := nn.parameter_node "weight_f" (weight_f m).

(** The body of the [for] loop of [run]; [first] is the local variable. *)
Definition run_step (m : Model) (first node : Node) : result Node :=
  (from_char <- nn.Linear node (weight_node m) ;;
   from_hidden <- nn.Linear first (weight_h_node m) ;;
   sum <- nn.Add from_char from_hidden ;;
   nn.ReLU sum)%result.

Definition run (m : Model) (xs : list Node) : result Node :=
  (x0 <- getitem xs 0 ;;
   first <- nn.Linear x0 (weight_node m) ;;
   first <- rfold (run_step m) (skipn 1 xs) first ;;
   nn.Linear first (weight_f_node m))%result.

Definition get_loss (m : Model) (xs : list Node) (y : Node) : result Node :=
  (logits <- run m xs ;; SoftmaxLoss logits y)%result.

(** The shapes of the three parameters, in the order of the list given to
    [nn.gradients]. *)
Definition parameter_shapes (m : Model) : list (nat * nat) :=
  [nn.shape (weight m); nn.shape (weight_h m); nn.shape (weight_f m)].

(** The hidden state [run] holds when its loop ends, before the final linear
    projection. *)
Definition final_hidden_state (m : Model) (xs : list Node) : result Node :=
  (x0 <- getitem xs 0 ;;
   first <- nn.Linear x0 (weight_node m) ;;
   rfold (run_step m) (skipn 1 xs) first)%result.

(** The recurrence in the words of the specification, to be compared with
    [run]: the hidden state at step 0 is a linear transform of the first
    character; at each later step [t] it is the rectified sum of the linear
    transform of character [t] and of the linear transform of the hidden state
    at step [t - 1]. *)
Fixpoint spec_hidden_state (m : Model) (xs : list Node) (t : nat) : result Node :=
  match t with
  | O => (x0 <- getitem xs 0 ;; nn.Linear x0 (weight_node m))%result
  | S t' =>
      (previous <- spec_hidden_state m xs t' ;;
       xt <- getitem xs t ;;
       from_char <- nn.Linear xt (weight_node m) ;;
       from_hidden <- nn.Linear previous (weight_h_node m) ;;
       sum <- nn.Add from_char from_hidden ;;
       nn.ReLU sum)%result
  end.

(** The value the specification gives to [run] on [L] characters: the linear
    projection of the hidden state at step [L - 1]. *)
Definition spec_run (m : Model) (xs : list Node) : result Node :=
  (final <- spec_hidden_state m xs (length xs - 1) ;;
   nn.Linear final (weight_f_node m))%result.

Abbreviation State := (TrainState Model).

Definition set_weight (m : Model) (v : Tensor) : Model :=
  mkModel v (weight_h m) (weight_f m).
Definition set_weight_h (m : Model) (v : Tensor) : Model :=
  mkModel (weight m) v (weight_f m).
Definition set_weight_f (m : Model) (v : Tensor) : Model :=
  mkModel (weight m) (weight_h m) v.

Open Scope train_scope.

(** The body of the [for] loop. *)
Definition train_batch (xy : list Node * Node) : M State unit :=
  let (x, y) := xy in
  gs <- reading (fun st =>
          let m := self st in
          (loss <- get_loss m x y ;;
           gradients loss [weight_node m; weight_h_node m; weight_f_node m])%result) ;;
  g0 <- reading (fun _ => getitem gs 0) ;;
  update_parameter weight set_weight g0 learning_rate ;;
  g1 <- reading (fun _ => getitem gs 1) ;;
  update_parameter weight_h set_weight_h g1 learning_rate ;;
  g2 <- reading (fun _ => getitem gs 2) ;;
  update_parameter weight_f set_weight_f g2 learning_rate.

(** One turn of the [while] loop up to its test: the batch updates of an
    epoch, then the validation accuracy. *)
Definition train_epoch (dataset : Dataset T (list Node) Model) : M State T :=
  batches <- call_iterate_once dataset batch_size ;;
  for_each (fun _ xy => train_batch xy) batches tt ;;
  call_get_validation_accuracy dataset.

(** The body of the [while] loop: an epoch, then the [return] when the
    accuracy is at least 0.82. *)
Definition train_turn (dataset : Dataset T (list Node) Model) : M State bool :=
  accuracy <- train_epoch dataset ;;
  ret (s_geb accuracy (s_lit 0.82%Q)).

(** [while True: ...] *)
Definition train (fuel : nat) (dataset : Dataset T (list Node) Model) (st : State)
  : option (State * result unit) :=
  while_true fuel (train_turn dataset) st.

(** One batch of gradient updates, as a relation between the model before
    and the model after: the gradients of the loss of the batch are taken at
    the model before, and every parameter after is the update of the
    parameter before by the gradient at its own position, multiplied by the
    learning rate. *)
Definition batch_updated (m : Model) (xy : list Node * Node) (m' : Model)
  : Prop :=
  exists loss gs g0 g1 g2,
    get_loss m (fst xy) (snd xy) = Ok loss /\
    gradients loss [weight_node m; weight_h_node m; weight_f_node m] = Ok gs /\
    getitem gs 0 = Ok g0 /\ getitem gs 1 = Ok g1 /\ getitem gs 2 = Ok g2 /\
    nn.update (weight m) g0 (s_lit (-0.005)%Q) = Ok (weight m') /\
    nn.update (weight_h m) g1 (s_lit (-0.005)%Q) = Ok (weight_h m') /\
    nn.update (weight_f m) g2 (s_lit (-0.005)%Q) = Ok (weight_f m').

(** A full epoch of gradient updates: every batch of the list, in order, each
    from the model the batch before it left. *)
Inductive epoch_updated : list (list Node * Node) -> Model -> Model -> Prop :=
| epoch_updated_nil : forall m, epoch_updated [] m m
| epoch_updated_cons : forall xy l m m1 m2,
    batch_updated m xy m1 ->
    epoch_updated l m1 m2 ->
    epoch_updated (xy :: l) m m2.

End Model.
End LanguageIDModel.


(* ------------------------------------------------------------------ *)
(** * Concrete engines and datasets

    The arithmetics and the data on which the models are run below.  The
    lemmas on the models hold for every [Scalar] and every [Backend]; these
    instances make them computable. *)

Module Instances.

(** A tensor from its rows, as [numpy.array] reads them. *)
Definition tensor {T : Type} (cells : list (list T)) : nn.Tensor T :=
  nn.mkTensor (length cells) (length (hd [] cells)) cells.

(** A tensor with every entry [v]. *)
Definition full {T : Type} (rows cols : nat) (v : T) : nn.Tensor T :=
  nn.mkTensor rows cols (repeat (repeat v cols) rows).

Definition constant {T : Type} (cells : list (list T)) : nn.Node T :=
  nn.Constant (tensor cells).

(** A stand-in for the differentiation engine over the rationals: the square
    loss is the sum of the squared differences, the softmax loss is not
    computed, and every gradient is the tensor of ones of the shape of its
    parameter.  The training loops do not look inside a gradient. *)
#[export] Instance stand_in : @Backend Q _ := {
  square_loss := fun a b =>
    Ok (tensor [[fold_left Qplus
                   (concat (nn.zip_with
                              (nn.zip_with (fun u v => Qred ((u - v) * (u - v))%Q))
                              (nn.cells a) (nn.cells b)))
                   0%Q]]);
  softmax_loss := fun _ _ => Ok (tensor [[0%Q]]);
  gradients := fun _ parameters =>
    Ok (map (fun p => nn.Constant
                        (full (nn.rows (nn.data p)) (nn.cols (nn.data p)) 1%Q))
          parameters)
}.

(** ** A perceptron on three points of the plane *)

Definition perceptron0 : PerceptronModel.Model (T := Q) :=
  PerceptronModel.mkModel (tensor [[0; 0]]%Q).

Definition points : Dataset Q (nn.Node Q) (PerceptronModel.Model (T := Q)) :=
  mkDataset
    (fun _ => [ (constant [[1; 1]]%Q, constant [[1]]%Q);
                (constant [[-1; -1]]%Q, constant [[-1]]%Q);
                (constant [[1; -2]]%Q, constant [[-1]]%Q) ])
    (fun _ => 1%Q).

(** The weights after the first pass and the states the loop goes through. *)
Definition perceptron1 : PerceptronModel.Model (T := Q) :=
  PerceptronModel.mkModel (tensor [[1; 1]]%Q).

Definition perceptron_start : TrainState (PerceptronModel.Model (T := Q)) :=
  mkState perceptron0 [].
Definition perceptron_middle : TrainState (PerceptronModel.Model (T := Q)) :=
  mkState perceptron1 [IterateOnce 1].
Definition perceptron_end : TrainState (PerceptronModel.Model (T := Q)) :=
  mkState perceptron1 [IterateOnce 1; IterateOnce 1].

(** ** A regression and a digit model of small width *)

Definition regression0 : RegressionModel.Model (T := Q) :=
  RegressionModel.mkModel
    (tensor [[1; -1]]%Q) (tensor [[0; 0]]%Q)
    (tensor [[1]; [1]]%Q) (tensor [[0]]%Q).

Definition two_batches
  : Dataset Q (nn.Node Q) (RegressionModel.Model (T := Q)) :=
  mkDataset
    (fun _ => [ (constant [[1]; [2]]%Q, constant [[1]; [0]]%Q);
                (constant [[-1]; [3]]%Q, constant [[0]; [1]]%Q) ])
    (fun _ => 0%Q).

Definition digit0 : DigitClassificationModel.Model (T := Q) :=
  DigitClassificationModel.mkModel
    (tensor [[1; -1]; [0; 1]]%Q) (tensor [[0; 0]]%Q)
    (tensor [[1; 0]; [0; 1]]%Q) (tensor [[0; 0]]%Q).

Definition regression_start : TrainState (RegressionModel.Model (T := Q)) :=
  mkState regression0 [].

(** The state after 1000 epochs of two batches: every entry has lost
    2000 * 0.02. *)
Definition regression_end : TrainState (RegressionModel.Model (T := Q)) :=
  mkState
    (RegressionModel.mkModel
       (tensor [[-39; -41]]%Q) (tensor [[-40; -40]]%Q)
       (tensor [[-39]; [-39]]%Q) (tensor [[-40]]%Q))
    (repeat (IterateOnce 10) 1000).

(** A digit dataset of five batches whose accuracy grows as [bias2] goes
    down: the negated first entry of [bias2], 0.1 more after each epoch. *)
Definition digits
  : Dataset Q (nn.Node Q) (DigitClassificationModel.Model (T := Q)) :=
  mkDataset
    (fun _ => repeat (constant [[1; 2]]%Q, constant [[1; 0]]%Q) 5)
    (fun m => Qopp (nn.cell (DigitClassificationModel.bias2 m) 0 0)).

(** A digit dataset that every model passes. *)
Definition easy_digits
  : Dataset Q (nn.Node Q) (DigitClassificationModel.Model (T := Q)) :=
  mkDataset
    (fun _ => [ (constant [[1; 2]]%Q, constant [[1; 0]]%Q) ])
    (fun _ => 1%Q).

Definition digit_start : TrainState (DigitClassificationModel.Model (T := Q)) :=
  mkState digit0 [].

(** The state after 10 epochs of five batches on [digits]: every entry has
    lost 50 * 0.02 and the accuracy is 1. *)
Definition digit_end : TrainState (DigitClassificationModel.Model (T := Q)) :=
  mkState
    (DigitClassificationModel.mkModel
       (tensor [[0; -2]; [-1; 0]]%Q) (tensor [[-1; -1]]%Q)
       (tensor [[0; -1]; [-1; 0]]%Q) (tensor [[-1; -1]]%Q))
    (concat (repeat [IterateOnce 10; GetValidationAccuracy] 10)).

(** The state after the batch of one epoch on [easy_digits]: every entry has
    lost 0.02. *)
Definition digit_easy_epoch : TrainState (DigitClassificationModel.Model (T := Q)) :=
  mkState
    (DigitClassificationModel.mkModel
       (tensor [[49 # 50; -51 # 50]; [-1 # 50; 49 # 50]]%Q)
       (tensor [[-1 # 50; -1 # 50]]%Q)
       (tensor [[49 # 50; -1 # 50]; [-1 # 50; 49 # 50]]%Q)
       (tensor [[-1 # 50; -1 # 50]]%Q))
    [IterateOnce 10].

Definition digit_easy_end : TrainState (DigitClassificationModel.Model (T := Q)) :=
  mkState (self digit_easy_epoch) [IterateOnce 10; GetValidationAccuracy].

(** ** A language model of small width *)

Definition language0 : LanguageIDModel.Model (T := Q) :=
  LanguageIDModel.mkModel
    (tensor [[1; 0]; [0; 1]]%Q) (tensor [[1; -1]; [1; 1]]%Q)
    (tensor [[1]; [2]]%Q).

Definition word : list (nn.Node Q) :=
  [ constant [[1; 0]]%Q; constant [[0; 1]]%Q; constant [[1; 0]]%Q ].

(** A language dataset whose accuracy is 0.80 plus what the first entry of
    [weight_f] has lost: 0.01 more after each epoch of two batches. *)
Definition words
  : Dataset Q (list (nn.Node Q)) (LanguageIDModel.Model (T := Q)) :=
  mkDataset
    (fun _ => [ (word, constant [[1]]%Q); (word, constant [[0]]%Q) ])
    (fun m => (0.80 + (1 - nn.cell (LanguageIDModel.weight_f m) 0 0))%Q).

Definition language_start : TrainState (LanguageIDModel.Model (T := Q)) :=
  mkState language0 [].

(** The state after two epochs of two batches on [words]: every entry has
    lost 4 * 0.005 and the accuracy is 0.82. *)
Definition language_end : TrainState (LanguageIDModel.Model (T := Q)) :=
  mkState
    (LanguageIDModel.mkModel
       (tensor [[49 # 50; -1 # 50]; [-1 # 50; 49 # 50]]%Q)
       (tensor [[49 # 50; -51 # 50]; [49 # 50; 49 # 50]]%Q)
       (tensor [[49 # 50]; [99 # 50]]%Q))
    [IterateOnce 2; GetValidationAccuracy; IterateOnce 2; GetValidationAccuracy].

(** A language dataset that no model passes. *)
Definition hard_words
  : Dataset Q (list (nn.Node Q)) (LanguageIDModel.Model (T := Q)) :=
  mkDataset (fun _ => [ (word, constant [[1]]%Q) ]) (fun _ => 0%Q).

(** A language dataset without a word that no model passes. *)
Definition no_words
  : Dataset Q (list (nn.Node Q)) (LanguageIDModel.Model (T := Q)) :=
  mkDataset (fun _ => []) (fun _ => 0.5%Q).

(** A language model with the parameter shapes of [__init__], and a word of
    four characters for a batch of two. *)
Definition language_full : LanguageIDModel.Model (T := Q) :=
  LanguageIDModel.mkModel (full 47 300 1%Q) (full 300 300 0%Q) (full 300 5 1%Q).

Definition four_characters : list (nn.Node Q) :=
  repeat (nn.Constant (full 2 47 1%Q)) 4.

(** ** Models with the parameter shapes of [__init__] *)

Definition regression_full : RegressionModel.Model (T := Q) :=
  RegressionModel.mkModel
    (full 1 100 1%Q) (full 1 100 0%Q) (full 100 1 1%Q) (full 1 1 0%Q).

Definition digit_full : DigitClassificationModel.Model (T := Q) :=
  DigitClassificationModel.mkModel
    (full 784 100 1%Q) (full 1 100 0%Q) (full 100 10 1%Q) (full 1 10 0%Q).

(** The node [run] returns for [regression0], when it returns. *)
Definition regression_value (x : nn.Node Q) : nn.Node Q :=
  match RegressionModel.run regression0 x with
  | Ok n => n
  | Raise _ => x
  end.

(** ** Data on which a training fails *)

(** A differentiation engine that forgets the gradients after the second. *)
Definition two_gradients : @Backend Q _ := {|
  square_loss := @square_loss Q _ stand_in;
  softmax_loss := @softmax_loss Q _ stand_in;
  gradients := fun loss parameters =>
    rbind (@gradients Q _ stand_in loss parameters) (fun gs => Ok (firstn 2 gs))
|}.

(** A regression dataset whose second batch has two columns. *)
Definition second_batch_too_wide
  : Dataset Q (nn.Node Q) (RegressionModel.Model (T := Q)) :=
  mkDataset
    (fun _ => [ (constant [[1]; [2]]%Q, constant [[1]; [0]]%Q);
                (constant [[1; 1]; [2; 2]]%Q, constant [[1]; [0]]%Q);
                (constant [[3]; [4]]%Q, constant [[1]; [0]]%Q) ])
    (fun _ => 0%Q).

(** The state after the first batch: every entry has lost 0.02. *)
Definition regression_one_batch : TrainState (RegressionModel.Model (T := Q)) :=
  mkState
    (RegressionModel.mkModel
       (tensor [[49 # 50; -51 # 50]]%Q) (tensor [[-1 # 50; -1 # 50]]%Q)
       (tensor [[49 # 50]; [49 # 50]]%Q) (tensor [[-1 # 50]]%Q))
    [IterateOnce 10].

(** The state after the two updates that [two_gradients] allows. *)
Definition regression_two_updates : TrainState (RegressionModel.Model (T := Q)) :=
  mkState
    (RegressionModel.mkModel
       (tensor [[49 # 50; -51 # 50]]%Q) (tensor [[0; 0]]%Q)
       (tensor [[49 # 50]; [49 # 50]]%Q) (tensor [[0]]%Q))
    [].


End Instances.
(* ------------------------------------------------------------------ *)
(** * Properties of the engine *)

Section EngineFacts.

Context {T : Type} `{Scalar T}.

Abbreviation Tensor := (nn.Tensor T).
Abbreviation Node := (nn.Node T).

Lemma zip_with_length (A B C : Type) (f : A -> B -> C) (l : list A) (m : list B) :
  length l = length m -> length (nn.zip_with f l m) = length l.
Proof.
  revert m; induction l as [|a l IH]; intros [|b m]; simpl; intros E;
    try discriminate; auto.
Qed.

Lemma zip_with_nth (A B C : Type) (f : A -> B -> C) (da : A) (db : B) (dc : C) :
  forall (l : list A) (m : list B) (i : nat),
    i < length l -> i < length m ->
    nth i (nn.zip_with f l m) dc = f (nth i l da) (nth i m db).
Proof.
  induction l as [|a l IH]; intros [|b m] [|i]; simpl; intros Hl Hm;
    try lia; auto.
  apply IH; lia.
Qed.

Lemma zip_with_Forall (A B C : Type) (f : A -> B -> C) (P : C -> Prop) :
  forall (l : list A) (m : list B),
    (forall a b, In a l -> In b m -> P (f a b)) ->
    Forall P (nn.zip_with f l m).
Proof.
  induction l as [|a l IH]; intros [|b m] Hf; simpl; constructor.
  - apply Hf; simpl; auto.
  - apply IH; intros; apply Hf; simpl; auto.
Qed.

Lemma well_formedb_spec (t : Tensor) :
  nn.well_formedb t = true <-> nn.well_formed t.
Proof.
  unfold nn.well_formedb, nn.well_formed.
  rewrite andb_true_iff, Nat.eqb_eq, forallb_forall, Forall_forall.
  split; intros [E F]; split; auto; intros r Hr.
  - apply Nat.eqb_eq; auto.
  - apply Nat.eqb_eq; auto.
Qed.

Lemma same_shape_spec (a b : Tensor) :
  nn.same_shape a b = true <-> nn.shape a = nn.shape b.
Proof.
  unfold nn.same_shape, nn.shape.
  rewrite andb_true_iff, !Nat.eqb_eq.
  split; [intros [-> ->]; reflexivity | intros E; inversion E; auto].
Qed.

Lemma shape_inv (t : Tensor) (r c : nat) :
  nn.shape t = (r, c) -> nn.rows t = r /\ nn.cols t = c.
Proof. unfold nn.shape. intros E. split; congruence. Qed.

(** The shape and the cells of what the constructors build. *)

Lemma Linear_shape (x wt : Node) :
  nn.cols (nn.data x) = nn.rows (nn.data wt) ->
  nn.well_formed (nn.data x) ->
  exists n, nn.Linear x wt = Ok n /\
    nn.graph n = nn.GLinear (nn.graph x) (nn.graph wt) /\
    nn.shape (nn.data n) = (nn.rows (nn.data x), nn.cols (nn.data wt)) /\
    nn.well_formed (nn.data n).
Proof.
  intros E [Hr Hc]. unfold nn.Linear.
  rewrite E, Nat.eqb_refl. simpl.
  eexists; split; [reflexivity|]. simpl.
  repeat split.
  - simpl. rewrite length_map. exact Hr.
  - simpl. apply Forall_forall. intros r Hin.
    apply in_map_iff in Hin. destruct Hin as [r0 [<- _]].
    rewrite length_map, length_seq. reflexivity.
Qed.

Lemma Add_shape (x y : Node) :
  nn.shape (nn.data x) = nn.shape (nn.data y) ->
  nn.well_formed (nn.data x) -> nn.well_formed (nn.data y) ->
  exists n, nn.Add x y = Ok n /\
    nn.graph n = nn.GAdd (nn.graph x) (nn.graph y) /\
    nn.shape (nn.data n) = nn.shape (nn.data x) /\
    nn.well_formed (nn.data n).
Proof.
  intros E [Hr Hc] [Hr' Hc']. unfold nn.Add.
  rewrite (proj2 (same_shape_spec _ _) E). simpl.
  inversion E as [[Er Ec]].
  eexists; split; [reflexivity|]. simpl.
  repeat split; simpl.
  - rewrite zip_with_length; congruence.
  - apply zip_with_Forall. intros a b Ha Hb.
    rewrite Forall_forall in Hc, Hc'.
    rewrite zip_with_length; rewrite (Hc a Ha); auto.
    rewrite (Hc' b Hb); auto.
Qed.

Lemma ReLU_shape (x : Node) :
  nn.well_formed (nn.data x) ->
  exists n, nn.ReLU x = Ok n /\
    nn.graph n = nn.GReLU (nn.graph x) /\
    nn.shape (nn.data n) = nn.shape (nn.data x) /\
    nn.well_formed (nn.data n).
Proof.
  intros [Hr Hc]. unfold nn.ReLU.
  eexists; split; [reflexivity|]. simpl.
  repeat split; simpl.
  - rewrite length_map; exact Hr.
  - rewrite Forall_forall in *. intros r Hin.
    apply in_map_iff in Hin. destruct Hin as [r0 [<- Hin]].
    rewrite length_map. auto.
Qed.

(** A tensor of one row is that row. *)
Lemma one_row (t : Tensor) :
  nn.rows t = 1 -> nn.well_formed t ->
  nn.cells t = [nn.first_row t] /\ length (nn.first_row t) = nn.cols t.
Proof.
  intros E [Hr Hc]. unfold nn.first_row.
  rewrite E in Hr.
  destruct (nn.cells t) as [|r [|r' l]]; simpl in *; try discriminate.
  inversion Hc; subst. auto.
Qed.

(** The score of one sample against one row of weights. *)
Lemma DotProduct_single (a b : Node) :
  nn.rows (nn.data a) = 1 -> nn.rows (nn.data b) = 1 ->
  nn.cols (nn.data a) = nn.cols (nn.data b) ->
  nn.well_formed (nn.data a) ->
  exists n, nn.DotProduct a b = Ok n /\
    nn.as_scalar n =
      Ok (nn.dot (nn.first_row (nn.data a)) (nn.first_row (nn.data b))).
Proof.
  intros Ea Eb Ec Wa. unfold nn.DotProduct.
  rewrite Eb, Ec, !Nat.eqb_refl. simpl.
  eexists; split; [reflexivity|].
  unfold nn.as_scalar. simpl. rewrite Ea. simpl.
  destruct (one_row Ea Wa) as [-> _]. reflexivity.
Qed.

End EngineFacts.

(* ------------------------------------------------------------------ *)
(** * Parameter.update *)

Section UpdateFacts.

Context {T : Type} `{Scalar T}.

Abbreviation Tensor := (nn.Tensor T).
Abbreviation Node := (nn.Node T).

Lemma zip_with_Forall2_left (A B : Type) (f : A -> B -> A) (R : A -> A -> Prop) :
  forall (l : list A) (m : list B),
    length l = length m ->
    (forall a b, In a l -> In b m -> R (f a b) a) ->
    Forall2 R (nn.zip_with f l m) l.
Proof.
  induction l as [|a l IH]; intros [|b m] E Hf; simpl in *;
    try discriminate; constructor.
  - apply Hf; auto.
  - apply IH; [lia | intros; apply Hf; auto].
Qed.

Lemma Forall2_eq_rows (A : Type) (l m : list (list A)) :
  Forall2 (Forall2 eq) l m -> l = m.
Proof.
  induction 1 as [|r r' l m Hr _ IH]; [reflexivity|].
  f_equal; [|exact IH].
  induction Hr; [reflexivity | f_equal; auto].
Qed.

Lemma row_length (t : Tensor) (i : nat) :
  nn.well_formed t -> i < nn.rows t -> length (nth i (nn.cells t) []) = nn.cols t.
Proof.
  intros [Hr Hc] Hi. rewrite Forall_forall in Hc.
  apply Hc, nth_In. lia.
Qed.

Lemma update_ok (p : Tensor) (d : Node) (s : T) :
  nn.shape (nn.data d) = nn.shape p ->
  nn.update p d s =
    Ok (nn.mkTensor (nn.rows p) (nn.cols p)
          (nn.zip_with (nn.zip_with (fun a g => s_add a (s_mul s g)))
             (nn.cells p) (nn.cells (nn.data d)))).
Proof.
  intros E. unfold nn.update.
  rewrite (proj2 (same_shape_spec _ _) E). reflexivity.
Qed.

(** C8 (Parameter.update).  On a parameter [p] and a direction [d] of the shape
    of [p], [update] with step size [s] succeeds, keeps the shape, and sets
    every entry to [p + s * d].  With step size 0 the parameter is unchanged:
    entry by entry up to any relation [R] for which [a + 0 * b] is [a] (the
    equality of rationals, say), and as a value when [a + 0 * b = a] holds
    as an equality. *)
Theorem update_adds_scaled_direction (p : Tensor) (d : Node) :
  nn.well_formed p -> nn.well_formed (nn.data d) ->
  nn.shape (nn.data d) = nn.shape p ->
  (forall s : T, exists p',
      nn.update p d s = Ok p' /\ nn.shape p' = nn.shape p /\
      nn.well_formed p' /\
      forall i j, i < nn.rows p -> j < nn.cols p ->
        nn.cell p' i j =
          s_add (nn.cell p i j) (s_mul s (nn.cell (nn.data d) i j)))
  /\ (forall R : T -> T -> Prop,
        (forall a b, R (s_add a (s_mul s_zero b)) a) ->
        exists p0, nn.update p d s_zero = Ok p0 /\ nn.cells_related R p0 p)
  /\ ((forall a b : T, s_add a (s_mul s_zero b) = a) ->
      nn.update p d s_zero = Ok p).
Proof.
  intros Wp Wd E.
  assert (Er : nn.rows (nn.data d) = nn.rows p) by (inversion E; auto).
  assert (Ec : nn.cols (nn.data d) = nn.cols p) by (inversion E; auto).
  assert (Hrel : forall R : T -> T -> Prop,
             (forall a b, R (s_add a (s_mul s_zero b)) a) ->
             Forall2 (Forall2 R)
               (nn.zip_with (nn.zip_with (fun a g => s_add a (s_mul s_zero g)))
                  (nn.cells p) (nn.cells (nn.data d)))
               (nn.cells p)).
  { intros R HR. destruct Wp as [Hr Hc], Wd as [Hr' Hc'].
    rewrite Forall_forall in Hc, Hc'.
    apply zip_with_Forall2_left; [congruence|].
    intros a b Ha Hb.
    apply zip_with_Forall2_left; [|intros; apply HR].
    rewrite (Hc a Ha), (Hc' b Hb); auto. }
  split; [|split].
  - intros s. eexists; split; [apply update_ok; exact E|].
    split; [reflexivity|]. split.
    + destruct Wp as [Hr Hc], Wd as [Hr' Hc']. split; simpl.
      * rewrite zip_with_length; congruence.
      * rewrite Forall_forall in Hc, Hc'.
        apply zip_with_Forall. intros a b Ha Hb.
        rewrite zip_with_length; rewrite (Hc a Ha); auto.
        rewrite (Hc' b Hb); auto.
    + intros i j Hi Hj. unfold nn.cell; simpl.
      rewrite (zip_with_nth _ [] [] []).
      * apply (zip_with_nth (fun a g => s_add a (s_mul s g)) s_zero s_zero s_zero).
        -- rewrite row_length; auto.
        -- rewrite row_length; auto; lia.
      * destruct Wp; lia.
      * destruct Wd; lia.
  - intros R HR. eexists; split; [apply update_ok; exact E|].
    split; [reflexivity|]. simpl. apply Hrel, HR.
  - intros Heq. rewrite update_ok by exact E.
    rewrite (Forall2_eq_rows (Hrel eq Heq)).
    destruct p; reflexivity.
Qed.

End UpdateFacts.

(* ------------------------------------------------------------------ *)
(** * The training monad *)

Section MonadFacts.

Context {St A B : Type}.

Lemma for_each_cons (body : B -> A -> M St B) (a : A) (l : list A) (acc : B)
  (st : St) :
  for_each body (a :: l) acc st =
    match body acc a st with
    | (st', Ok b) => for_each body l b st'
    | (st', Raise e) => (st', Raise e)
    end.
Proof. reflexivity. Qed.

Lemma for_each_app (body : B -> A -> M St B) (l1 l2 : list A) (acc : B) (st : St) :
  for_each body (l1 ++ l2) acc st =
    match for_each body l1 acc st with
    | (st', Ok b) => for_each body l2 b st'
    | (st', Raise e) => (st', Raise e)
    end.
Proof.
  revert acc st; induction l1 as [|a l1 IH]; intros acc st; [reflexivity|].
  simpl app. rewrite !for_each_cons.
  destruct (body acc a st) as [st' [b|e]]; [apply IH | reflexivity].
Qed.

End MonadFacts.

Section LoopFacts.

Context {St : Type}.

Variable body : M St bool.

(** A [while True] loop returns exactly after the first turn that leaves
    it. *)
Lemma while_true_returns_iff (fuel : nat) :
  forall st st' : St,
    while_true fuel body st = Some (st', Ok tt) <->
    exists k st_k, k < fuel /\ turns body k st st_k /\
      body st_k = (st', Ok true).
Proof.
  induction fuel as [|fuel IH]; intros st st'.
  - simpl. split; [discriminate | intros [k [? [Hk _]]]; lia].
  - simpl. destruct (body st) as [st1 [[|]|e]] eqn:E1.
    + split.
      * intros E; inversion E; subst. exists 0, st.
        split; [lia|]. split; [constructor | exact E1].
      * intros [k [st_k [Hk [Hp Hlast]]]].
        inversion Hp; subst; congruence.
    + rewrite IH. split.
      * intros [k [st_k [Hk [Hp Hlast]]]]. exists (S k), st_k.
        split; [lia|]. split; [econstructor; eauto | exact Hlast].
      * intros [k [st_k [Hk [Hp Hlast]]]].
        inversion Hp; subst; [congruence|].
        exists k0, st_k. split; [lia|].
        split; [congruence | exact Hlast].
    + split; [discriminate|].
      intros [k [st_k [Hk [Hp Hlast]]]]. inversion Hp; subst; congruence.
Qed.

(** It runs out of fuel exactly when as many turns as there is fuel go by
    without leaving it. *)
Lemma while_true_out_of_fuel_iff (fuel : nat) :
  forall st : St,
    while_true fuel body st = None <-> exists st', turns body fuel st st'.
Proof.
  induction fuel as [|fuel IH]; intros st.
  - simpl. split; [intros _; exists st; constructor | reflexivity].
  - simpl. destruct (body st) as [st1 [[|]|e]] eqn:E1.
    + split; [discriminate|].
      intros [st' Hp]. inversion Hp; subst; congruence.
    + rewrite IH. split.
      * intros [st' Hp]. exists st'. econstructor; eauto.
      * intros [st' Hp]. inversion Hp; subst.
        exists st'. congruence.
    + split; [discriminate|].
      intros [st' Hp]. inversion Hp; subst; congruence.
Qed.

(** A [for] loop over a range returns after the first turn that leaves it,
    or after all its turns. *)
Lemma for_range_returns_iff (n : nat) :
  forall st st' : St,
    for_range n body st = (st', Ok tt) <->
    (exists k st_k, k < n /\ turns body k st st_k /\
       body st_k = (st', Ok true)) \/
    turns body n st st'.
Proof.
  induction n as [|n IH]; intros st st'.
  - simpl. unfold ret. split.
    + intros E; inversion E; subst. right; constructor.
    + intros [[k [? [Hk _]]]|Hp]; [lia|]. inversion Hp; subst; reflexivity.
  - simpl. unfold bind. destruct (body st) as [st1 [[|]|e]] eqn:E1.
    + unfold ret. split.
      * intros E; inversion E; subst. left. exists 0, st.
        split; [lia|]. split; [constructor | exact E1].
      * intros [[k [st_k [Hk [Hp Hlast]]]]|Hp];
          inversion Hp; subst; congruence.
    + rewrite IH. split.
      * intros [[k [st_k [Hk [Hp Hlast]]]]|Hp].
        -- left. exists (S k), st_k.
           split; [lia|]. split; [econstructor; eauto | exact Hlast].
        -- right. econstructor; eauto.
      * intros [[k [st_k [Hk [Hp Hlast]]]]|Hp].
        -- inversion Hp; subst; [congruence|].
           left. exists k0, st_k. split; [lia|].
           split; [congruence | exact Hlast].
        -- inversion Hp; subst. right. congruence.
    + split; [discriminate|].
      intros [[k [st_k [Hk [Hp Hlast]]]]|Hp]; inversion Hp; subst; congruence.
Qed.

(** A loop that returns has gone through its first turn. *)
Lemma while_true_first_turn (fuel : nat) (st st' : St) :
  while_true fuel body st = Some (st', Ok tt) ->
  exists st1 leave, body st = (st1, Ok leave).
Proof.
  destruct fuel as [|fuel]; simpl; [discriminate|].
  destruct (body st) as [st1 [leave|e]]; [eauto | discriminate].
Qed.

Lemma for_range_first_turn (n : nat) (st st' : St) :
  0 < n -> for_range n body st = (st', Ok tt) ->
  exists st1 leave, body st = (st1, Ok leave).
Proof.
  destruct n as [|n]; [lia|]. intros _. simpl. unfold bind.
  destruct (body st) as [st1 [leave|e]]; [eauto | discriminate].
Qed.


End LoopFacts.

Section InvariantFacts.

Context {St : Type}.

Variable P : St -> Prop.

Lemma bind_invariant (A B : Type) (c : M St A) (k : A -> M St B) :
  (forall st, P st -> P (fst (c st))) ->
  (forall a st, P st -> P (fst (k a st))) ->
  forall st, P st -> P (fst (bind c k st)).
Proof.
  intros Hc Hk st Hst. unfold bind. specialize (Hc st Hst).
  destruct (c st) as [st1 [a|e]]; simpl in *; auto.
Qed.

Lemma for_each_invariant (A B : Type) (body : B -> A -> M St B) (l : list A) :
  (forall b a st, In a l -> P st -> P (fst (body b a st))) ->
  forall acc st, P st -> P (fst (for_each body l acc st)).
Proof.
  induction l as [|a l IH]; intros Hbody acc st Hst; simpl; [exact Hst|].
  apply bind_invariant;
    [ intros st0; apply Hbody; left; reflexivity
    | intros b st0; apply IH; intros b0 a0 st1 Hin; apply Hbody; right; exact Hin
    | exact Hst ].
Qed.

Lemma while_true_invariant (body : M St bool) :
  (forall st, P st -> P (fst (body st))) ->
  forall fuel st st' r,
    P st -> while_true fuel body st = Some (st', r) -> P st'.
Proof.
  intros Hbody. induction fuel as [|fuel IH]; intros st st' r Hst; simpl;
    [discriminate|].
  specialize (Hbody st Hst).
  destruct (body st) as [st1 [[|]|e]]; simpl in Hbody; intros E.
  - inversion E; subst; exact Hbody.
  - exact (IH st1 st' r Hbody E).
  - inversion E; subst; exact Hbody.
Qed.

Lemma for_range_invariant (body : M St bool) :
  (forall st, P st -> P (fst (body st))) ->
  forall n st, P st -> P (fst (for_range n body st)).
Proof.
  intros Hbody. induction n as [|n IH]; intros st Hst; simpl; [exact Hst|].
  apply bind_invariant;
    [ exact Hbody
    | intros [|] st0 Hst0; [exact Hst0 | apply IH, Hst0]
    | exact Hst ].
Qed.

End InvariantFacts.


Section RaiseFacts.

Context {St : Type}.

(** A [for] loop over a list raises exactly at its first element whose body
    raises: with that exception, in the state that body left, the elements
    after it untouched. *)
Lemma for_each_raises_iff (A B : Type) (body : B -> A -> M St B) (l : list A) :
  forall (acc : B) (st st' : St) (e : exn),
    for_each body l acc st = (st', Raise e) <->
    exists l1 a l2 acc1 st1,
      l = l1 ++ a :: l2 /\
      for_each body l1 acc st = (st1, Ok acc1) /\
      body acc1 a st1 = (st', Raise e).
Proof.
  induction l as [|a l IH]; intros acc st st' e.
  - simpl. unfold ret. split; [discriminate|].
    intros [l1 [a [l2 [? [? [E _]]]]]]. destruct l1; discriminate.
  - rewrite for_each_cons. destruct (body acc a st) as [st1 [b|e1]] eqn:E1.
    + rewrite IH. split.
      * intros [l1 [a0 [l2 [acc1 [st2 [-> [Hl1 Hb]]]]]]].
        exists (a :: l1), a0, l2, acc1, st2.
        split; [reflexivity|]. split; [|exact Hb].
        rewrite for_each_cons, E1. exact Hl1.
      * intros [l1 [a0 [l2 [acc1 [st2 [El [Hl1 Hb]]]]]]].
        destruct l1 as [|a1 l1].
        -- simpl in El. inversion El; subst. simpl in Hl1. unfold ret in Hl1.
           inversion Hl1; subst. congruence.
        -- simpl in El. inversion El; subst.
           rewrite for_each_cons, E1 in Hl1.
           exists l1, a0, l2, acc1, st2. auto.
    + split.
      * intros E; inversion E; subst.
        exists [], a, l, acc, st. split; [reflexivity|].
        split; [reflexivity | exact E1].
      * intros [l1 [a0 [l2 [acc1 [st2 [El [Hl1 Hb]]]]]]].
        destruct l1 as [|a1 l1].
        -- simpl in El. inversion El; subst. simpl in Hl1. unfold ret in Hl1.
           inversion Hl1; subst. congruence.
        -- simpl in El. inversion El; subst.
           rewrite for_each_cons, E1 in Hl1. discriminate.
Qed.

Variable body : M St bool.

(** A loop raises exactly at its first turn that raises. *)
Lemma for_range_raises_iff (n : nat) :
  forall (st st' : St) (e : exn),
    for_range n body st = (st', Raise e) <->
    exists k st_k, k < n /\ turns body k st st_k /\
      body st_k = (st', Raise e).
Proof.
  induction n as [|n IH]; intros st st' e.
  - simpl. unfold ret. split; [discriminate | intros [k [? [Hk _]]]; lia].
  - simpl. unfold bind. destruct (body st) as [st1 [[|]|e1]] eqn:E1.
    + unfold ret. split; [discriminate|].
      intros [k [st_k [Hk [Hp Hlast]]]]. inversion Hp; subst; congruence.
    + rewrite IH. split.
      * intros [k [st_k [Hk [Hp Hlast]]]]. exists (S k), st_k.
        split; [lia|]. split; [econstructor; eauto | exact Hlast].
      * intros [k [st_k [Hk [Hp Hlast]]]].
        inversion Hp; subst; [congruence|].
        exists k0, st_k. split; [lia|].
        split; [congruence | exact Hlast].
    + split.
      * intros E; inversion E; subst. exists 0, st.
        split; [lia|]. split; [constructor | exact E1].
      * intros [k [st_k [Hk [Hp Hlast]]]].
        inversion Hp; subst; congruence.
Qed.

Lemma while_true_raises_iff (fuel : nat) :
  forall (st st' : St) (e : exn),
    while_true fuel body st = Some (st', Raise e) <->
    exists k st_k, k < fuel /\ turns body k st st_k /\
      body st_k = (st', Raise e).
Proof.
  induction fuel as [|fuel IH]; intros st st' e.
  - simpl. split; [discriminate | intros [k [? [Hk _]]]; lia].
  - simpl. destruct (body st) as [st1 [[|]|e1]] eqn:E1.
    + split; [discriminate|].
      intros [k [st_k [Hk [Hp Hlast]]]]. inversion Hp; subst; congruence.
    + rewrite IH. split.
      * intros [k [st_k [Hk [Hp Hlast]]]]. exists (S k), st_k.
        split; [lia|]. split; [econstructor; eauto | exact Hlast].
      * intros [k [st_k [Hk [Hp Hlast]]]].
        inversion Hp; subst; [congruence|].
        exists k0, st_k. split; [lia|].
        split; [congruence | exact Hlast].
    + split.
      * intros E; inversion E; subst. exists 0, st.
        split; [lia|]. split; [constructor | exact E1].
      * intros [k [st_k [Hk [Hp Hlast]]]].
        inversion Hp; subst; congruence.
Qed.

End RaiseFacts.
(* ------------------------------------------------------------------ *)
(** * PerceptronModel: prediction and training *)

Section PerceptronFacts.

Context {T : Type} `{Scalar T}.

Import PerceptronModel.

Abbreviation Tensor := (nn.Tensor T).
Abbreviation Node := (nn.Node T).
Abbreviation State := (TrainState (Model (T := T))).

Lemma get_prediction_of_score (m : Model) (x n : Node) (v : T) :
  run m x = Ok n -> nn.as_scalar n = Ok v ->
  get_prediction m x = Ok (if s_geb v s_zero then 1 else -1)%Z.
Proof.
  intros Hrun Hv. unfold get_prediction. rewrite Hrun. simpl.
  rewrite Hv. simpl. destruct (s_geb v s_zero); reflexivity.
Qed.

Lemma get_prediction_inv (m : Model) (x : Node) (p : Z) :
  get_prediction m x = Ok p ->
  exists n v, run m x = Ok n /\ nn.as_scalar n = Ok v /\
    p = (if s_geb v s_zero then 1 else -1)%Z.
Proof.
  unfold get_prediction.
  destruct (run m x) as [n|e] eqn:Hn; simpl; [|discriminate].
  destruct (nn.as_scalar n) as [v|e] eqn:Hv; simpl; [|discriminate].
  destruct (s_geb v s_zero) eqn:G; intros E; exists n, v; rewrite G;
    repeat split; congruence.
Qed.

(** C2 (PerceptronModel.get_prediction).  Whenever [get_prediction] returns,
    it returns 1 or -1, and it returns 1 exactly when the scalar of [run m x]
    is [>= 0.0]; whenever [run m x] has a scalar, [get_prediction] returns.
    On a single sample [x] of the dimensions of the perceptron, [run m x] is
    the dot product of the weights and [x], so [get_prediction] returns 1 if
    that product is [>= 0.0] and -1 otherwise. *)
Theorem get_prediction_sign_of_run (m : Model) (x : Node) :
  (forall p, get_prediction m x = Ok p ->
     (p = 1 \/ p = -1)%Z /\
     exists n v, run m x = Ok n /\ nn.as_scalar n = Ok v /\
       (p = 1%Z <-> s_geb v s_zero = true) /\
       (p = (-1)%Z <-> s_geb v s_zero = false))
  /\ (forall n v, run m x = Ok n -> nn.as_scalar n = Ok v ->
       get_prediction m x = Ok (if s_geb v s_zero then 1 else -1)%Z)
  /\ (forall dimensions,
       initialised dimensions m -> nn.shape (nn.data x) = (1, dimensions) ->
       let score := nn.dot (nn.first_row (w m)) (nn.first_row (nn.data x)) in
       exists n, run m x = Ok n /\ nn.as_scalar n = Ok score /\
         get_prediction m x = Ok (if s_geb score s_zero then 1 else -1)%Z).
Proof.
  split; [|split].
  - intros p Hp. destruct (get_prediction_inv _ _ Hp) as [n [v [Hn [Hv ->]]]].
    split; [destruct (s_geb v s_zero); auto|].
    exists n, v. repeat split; auto;
      destruct (s_geb v s_zero); intros; congruence.
  - intros n v. apply get_prediction_of_score.
  - intros dimensions [Ew Ww] Ex score.
    destruct (shape_inv Ew) as [Ewr Ewc]. destruct (shape_inv Ex) as [Exr Exc].
    destruct (@DotProduct_single T _ (get_weights m) x) as [n [Hn Hv]];
      simpl; try congruence.
    exists n. split; [exact Hn|]. split; [exact Hv|].
    apply (get_prediction_of_score _ _ Hn Hv).
Qed.

(** The two branches of the [if] in the loop body. *)

Lemma train_sample_classified (outcome : bool) (x y : Node) (st : State)
  (label : T) (prediction : Z) :
  nn.as_scalar y = Ok label ->
  get_prediction (self st) x = Ok prediction ->
  s_eqb label (s_of_Z prediction) = true ->
  train_sample outcome (x, y) st = (st, Ok outcome).
Proof.
  intros Hl Hp Heq. unfold train_sample, bind, reading.
  rewrite Hl, Hp, Heq. reflexivity.
Qed.

Lemma train_sample_misclassified (outcome : bool) (x y : Node) (st : State)
  (label : T) (prediction : Z) :
  nn.as_scalar y = Ok label ->
  get_prediction (self st) x = Ok prediction ->
  s_eqb label (s_of_Z prediction) = false ->
  train_sample outcome (x, y) st =
    match nn.update (w (self st)) x label with
    | Ok w' => (mkState (mkModel w') (calls st), Ok false)
    | Raise e => (st, Raise e)
    end.
Proof.
  intros Hl Hp Heq. unfold train_sample, bind, reading, update_w, update_parameter, writing.
  rewrite Hl, Hp, Heq. simpl.
  destruct (nn.update (w (self st)) x label); reflexivity.
Qed.

Lemma train_sample_inv (outcome b : bool) (xy : Node * Node) (st st' : State) :
  train_sample outcome xy st = (st', Ok b) ->
  (classified (self st) xy /\ st' = st /\ b = outcome) \/
  (misclassified (self st) xy /\ b = false).
Proof.
  destruct xy as [x y]. unfold classified, misclassified. cbn [fst snd].
  destruct (nn.as_scalar y) as [label|e] eqn:Hl;
    [|unfold train_sample, bind, reading; rewrite Hl; discriminate].
  destruct (get_prediction (self st) x) as [p|e] eqn:Hp;
    [|unfold train_sample, bind, reading; rewrite Hl, Hp; discriminate].
  destruct (s_eqb label (s_of_Z p)) eqn:Heq.
  - rewrite (train_sample_classified _ _ _ _ Hl Hp Heq).
    intros E; inversion E; subst. left. split; [|auto].
    exists label, p; auto.
  - rewrite (train_sample_misclassified _ _ _ _ Hl Hp Heq).
    destruct (nn.update (w (self st)) x label); intros E; inversion E; subst.
    right. split; [|auto]. exists label, p; auto.
Qed.

Lemma classified_not_misclassified (m : Model) (xy : Node * Node) :
  classified m xy -> misclassified m xy -> False.
Proof.
  intros [l [p [Hl [Hp E]]]] [l' [p' [Hl' [Hp' E']]]]. congruence.
Qed.

(** Once cleared, the flag stays cleared to the end of the pass. *)
Lemma pass_flag_cleared (l : list (Node * Node)) :
  forall (st st' : State) (b : bool),
    for_each train_sample l false st = (st', Ok b) -> b = false.
Proof.
  induction l as [|xy l IH]; intros st st' b.
  - simpl. unfold ret. congruence.
  - rewrite for_each_cons.
    destruct (train_sample false xy st) as [st1 [b1|e]] eqn:E1; [|discriminate].
    destruct (train_sample_inv _ _ _ E1) as [[_ [_ ->]]|[_ ->]]; apply IH.
Qed.

(** A pass ends with the flag set exactly when the weights it started with
    classify every sample; the weights are then as before. *)
Lemma pass_flag_set (l : list (Node * Node)) :
  forall (st st' : State),
    for_each train_sample l true st = (st', Ok true) <->
    st' = st /\ Forall (classified (self st)) l.
Proof.
  induction l as [|xy l IH]; intros st st'.
  - simpl. unfold ret. split.
    + intros E; inversion E; auto.
    + intros [-> _]; reflexivity.
  - rewrite for_each_cons. split.
    + destruct (train_sample true xy st) as [st1 [b1|e]] eqn:E1; [|discriminate].
      destruct (train_sample_inv _ _ _ E1) as [[Hc [-> ->]]|[_ ->]]; intros E.
      * apply IH in E. destruct E as [-> Hall]. auto.
      * apply pass_flag_cleared in E. discriminate.
    + intros [-> Hall]. inversion Hall as [|? ? Hc Hall']; subst.
      destruct xy as [x y]. destruct Hc as [lb [p [Hl [Hp Heq]]]].
      cbn [fst snd] in *.
      rewrite (train_sample_classified _ _ _ _ Hl Hp Heq).
      apply IH. auto.
Qed.

(** A pass that ends with the flag cleared met a sample that the weights it
    started with misclassify. *)
Lemma pass_flag_cleared_by (l : list (Node * Node)) :
  forall (st st' : State),
    for_each train_sample l true st = (st', Ok false) ->
    Exists (misclassified (self st)) l.
Proof.
  induction l as [|xy l IH]; intros st st'.
  - simpl. unfold ret. discriminate.
  - rewrite for_each_cons.
    destruct (train_sample true xy st) as [st1 [b1|e]] eqn:E1; [|discriminate].
    destruct (train_sample_inv _ _ _ E1) as [[Hc [-> ->]]|[Hm _]]; intros E.
    + apply Exists_cons_tl. eapply IH; eauto.
    + apply Exists_cons_hd. exact Hm.
Qed.

Lemma train_pass_unfold (dataset : Dataset T Node Model) (st : State) :
  train_pass dataset st =
    for_each train_sample (iterate_once dataset 1) true
      (record_call (IterateOnce 1) st).
Proof. reflexivity. Qed.

(** C1 (PerceptronModel.train).  Each turn of the [while] loop asks the
    dataset for samples one at a time and goes through all of them.  A sample
    whose label differs from the predicted class sets the weights to
    [update w x y], that is [w + y * x], and clears the flag; a sample
    classified correctly leaves the state as it is.  A pass ends with the
    flag set exactly when no sample was misclassified (the weights are then
    unchanged), and [train] returns exactly after the first such pass. *)
Theorem train_perceptron_rule (dataset : Dataset T Node Model) :
  (forall (st : State) (outcome : bool) (x y : Node) (label : T) (prediction : Z),
     nn.as_scalar y = Ok label ->
     get_prediction (self st) x = Ok prediction ->
     (s_eqb label (s_of_Z prediction) = true ->
        train_sample outcome (x, y) st = (st, Ok outcome)) /\
     (s_eqb label (s_of_Z prediction) = false ->
        forall w', nn.update (w (self st)) x label = Ok w' ->
          train_sample outcome (x, y) st =
            (mkState (mkModel w') (calls st), Ok false)))
  /\ (forall st : State,
       train_pass dataset st =
         for_each train_sample (iterate_once dataset 1) true
           (mkState (self st) (calls st ++ [IterateOnce 1])))
  /\ (forall st st' : State,
       train_pass dataset st = (st', Ok true) <->
       st' = mkState (self st) (calls st ++ [IterateOnce 1]) /\
       Forall (classified (self st)) (iterate_once dataset 1))
  /\ (forall st st' : State,
       train_pass dataset st = (st', Ok false) ->
       Exists (misclassified (self st)) (iterate_once dataset 1))
  /\ (forall (fuel : nat) (st st' : State),
       train fuel dataset st = Some (st', Ok tt) <->
       exists k st_k, k < fuel /\ turns (train_pass dataset) k st st_k /\
         train_pass dataset st_k = (st', Ok true)).
Proof.
  split; [|split; [|split; [|split]]].
  - intros st outcome x y label prediction Hl Hp. split.
    + apply train_sample_classified; assumption.
    + intros Heq w' Hw.
      rewrite (train_sample_misclassified _ _ _ _ Hl Hp Heq), Hw. reflexivity.
  - intros st. apply train_pass_unfold.
  - intros st st'. rewrite train_pass_unfold, pass_flag_set. reflexivity.
  - intros st st'. rewrite train_pass_unfold.
    apply (pass_flag_cleared_by (iterate_once dataset 1)
             (record_call (IterateOnce 1) st)).
  - intros fuel st st'. apply while_true_returns_iff.
Qed.

End PerceptronFacts.

(* ------------------------------------------------------------------ *)
(** * LanguageIDModel.run *)

Section LanguageRunFacts.

Context {T : Type} `{Backend T}.

Import LanguageIDModel.

Abbreviation Tensor := (nn.Tensor T).
Abbreviation Node := (nn.Node T).

Lemma rfold_app (A B : Type) (body : B -> A -> result B) (l1 l2 : list A) (acc : B) :
  rfold body (l1 ++ l2) acc = rbind (rfold body l1 acc) (rfold body l2).
Proof.
  revert acc; induction l1 as [|a l1 IH]; intros acc; simpl; [reflexivity|].
  destruct (body acc a); simpl; [apply IH | reflexivity].
Qed.

Lemma rbind_assoc (A B C : Type) (c : result A) (f : A -> result B)
  (g : B -> result C) :
  rbind (rbind c f) g = rbind c (fun a => rbind (f a) g).
Proof. destruct c; reflexivity. Qed.

Lemma rbind_Ok_r (A : Type) (c : result A) : rbind c (fun a => Ok a) = c.
Proof. destruct c; reflexivity. Qed.

Lemma rbind_rfold_app (A B : Type) (body : B -> A -> result B) (l1 l2 : list A)
  (c : result B) :
  rbind c (rfold body (l1 ++ l2)) =
  rbind (rbind c (rfold body l1)) (rfold body l2).
Proof. destruct c; simpl; [apply rfold_app | reflexivity]. Qed.

Lemma firstn_snoc (A : Type) (l : list A) (k : nat) (a : A) :
  nth_error l k = Some a -> firstn (S k) l = firstn k l ++ [a].
Proof.
  revert k; induction l as [|b l IH]; intros [|k]; simpl; try discriminate.
  - intros E; inversion E; reflexivity.
  - intros E. f_equal. apply IH, E.
Qed.

(** After [k] turns of the loop of [run] the local variable holds the hidden
    state of step [k]. *)
Lemma run_loop_hidden_state (m : Model) (x0 : Node) (rest : list Node) :
  forall k, k <= length rest ->
    rbind (nn.Linear x0 (weight_node m)) (rfold (run_step m) (firstn k rest)) =
    spec_hidden_state m (x0 :: rest) k.
Proof.
  induction k as [|k IH]; intros Hk.
  - simpl. destruct (nn.Linear x0 (weight_node m)); reflexivity.
  - destruct (nth_error rest k) as [xk|] eqn:Ek;
      [|apply nth_error_None in Ek; lia].
    rewrite (firstn_snoc _ _ Ek), rbind_rfold_app.
    cbn [spec_hidden_state].
    rewrite <- IH by lia.
    unfold getitem. cbn [nth_error]. rewrite Ek.
    destruct (rbind (nn.Linear x0 (weight_node m))
                (rfold (run_step m) (firstn k rest))) as [h|e];
      [|reflexivity].
    simpl. unfold run_step. apply rbind_Ok_r.
Qed.

(** C5 (LanguageIDModel.run, the recurrence).  On a non-empty list [xs],
    [run] is the recurrence of the specification: the hidden state at step 0
    is [Linear(xs[0], weight)], not rectified; the hidden state at step
    [t >= 1] is [ReLU(Add(Linear(xs[t], weight), Linear(h, weight_h)))] for
    the hidden state [h] at step [t - 1]; the result is
    [Linear(h, weight_f)] for the hidden state [h] at step [L - 1].  The two
    agree on the node returned and on the exception raised. *)
Theorem run_is_recurrence (m : Model) (xs : list Node) :
  xs <> [] ->
  run m xs = spec_run m xs /\
  spec_hidden_state m xs 0 =
    rbind (getitem xs 0) (fun x0 => nn.Linear x0 (weight_node m)) /\
  (forall t x h, 1 <= t -> t < length xs ->
     getitem xs t = Ok x -> spec_hidden_state m xs (t - 1) = Ok h ->
     spec_hidden_state m xs t =
       (a <- nn.Linear x (weight_node m) ;;
        b <- nn.Linear h (weight_h_node m) ;;
        s <- nn.Add a b ;;
        nn.ReLU s)%result).
Proof.
  intros Hne. destruct xs as [|x0 rest]; [congruence|].
  split; [|split].
  - unfold run, spec_run. cbn [getitem nth_error rbind skipn].
    replace (length (x0 :: rest) - 1) with (length rest) by (simpl; lia).
    rewrite <- (run_loop_hidden_state m x0 rest (k := length rest)) by lia.
    rewrite firstn_all, rbind_assoc. reflexivity.
  - reflexivity.
  - intros t x h Ht _ Hx Hh. destruct t as [|t]; [lia|].
    cbn [spec_hidden_state]. replace (S t - 1) with t in Hh by lia.
    rewrite Hh, Hx. reflexivity.
Qed.

(** C9 (LanguageIDModel.run on the empty list).  [run] raises IndexError on
    the empty list, whatever the parameters, and a call that returns a node
    was made on a list of at least one element. *)
Theorem run_empty_raises (m : Model) :
  run m [] = Raise IndexError /\
  (forall xs n, run m xs = Ok n -> 1 <= length xs).
Proof.
  split; [reflexivity|].
  intros [|x xs] n; [discriminate | simpl; lia].
Qed.

(** The loop of [run] keeps the shape (batch x 300) of the hidden state. *)
Lemma run_loop_shape (m : Model) (batch : nat) :
  nn.shape (weight m) = (num_chars, hidden) ->
  nn.shape (weight_h m) = (hidden, hidden) ->
  forall (rest : list Node) (first : Node),
    Forall (fun x => nn.shape (nn.data x) = (batch, num_chars) /\
                     nn.well_formed (nn.data x)) rest ->
    nn.shape (nn.data first) = (batch, hidden) ->
    nn.well_formed (nn.data first) ->
    exists h, rfold (run_step m) rest first = Ok h /\
      nn.shape (nn.data h) = (batch, hidden) /\ nn.well_formed (nn.data h).
Proof.
  intros Ew Eh.
  destruct (shape_inv Ew) as [Ewr Ewc]. destruct (shape_inv Eh) as [Ehr Ehc].
  induction rest as [|x rest IH]; intros first Hall Es Wf.
  - exists first. simpl. auto.
  - destruct (Forall_inv Hall) as [Ex Wx].
    pose proof (Forall_inv_tail Hall) as Hall'.
    destruct (shape_inv Ex) as [Exr Exc]. destruct (shape_inv Es) as [Esr Esc].
    destruct (@Linear_shape T _ x (weight_node m)) as [a [Ha [_ [Sa Wa]]]];
      [simpl; congruence | exact Wx |].
    destruct (@Linear_shape T _ first (weight_h_node m)) as [b [Hb [_ [Sb Wb]]]];
      [simpl; congruence | exact Wf |].
    simpl in Sa, Sb.
    destruct (@Add_shape T _ a b) as [s [Hs [_ [Ss Ws]]]];
      [congruence | exact Wa | exact Wb |].
    destruct (@ReLU_shape T _ s) as [r [Hr [_ [Sr Wr]]]]; [exact Ws|].
    cbn [rfold]. unfold run_step at 1. rewrite Ha. cbn [rbind].
    rewrite Hb. cbn [rbind]. rewrite Hs. cbn [rbind]. rewrite Hr. cbn [rbind].
    apply IH; [exact Hall' | congruence | exact Wr].
Qed.

(** C7 (LanguageIDModel.run, the shape of the result).  With the parameter
    shapes of [__init__], on a non-empty list of [L] nodes of shape
    (batch x 47), [run] returns a node of shape (batch x 5), for every
    [L >= 1] and every batch size. *)
Theorem run_shape (m : Model) (batch : nat) (xs : list Node) :
  initialised m ->
  1 <= length xs ->
  Forall (fun x => nn.shape (nn.data x) = (batch, 47) /\
                   nn.well_formed (nn.data x)) xs ->
  exists n, run m xs = Ok n /\
    nn.shape (nn.data n) = (batch, 5) /\ nn.well_formed (nn.data n).
Proof.
  intros [[Ew _] [[Eh _] [Ef _]]] Hlen Hall.
  destruct xs as [|x0 rest]; [simpl in Hlen; lia|].
  destruct (Forall_inv Hall) as [Ex Wx].
  pose proof (Forall_inv_tail Hall) as Hall'.
  destruct (shape_inv Ew) as [Ewr Ewc]. destruct (shape_inv Ex) as [Exr Exc].
  destruct (shape_inv Ef) as [Efr Efc].
  destruct (@Linear_shape T _ x0 (weight_node m)) as [a [Ha [_ [Sa Wa]]]];
    [simpl; unfold num_chars in *; congruence | exact Wx |].
  simpl in Sa.
  pose proof (@run_loop_shape m batch Ew Eh) as Hloop.
  destruct (Hloop rest a) as [h [Hh [Sh Wh]]];
    [exact Hall' | congruence | exact Wa |].
  destruct (shape_inv Sh) as [Shr Shc].
  destruct (@Linear_shape T _ h (weight_f_node m)) as [n [Hn [_ [Sn Wn]]]];
    [simpl; congruence | exact Wh |].
  exists n. unfold run. cbn [getitem nth_error rbind skipn].
  rewrite Ha. cbn [rbind]. rewrite Hh. cbn [rbind].
  split; [exact Hn|]. split; [|exact Wn].
  rewrite Sn. simpl. unfold dimension in *. congruence.
Qed.

End LanguageRunFacts.

(* ------------------------------------------------------------------ *)
(** * Training loops: the calls on the dataset *)

Section CallsFacts.

Context {T Input Model : Type} `{Scalar T}.

Abbreviation State := (TrainState Model).

Lemma keeps_calls_ret (A : Type) (a : A) : keeps_calls (ret (St := State) a).
Proof. intros st; reflexivity. Qed.

Lemma keeps_calls_reading (A : Type) (f : State -> result A) :
  keeps_calls (reading f).
Proof. intros st; reflexivity. Qed.

Lemma keeps_calls_bind (A B : Type) (c : M State A) (k : A -> M State B) :
  keeps_calls c -> (forall a, keeps_calls (k a)) -> keeps_calls (bind c k).
Proof.
  intros Hc Hk st. unfold bind. specialize (Hc st).
  destruct (c st) as [st1 [a|e]]; simpl in *; [|exact Hc].
  rewrite (Hk a st1). exact Hc.
Qed.

Lemma keeps_calls_update (get : Model -> nn.Tensor T)
  (set : Model -> nn.Tensor T -> Model) (d : nn.Node T) (s : T) :
  keeps_calls (update_parameter get set d s).
Proof.
  intros st. unfold update_parameter, writing.
  destruct (nn.update (get (self st)) d s); reflexivity.
Qed.

Lemma keeps_calls_for_each (A B : Type) (body : B -> A -> M State B) :
  (forall b a, keeps_calls (body b a)) ->
  forall l b, keeps_calls (for_each body l b).
Proof.
  intros Hbody. induction l as [|a l IH]; intros b; simpl.
  - apply keeps_calls_ret.
  - apply keeps_calls_bind; auto.
Qed.

Lemma epochs_started_app (l1 l2 : list call) :
  epochs_started (l1 ++ l2) = epochs_started l1 + epochs_started l2.
Proof. unfold epochs_started. rewrite filter_app, length_app. reflexivity. Qed.

Lemma accuracy_checks_app (l1 l2 : list call) :
  accuracy_checks (l1 ++ l2) = accuracy_checks l1 + accuracy_checks l2.
Proof. unfold accuracy_checks. rewrite filter_app, length_app. reflexivity. Qed.

(** The batch updates of an epoch: one call of [iterate_once], whatever the
    outcome. *)
Lemma epoch_updates_calls (dataset : Dataset T Input Model) (batch_size : nat)
  (body : Input * nn.Node T -> M State unit) :
  (forall xy, keeps_calls (body xy)) ->
  forall st,
    calls (fst (bind (call_iterate_once dataset batch_size)
                  (fun batches => for_each (fun _ xy => body xy) batches tt) st)) =
    calls st ++ [IterateOnce batch_size].
Proof.
  intros Hbody st. unfold bind, call_iterate_once.
  rewrite (keeps_calls_for_each (fun _ xy => body xy)); [reflexivity|].
  intros _ xy. apply Hbody.
Qed.

(** A loop whose every turn makes the one call [c]: after the loop, as many
    calls [c] as turns taken, at most [n]. *)
Lemma for_range_calls (body : M State bool) (c : call) :
  (forall st, calls (fst (body st)) = calls st ++ [c]) ->
  forall n st, exists k,
    k <= n /\ calls (fst (for_range n body st)) = calls st ++ repeat c k.
Proof.
  intros Hbody. induction n as [|n IH]; intros st.
  - exists 0. simpl. rewrite app_nil_r. auto.
  - simpl. unfold bind. specialize (Hbody st).
    destruct (body st) as [st1 [[|]|e]]; simpl in Hbody.
    + exists 1. simpl. split; [lia | exact Hbody].
    + destruct (IH st1) as [k [Hk Hc]]. exists (S k). split; [lia|].
      rewrite Hc, Hbody, <- app_assoc. reflexivity.
    + exists 1. simpl. split; [lia | exact Hbody].
Qed.

(** A loop whose every turn starts one epoch starts at most [n] epochs. *)
Lemma for_range_epochs_started (body : M State bool) :
  (forall st, epochs_started (calls (fst (body st))) =
              epochs_started (calls st) + 1) ->
  forall n st,
    epochs_started (calls (fst (for_range n body st))) <=
    epochs_started (calls st) + n.
Proof.
  intros Hbody. induction n as [|n IH]; intros st.
  - simpl. lia.
  - simpl. unfold bind. specialize (Hbody st).
    destruct (body st) as [st1 [[|]|e]]; simpl in *; try lia.
    specialize (IH st1). lia.
Qed.

(** [k] turns in a row append the calls of each. *)
Lemma turns_calls (body : M State bool) (c : list call) :
  (forall st st', body st = (st', Ok false) -> calls st' = calls st ++ c) ->
  forall k st st', turns body k st st' ->
    calls st' = calls st ++ concat (repeat c k).
Proof.
  intros Hbody. induction 1 as [st|k st st1 st2 E _ IH].
  - simpl. rewrite app_nil_r. reflexivity.
  - rewrite IH, (Hbody _ _ E), <- app_assoc. reflexivity.
Qed.

(** A loop whose turns only add calls only adds calls. *)
Lemma for_range_extends_calls (body : M State bool) :
  (forall st, exists l, calls (fst (body st)) = calls st ++ l) ->
  forall n st, exists l, calls (fst (for_range n body st)) = calls st ++ l.
Proof.
  intros Hbody. induction n as [|n IH]; intros st.
  - exists []. simpl. rewrite app_nil_r. reflexivity.
  - simpl. unfold bind. destruct (Hbody st) as [l1 E1].
    destruct (body st) as [st1 [[|]|e]]; simpl in E1; try (exists l1; exact E1).
    destruct (IH st1) as [l2 E2]. exists (l1 ++ l2).
    rewrite E2, E1, app_assoc. reflexivity.
Qed.

(** A loop whose every turn starts with the call [c]: the first call of the
    loop is [c]. *)
Lemma for_range_first_call (body : M State bool) (c : call) :
  (forall st, exists l, calls (fst (body st)) = calls st ++ c :: l) ->
  forall n st, 0 < n ->
    exists rest, calls (fst (for_range n body st)) = calls st ++ c :: rest.
Proof.
  intros Hbody [|n] st Hn; [lia|].
  simpl. unfold bind. destruct (Hbody st) as [l1 E1].
  destruct (body st) as [st1 [[|]|e]] eqn:E; simpl in E1;
    try (exists l1; exact E1).
  assert (Hext : forall st, exists l, calls (fst (body st)) = calls st ++ l).
  { intros st0. destruct (Hbody st0) as [l0 E0]. eauto. }
  destruct (@for_range_extends_calls body Hext n st1) as [l2 E2].
  exists (l1 ++ l2). rewrite E2, E1, <- app_assoc. reflexivity.
Qed.

Lemma while_true_extends_calls (body : M State bool) :
  (forall st, exists l, calls (fst (body st)) = calls st ++ l) ->
  forall fuel st st' r, while_true fuel body st = Some (st', r) ->
    exists l, calls st' = calls st ++ l.
Proof.
  intros Hbody. induction fuel as [|fuel IH]; intros st st' r; simpl;
    [discriminate|].
  destruct (Hbody st) as [l1 E1].
  destruct (body st) as [st1 [[|]|e]]; simpl in E1; intros E;
    try (inversion E; subst; exists l1; exact E1).
  destruct (IH _ _ _ E) as [l2 E2]. exists (l1 ++ l2).
  rewrite E2, E1, app_assoc. reflexivity.
Qed.

Lemma while_true_first_call (body : M State bool) (c : call) :
  (forall st, exists l, calls (fst (body st)) = calls st ++ c :: l) ->
  forall fuel st st' r, while_true fuel body st = Some (st', r) ->
    exists rest, calls st' = calls st ++ c :: rest.
Proof.
  intros Hbody [|fuel] st st' r; simpl; [discriminate|].
  destruct (Hbody st) as [l1 E1].
  destruct (body st) as [st1 [[|]|e]]; simpl in E1; intros E;
    try (inversion E; subst; exists l1; exact E1).
  assert (Hext : forall st, exists l, calls (fst (body st)) = calls st ++ l).
  { intros st0. destruct (Hbody st0) as [l0 E0]. eauto. }
  destruct (@while_true_extends_calls body Hext _ _ _ _ E) as [l2 E2].
  exists (l1 ++ l2). rewrite E2, E1, <- app_assoc. reflexivity.
Qed.

End CallsFacts.

(* ------------------------------------------------------------------ *)
(** * RegressionModel.train *)

(** Splits a goal [keeps_calls c] along the structure of [c]. *)
Ltac solve_keeps_calls :=
  repeat first
    [ apply keeps_calls_ret
    | apply keeps_calls_reading
    | apply keeps_calls_update
    | apply keeps_calls_bind
    | intro ].

(** Runs the next step of a computation whose result is known. *)


Section RegressionFacts.

Context {T : Type} `{Backend T}.

Import RegressionModel.

Abbreviation Node := (nn.Node T).
Abbreviation State := (TrainState (Model (T := T))).

Local Ltac norm :=
  cbn [rbind self calls set_weight1 set_weight2 set_bias1 set_bias2
       weight1 weight2 bias1 bias2].
Local Ltac step_with E := rewrite E; norm.

Lemma train_batch_keeps_calls (xy : Node * Node) : keeps_calls (train_batch xy).
Proof. destruct xy as [x y]. unfold train_batch. solve_keeps_calls. Qed.

Lemma train_epoch_calls (dataset : Dataset T Node Model) (st : State) :
  calls (fst (train_epoch dataset st)) = calls st ++ [IterateOnce 10].
Proof. apply epoch_updates_calls, train_batch_keeps_calls. Qed.

Lemma train_turn_calls (dataset : Dataset T Node Model) (st : State) :
  calls (fst (bind (train_epoch dataset) (fun _ => ret false) st)) =
  calls st ++ [IterateOnce 10].
Proof.
  unfold bind. pose proof (train_epoch_calls dataset st) as E.
  destruct (train_epoch dataset st) as [st1 [[]|e]]; exact E.
Qed.

Lemma train_turn_stays (dataset : Dataset T Node Model) (st st' : State) (b : bool) :
  bind (train_epoch dataset) (fun _ => ret false) st = (st', Ok b) -> b = false.
Proof.
  unfold bind, ret. destruct (train_epoch dataset st) as [st1 [[]|e]]; congruence.
Qed.

(** What one batch does. *)
Lemma train_batch_iff (st st' : State) (x y : Node) :
  train_batch (x, y) st = (st', Ok tt) <->
  exists loss gs g0 g1 g2 g3 w1 w2 b1 b2,
    get_loss (self st) x y = Ok loss /\
    gradients loss [weight1_node (self st); weight2_node (self st);
                    bias1_node (self st); bias2_node (self st)] = Ok gs /\
    getitem gs 0 = Ok g0 /\ getitem gs 1 = Ok g1 /\
    getitem gs 2 = Ok g2 /\ getitem gs 3 = Ok g3 /\
    nn.update (weight1 (self st)) g0 (s_lit (-0.02)%Q) = Ok w1 /\
    nn.update (weight2 (self st)) g1 (s_lit (-0.02)%Q) = Ok w2 /\
    nn.update (bias1 (self st)) g2 (s_lit (-0.02)%Q) = Ok b1 /\
    nn.update (bias2 (self st)) g3 (s_lit (-0.02)%Q) = Ok b2 /\
    st' = mkState (mkModel w1 b1 w2 b2) (calls st).
Proof.
  unfold train_batch, bind, reading, update_parameter, writing, learning_rate.
  split.
  - cbn zeta.
    destruct (get_loss (self st) x y) as [loss|e] eqn:El;
      cbn [rbind]; [|discriminate].
    destruct (gradients loss _) as [gs|e] eqn:Eg; [|discriminate].
    destruct (getitem gs 0) as [g0|e] eqn:E0; [|discriminate].
    destruct (nn.update (weight1 (self st)) g0 _) as [w1|e] eqn:U0;
      norm; [|discriminate].
    destruct (getitem gs 1) as [g1|e] eqn:E1; [|discriminate].
    destruct (nn.update (weight2 (self st)) g1 _) as [w2|e] eqn:U1;
      norm; [|discriminate].
    destruct (getitem gs 2) as [g2|e] eqn:E2; [|discriminate].
    destruct (nn.update (bias1 (self st)) g2 _) as [b1|e] eqn:U2;
      norm; [|discriminate].
    destruct (getitem gs 3) as [g3|e] eqn:E3; [|discriminate].
    destruct (nn.update (bias2 (self st)) g3 _) as [b2|e] eqn:U3;
      norm; [|discriminate].
    intros E; inversion E; subst.
    exists loss, gs, g0, g1, g2, g3, w1, w2, b1, b2. repeat split; auto.
  - intros [loss [gs [g0 [g1 [g2 [g3 [w1 [w2 [b1 [b2
      [El [Eg [E0 [E1 [E2 [E3 [U0 [U1 [U2 [U3 ->]]]]]]]]]]]]]]]]]]]].
    cbn zeta. step_with El. step_with Eg. step_with E0. step_with U0.
    step_with E1. step_with U1.
    step_with E2. step_with U2.
    step_with E3. step_with U3.
    reflexivity.
Qed.

(** The loss differentiated is the square loss of the prediction. *)
Lemma get_loss_inv (m : Model) (x y loss : Node) :
  get_loss m x y = Ok loss ->
  exists prediction, run m x = Ok prediction /\
    SquareLoss prediction y = Ok loss /\
    nn.graph loss = nn.GSquareLoss (nn.graph prediction) (nn.graph y).
Proof.
  unfold get_loss. destruct (run m x) as [p|e]; cbn [rbind]; [|discriminate].
  intros E. exists p. split; [reflexivity|]. split; [exact E|].
  unfold SquareLoss, nn.loss_node in E.
  destruct (assert _); cbn [rbind] in E; [|discriminate].
  destruct (square_loss _ _); cbn [rbind] in E; [|discriminate].
  inversion E; reflexivity.
Qed.

(** C3 (RegressionModel.train).  Every turn of the outer loop asks the dataset
    for batches of size 10 and nothing else; a call of [train] that returns
    has taken exactly 1000 turns, each a whole epoch, and one that raises has
    taken fewer; the validation accuracy is never asked.  A batch goes through
    when the gradients of the square loss of the prediction with respect to
    [weight1; weight2; bias1; bias2] are computed and each of the four
    parameters is updated with the gradient at its own position, multiplied
    by -0.02. *)
Theorem train_regression_fixed_epochs (dataset : Dataset T Node Model) :
  (forall st, exists k, k <= 1000 /\
     calls (fst (train dataset st)) = calls st ++ repeat (IterateOnce 10) k)
  /\ (forall st st',
       train dataset st = (st', Ok tt) <->
       turns (train_epoch dataset ;; ret false)%train 1000 st st')
  /\ (forall st st',
       train dataset st = (st', Ok tt) ->
       calls st' = calls st ++ repeat (IterateOnce 10) 1000)
  /\ (forall st,
       train_epoch dataset st =
         for_each (fun _ xy => train_batch xy) (iterate_once dataset 10) tt
           (mkState (self st) (calls st ++ [IterateOnce 10])))
  /\ (forall st st' x y,
       train_batch (x, y) st = (st', Ok tt) <->
       exists loss gs g0 g1 g2 g3 w1 w2 b1 b2,
         get_loss (self st) x y = Ok loss /\
         gradients loss [weight1_node (self st); weight2_node (self st);
                         bias1_node (self st); bias2_node (self st)] = Ok gs /\
         getitem gs 0 = Ok g0 /\ getitem gs 1 = Ok g1 /\
         getitem gs 2 = Ok g2 /\ getitem gs 3 = Ok g3 /\
         nn.update (weight1 (self st)) g0 (s_lit (-0.02)%Q) = Ok w1 /\
         nn.update (weight2 (self st)) g1 (s_lit (-0.02)%Q) = Ok w2 /\
         nn.update (bias1 (self st)) g2 (s_lit (-0.02)%Q) = Ok b1 /\
         nn.update (bias2 (self st)) g3 (s_lit (-0.02)%Q) = Ok b2 /\
         st' = mkState (mkModel w1 b1 w2 b2) (calls st))
  /\ (forall m x y loss,
       get_loss m x y = Ok loss ->
       exists prediction, run m x = Ok prediction /\
         SquareLoss prediction y = Ok loss /\
         nn.graph loss = nn.GSquareLoss (nn.graph prediction) (nn.graph y)).
Proof.
  assert (Hret : forall st st',
             train dataset st = (st', Ok tt) <->
             turns (train_epoch dataset ;; ret false)%train 1000 st st').
  { intros st st'. unfold train. rewrite for_range_returns_iff.
    split; [|auto].
    intros [[k [st_k [_ [_ E]]]]|Ht]; [|exact Ht].
    apply train_turn_stays in E. discriminate. }
  split; [|split; [|split; [|split; [|split]]]].
  - intros st. unfold train. apply for_range_calls.
    intros st0. apply train_turn_calls.
  - exact Hret.
  - intros st st' E. apply Hret in E.
    assert (Hb : forall st0 st1,
               (train_epoch dataset ;; ret false)%train st0 = (st1, Ok false) ->
               calls st1 = calls st0 ++ [IterateOnce 10]).
    { intros st0 st1 E0. pose proof (train_turn_calls dataset st0) as C.
      rewrite E0 in C. exact C. }
    rewrite (@turns_calls _ _ _ Hb _ _ _ E). f_equal.
  - intros st. reflexivity.
  - intros st st' x y. apply train_batch_iff.
  - apply get_loss_inv.
Qed.

End RegressionFacts.

(* ------------------------------------------------------------------ *)
(** * DigitClassificationModel.train *)

Section DigitFacts.

Context {T : Type} `{Backend T}.

Import DigitClassificationModel.

Abbreviation Node := (nn.Node T).
Abbreviation State := (TrainState (Model (T := T))).

Local Ltac norm :=
  cbn [rbind self calls set_weight1 set_weight2 set_bias1 set_bias2
       weight1 weight2 bias1 bias2].
Local Ltac step_with E := rewrite E; norm.

Lemma digit_batch_keeps_calls (xy : Node * Node) : keeps_calls (train_batch xy).
Proof. destruct xy as [x y]. unfold train_batch. solve_keeps_calls. Qed.

(** What one batch does. *)
Lemma digit_batch_iff (st st' : State) (x y : Node) :
  train_batch (x, y) st = (st', Ok tt) <->
  exists loss gs g0 g1 g2 g3 w1 w2 b1 b2,
    get_loss (self st) x y = Ok loss /\
    gradients loss [weight1_node (self st); weight2_node (self st);
                    bias1_node (self st); bias2_node (self st)] = Ok gs /\
    getitem gs 0 = Ok g0 /\ getitem gs 1 = Ok g1 /\
    getitem gs 2 = Ok g2 /\ getitem gs 3 = Ok g3 /\
    nn.update (weight1 (self st)) g0 (s_lit (-0.02)%Q) = Ok w1 /\
    nn.update (weight2 (self st)) g1 (s_lit (-0.02)%Q) = Ok w2 /\
    nn.update (bias1 (self st)) g2 (s_lit (-0.02)%Q) = Ok b1 /\
    nn.update (bias2 (self st)) g3 (s_lit (-0.02)%Q) = Ok b2 /\
    st' = mkState (mkModel w1 b1 w2 b2) (calls st).
Proof.
  unfold train_batch, bind, reading, update_parameter, writing, learning_rate.
  split.
  - cbn zeta.
    destruct (get_loss (self st) x y) as [loss|e] eqn:El;
      cbn [rbind]; [|discriminate].
    destruct (gradients loss _) as [gs|e] eqn:Eg; [|discriminate].
    destruct (getitem gs 0) as [g0|e] eqn:E0; [|discriminate].
    destruct (nn.update (weight1 (self st)) g0 _) as [w1|e] eqn:U0;
      norm; [|discriminate].
    destruct (getitem gs 1) as [g1|e] eqn:E1; [|discriminate].
    destruct (nn.update (weight2 (self st)) g1 _) as [w2|e] eqn:U1;
      norm; [|discriminate].
    destruct (getitem gs 2) as [g2|e] eqn:E2; [|discriminate].
    destruct (nn.update (bias1 (self st)) g2 _) as [b1|e] eqn:U2;
      norm; [|discriminate].
    destruct (getitem gs 3) as [g3|e] eqn:E3; [|discriminate].
    destruct (nn.update (bias2 (self st)) g3 _) as [b2|e] eqn:U3;
      norm; [|discriminate].
    intros E; inversion E; subst.
    exists loss, gs, g0, g1, g2, g3, w1, w2, b1, b2. repeat split; auto.
  - intros [loss [gs [g0 [g1 [g2 [g3 [w1 [w2 [b1 [b2
      [El [Eg [E0 [E1 [E2 [E3 [U0 [U1 [U2 [U3 ->]]]]]]]]]]]]]]]]]]]].
    cbn zeta. step_with El. step_with Eg. step_with E0. step_with U0.
    step_with E1. step_with U1. step_with E2. step_with U2.
    step_with E3. step_with U3. reflexivity.
Qed.

(** A turn of the loop: all the batch updates of the epoch, then the
    accuracy of the model as updated, then the test. *)
Lemma digit_turn_iff (dataset : Dataset T Node Model) (st st' : State)
  (leave : bool) :
  train_turn dataset st = (st', Ok leave) <->
  exists st_e,
    for_each (fun _ xy => train_batch xy) (iterate_once dataset 10) tt
      (mkState (self st) (calls st ++ [IterateOnce 10])) = (st_e, Ok tt) /\
    st' = mkState (self st_e) (calls st_e ++ [GetValidationAccuracy]) /\
    leave = s_geb (get_validation_accuracy dataset (self st_e)) (s_lit 0.97%Q).
Proof.
  unfold train_turn, train_epoch, bind, call_iterate_once,
    call_get_validation_accuracy, record_call, ret, batch_size.
  destruct (for_each _ _ _ _) as [st_e [[]|e]]; split.
  - intros E; inversion E; subst. exists st_e. auto.
  - intros [st0 [E [-> ->]]]. inversion E; subst. reflexivity.
  - discriminate.
  - intros [st0 [E _]]. discriminate.
Qed.

Lemma digit_turn_epochs_started (dataset : Dataset T Node Model) (st : State) :
  epochs_started (calls (fst (train_turn dataset st))) =
  epochs_started (calls st) + 1.
Proof.
  pose proof (epoch_updates_calls dataset 10 train_batch digit_batch_keeps_calls st) as C.
  unfold train_turn, train_epoch, batch_size, bind, call_iterate_once,
    call_get_validation_accuracy, record_call, ret in *.
  destruct (for_each _ _ _ _) as [st_e [[]|e]]; cbn [fst calls] in *;
    rewrite ?epochs_started_app, C, epochs_started_app;
    unfold epochs_started; simpl; lia.
Qed.




(** C4 (DigitClassificationModel.train).  Every execution, whether it returns
    or raises, starts at most 2000 epochs.  A turn of the loop runs the batch
    updates of a whole epoch (batches of size 10), then asks the validation
    accuracy of the updated model and leaves the loop when it is [>= 0.97].
    [train] returns exactly after the first turn that leaves the loop, or
    after 2000 turns none of which did. *)
Theorem train_digit_at_most_2000_epochs (dataset : Dataset T Node Model) :
  (forall st,
     epochs_started (calls (fst (train dataset st))) <=
     epochs_started (calls st) + 2000)
  /\ (forall st st' leave,
       train_turn dataset st = (st', Ok leave) <->
       exists st_e,
         for_each (fun _ xy => train_batch xy) (iterate_once dataset 10) tt
           (mkState (self st) (calls st ++ [IterateOnce 10])) = (st_e, Ok tt) /\
         st' = mkState (self st_e) (calls st_e ++ [GetValidationAccuracy]) /\
         leave = s_geb (get_validation_accuracy dataset (self st_e))
                   (s_lit 0.97%Q))
  /\ (forall st st',
       train dataset st = (st', Ok tt) <->
       (exists k st_k, k < 2000 /\ turns (train_turn dataset) k st st_k /\
          train_turn dataset st_k = (st', Ok true)) \/
       turns (train_turn dataset) 2000 st st').
Proof.
  split; [|split].
  - intros st. unfold train. apply for_range_epochs_started.
    apply digit_turn_epochs_started.
  - apply digit_turn_iff.
  - intros st st'. unfold train. apply for_range_returns_iff.
Qed.

End DigitFacts.

(* ------------------------------------------------------------------ *)
(** * LanguageIDModel.train *)

Section LanguageTrainFacts.

Context {T : Type} `{Backend T}.

Import LanguageIDModel.

Abbreviation Node := (nn.Node T).
Abbreviation State := (TrainState (Model (T := T))).

Local Ltac norm :=
  cbn [rbind self calls set_weight set_weight_h set_weight_f
       weight weight_h weight_f].
Local Ltac step_with E := rewrite E; norm.

Lemma language_batch_keeps_calls (xy : list Node * Node) :
  keeps_calls (train_batch xy).
Proof. destruct xy as [x y]. unfold train_batch. solve_keeps_calls. Qed.

(** What one batch does. *)
Lemma language_batch_iff (st st' : State) (xs : list Node) (y : Node) :
  train_batch (xs, y) st = (st', Ok tt) <->
  exists loss gs g0 g1 g2 w wh wf,
    get_loss (self st) xs y = Ok loss /\
    gradients loss [weight_node (self st); weight_h_node (self st);
                    weight_f_node (self st)] = Ok gs /\
    getitem gs 0 = Ok g0 /\ getitem gs 1 = Ok g1 /\ getitem gs 2 = Ok g2 /\
    nn.update (weight (self st)) g0 (s_lit (-0.005)%Q) = Ok w /\
    nn.update (weight_h (self st)) g1 (s_lit (-0.005)%Q) = Ok wh /\
    nn.update (weight_f (self st)) g2 (s_lit (-0.005)%Q) = Ok wf /\
    st' = mkState (mkModel w wh wf) (calls st).
Proof.
  unfold train_batch, bind, reading, update_parameter, writing, learning_rate.
  split.
  - cbn zeta.
    destruct (get_loss (self st) xs y) as [loss|e] eqn:El;
      cbn [rbind]; [|discriminate].
    destruct (gradients loss _) as [gs|e] eqn:Eg; [|discriminate].
    destruct (getitem gs 0) as [g0|e] eqn:E0; [|discriminate].
    destruct (nn.update (weight (self st)) g0 _) as [w|e] eqn:U0;
      norm; [|discriminate].
    destruct (getitem gs 1) as [g1|e] eqn:E1; [|discriminate].
    destruct (nn.update (weight_h (self st)) g1 _) as [wh|e] eqn:U1;
      norm; [|discriminate].
    destruct (getitem gs 2) as [g2|e] eqn:E2; [|discriminate].
    destruct (nn.update (weight_f (self st)) g2 _) as [wf|e] eqn:U2;
      norm; [|discriminate].
    intros E; inversion E; subst.
    exists loss, gs, g0, g1, g2, w, wh, wf. repeat split; auto.
  - intros [loss [gs [g0 [g1 [g2 [w [wh [wf
      [El [Eg [E0 [E1 [E2 [U0 [U1 [U2 ->]]]]]]]]]]]]]]]].
    cbn zeta. step_with El. step_with Eg. step_with E0. step_with U0.
    step_with E1. step_with U1. step_with E2. step_with U2. reflexivity.
Qed.

(** A turn of the loop: all the batch updates of the epoch, then the
    accuracy of the model as updated, then the test. *)
Lemma language_turn_iff (dataset : Dataset T (list Node) Model) (st st' : State)
  (leave : bool) :
  train_turn dataset st = (st', Ok leave) <->
  exists st_e,
    for_each (fun _ xy => train_batch xy) (iterate_once dataset 2) tt
      (mkState (self st) (calls st ++ [IterateOnce 2])) = (st_e, Ok tt) /\
    st' = mkState (self st_e) (calls st_e ++ [GetValidationAccuracy]) /\
    leave = s_geb (get_validation_accuracy dataset (self st_e)) (s_lit 0.82%Q).
Proof.
  unfold train_turn, train_epoch, bind, call_iterate_once,
    call_get_validation_accuracy, record_call, ret, batch_size.
  destruct (for_each _ _ _ _) as [st_e [[]|e]]; split.
  - intros E; inversion E; subst. exists st_e. auto.
  - intros [st0 [E [-> ->]]]. inversion E; subst. reflexivity.
  - discriminate.
  - intros [st0 [E _]]. discriminate.
Qed.




(** With the threshold out of reach no turn leaves the loop. *)
Lemma language_turn_stays (dataset : Dataset T (list Node) Model) :
  (forall m, s_geb (get_validation_accuracy dataset m) (s_lit 0.82%Q) = false) ->
  forall st st' leave, train_turn dataset st = (st', Ok leave) -> leave = false.
Proof.
  intros Hlow st st' leave E.
  apply language_turn_iff in E. destruct E as [st_e [_ [_ ->]]]. apply Hlow.
Qed.

(** C6 (LanguageIDModel.train).  A turn of the [while] loop runs the batch
    updates of a whole epoch (batches of size 2, every parameter updated
    with its own gradient multiplied by -0.005), then asks the validation
    accuracy of the updated model and leaves the loop when it is [>= 0.82].
    [train] returns exactly after the first turn that leaves the loop,
    however many turns that takes.  When no model reaches the threshold,
    [train] never returns; and from a state of an invariant on whose states
    no epoch raises, it runs for ever: it outlasts every fuel. *)
Theorem train_language_until_threshold (dataset : Dataset T (list Node) Model) :
  (forall fuel st st',
     train fuel dataset st = Some (st', Ok tt) <->
     exists k st_k, k < fuel /\ turns (train_turn dataset) k st st_k /\
       train_turn dataset st_k = (st', Ok true))
  /\ (forall st st' leave,
       train_turn dataset st = (st', Ok leave) <->
       exists st_e,
         for_each (fun _ xy => train_batch xy) (iterate_once dataset 2) tt
           (mkState (self st) (calls st ++ [IterateOnce 2])) = (st_e, Ok tt) /\
         st' = mkState (self st_e) (calls st_e ++ [GetValidationAccuracy]) /\
         leave = s_geb (get_validation_accuracy dataset (self st_e))
                   (s_lit 0.82%Q))
  /\ (forall st st' xs y,
       train_batch (xs, y) st = (st', Ok tt) <->
       exists loss gs g0 g1 g2 w wh wf,
         get_loss (self st) xs y = Ok loss /\
         gradients loss [weight_node (self st); weight_h_node (self st);
                         weight_f_node (self st)] = Ok gs /\
         getitem gs 0 = Ok g0 /\ getitem gs 1 = Ok g1 /\ getitem gs 2 = Ok g2 /\
         nn.update (weight (self st)) g0 (s_lit (-0.005)%Q) = Ok w /\
         nn.update (weight_h (self st)) g1 (s_lit (-0.005)%Q) = Ok wh /\
         nn.update (weight_f (self st)) g2 (s_lit (-0.005)%Q) = Ok wf /\
         st' = mkState (mkModel w wh wf) (calls st))
  /\ ((forall m, s_geb (get_validation_accuracy dataset m) (s_lit 0.82%Q) = false) ->
      (forall fuel st st', train fuel dataset st <> Some (st', Ok tt)) /\
      (forall Inv : State -> Prop,
         (forall s, Inv s ->
            exists s' leave, train_turn dataset s = (s', Ok leave) /\ Inv s') ->
         forall st, Inv st -> forall fuel, train fuel dataset st = None)).
Proof.
  split; [|split; [|split]].
  - intros fuel st st'. apply while_true_returns_iff.
  - apply language_turn_iff.
  - apply language_batch_iff.
  - intros Hlow. split.
    + intros fuel st st' E. apply while_true_returns_iff in E.
      destruct E as [k [st_k [_ [_ E]]]].
      apply (language_turn_stays _ Hlow) in E. discriminate.
    + intros Inv Hok st Hst fuel. apply while_true_out_of_fuel_iff.
      revert st Hst. induction fuel as [|fuel IH]; intros st Hst.
      * exists st. constructor.
      * destruct (Hok st Hst) as [st1 [leave [E Hst1]]].
        pose proof (language_turn_stays _ Hlow _ E) as ->.
        destruct (IH st1 Hst1) as [st' Ht]. exists st'. econstructor; eauto.
Qed.

End LanguageTrainFacts.

(* ------------------------------------------------------------------ *)
(** * The first epoch of the two loops with a threshold *)

Section FirstEpochFacts.

Context {T : Type} `{Backend T}.

Abbreviation Node := (nn.Node T).


End FirstEpochFacts.

(* ------------------------------------------------------------------ *)
(** * The models at work

    The loops and the forward passes on the data of [Instances], computed,
    and the statements above applied to them. *)

Section Runs.

Import Instances.

Lemma well_formed_by_computation (t : nn.Tensor Q) :
  nn.well_formedb t = true -> nn.well_formed t.
Proof. apply well_formedb_spec. Qed.

(** Over the rationals the test of [get_prediction] is the order of the
    rationals: on a single sample the prediction is 1 exactly when the dot
    product of the weights and the sample is not negative. *)
Lemma get_prediction_rational (m : PerceptronModel.Model (T := Q))
  (x : nn.Node Q) (dimensions : nat) :
  PerceptronModel.initialised dimensions m ->
  nn.shape (nn.data x) = (1, dimensions) ->
  let score := nn.dot (nn.first_row (PerceptronModel.w m))
                 (nn.first_row (nn.data x)) in
  (PerceptronModel.get_prediction m x = Ok 1%Z <-> (0 <= score)%Q) /\
  (PerceptronModel.get_prediction m x = Ok (-1)%Z <-> (score < 0)%Q).
Proof.
  intros [Ew Ww] Ex score.
  destruct (shape_inv Ew) as [Ewr Ewc]. destruct (shape_inv Ex) as [Exr Exc].
  destruct (@DotProduct_single Q _ (PerceptronModel.get_weights m) x)
    as [n [Hn Hv]]; simpl; try congruence.
  assert (P : PerceptronModel.get_prediction m x =
              Ok (if Qle_bool 0 score then 1 else -1)%Z)
    by (rewrite (get_prediction_of_score _ _ Hn Hv); reflexivity).
  rewrite P. clear P Hn Hv.
  destruct (Qle_bool 0 score) eqn:E.
  - apply Qle_bool_iff in E. split; split.
    + intros _. exact E.
    + reflexivity.
    + discriminate.
    + intros L. exfalso. apply (Qlt_not_le _ _ L E).
  - assert (L : (score < 0)%Q).
    { apply Qnot_le_lt. intros G. apply Qle_bool_iff in G. congruence. }
    split; split.
    + discriminate.
    + intros G. exfalso. apply (Qlt_not_le _ _ L G).
    + intros _. exact L.
    + reflexivity.
Qed.

(** ** Runs *)

(** The perceptron misclassifies the second point on the first pass, adds
    [-1 * (-1, -1)] to its weights, and finds no mistake on the second pass. *)
Example perceptron_two_passes :
  PerceptronModel.train 2 points perceptron_start = Some (perceptron_end, Ok tt)
  /\ PerceptronModel.train 1 points perceptron_start = None
  /\ PerceptronModel.train_pass points perceptron_start =
       (perceptron_middle, Ok false).
Proof. repeat split; vm_compute; reflexivity. Qed.

Example perceptron_predictions :
  PerceptronModel.get_prediction perceptron0 (constant [[-1; -1]]%Q) = Ok 1%Z
  /\ PerceptronModel.get_prediction perceptron1 (constant [[-1; -1]]%Q) = Ok (-1)%Z
  /\ PerceptronModel.get_prediction perceptron1 (constant [[1; 2; 3]]%Q) =
       Raise AssertionError.
Proof. repeat split; vm_compute; reflexivity. Qed.

Example regression_thousand_epochs :
  RegressionModel.train two_batches regression_start = (regression_end, Ok tt).
Proof. vm_compute. reflexivity. Qed.

(** On [digits] the accuracy is 0.9 after nine epochs and 1 after ten. *)
Example digit_ten_epochs :
  DigitClassificationModel.train digits digit_start = (digit_end, Ok tt).
Proof. vm_compute. reflexivity. Qed.

(** On [easy_digits] the accuracy is 1 before the first epoch; the epoch is
    run all the same and changes the parameters. *)
Example digit_easy_one_epoch :
  s_geb (get_validation_accuracy easy_digits digit0) (s_lit 0.97%Q) = true
  /\ DigitClassificationModel.train easy_digits digit_start =
       (digit_easy_end, Ok tt)
  /\ self digit_easy_end <> digit0.
Proof.
  split; [reflexivity|]. split; [vm_compute; reflexivity|].
  intros E. vm_compute in E. discriminate.
Qed.

(** On [words] the accuracy is 0.81 after one epoch and 0.82 after two. *)
Example language_two_epochs :
  LanguageIDModel.train 2 words language_start = Some (language_end, Ok tt)
  /\ LanguageIDModel.train 1 words language_start = None
  /\ LanguageIDModel.train 50 hard_words language_start = None.
Proof. repeat split; vm_compute; reflexivity. Qed.

Example language_run_word :
  option_map (fun n => nn.data n)
    (match LanguageIDModel.run language0 word with
     | Ok n => Some n
     | Raise _ => None
     end) = Some (tensor [[2]]%Q)
  /\ LanguageIDModel.run language0 [] = Raise IndexError
  /\ LanguageIDModel.run language0 [constant [[1; 0; 0]]%Q] = Raise AssertionError.
Proof. repeat split; vm_compute; reflexivity. Qed.

Example update_half_step :
  nn.update (tensor [[1; 2]]%Q) (constant [[3; 4]]%Q) 0.5%Q =
    Ok (tensor [[5 # 2; 4]]%Q)
  /\ nn.update (tensor [[1; 2]]%Q) (constant [[3; 4; 5]]%Q) 0.5%Q =
       Raise AssertionError.
Proof. repeat split; vm_compute; reflexivity. Qed.

(** ** The statements at these data *)

(** C1 at [points]: [train] returns after the second pass. *)
Lemma train_perceptron_rule_witness :
  exists k st_k, k < 2 /\
    turns (PerceptronModel.train_pass points) k perceptron_start st_k /\
    PerceptronModel.train_pass points st_k = (perceptron_end, Ok true).
Proof.
  refine (proj1 (proj2 (proj2 (proj2 (proj2 (train_perceptron_rule points))))
                   2 perceptron_start perceptron_end) _).
  vm_compute. reflexivity.
Defined.

(** C2 at the weights (1, 1) and the point (1, -2): the score is -1. *)
Lemma get_prediction_sign_of_run_witness :
  exists n,
    PerceptronModel.run perceptron1 (constant [[1; -2]]%Q) = Ok n /\
    nn.as_scalar n = Ok (-1)%Q /\
    PerceptronModel.get_prediction perceptron1 (constant [[1; -2]]%Q) = Ok (-1)%Z.
Proof.
  refine (proj2 (proj2 (get_prediction_sign_of_run perceptron1
                          (constant [[1; -2]]%Q))) 2 _ _).
  - split; [reflexivity | apply well_formed_by_computation; reflexivity].
  - reflexivity.
Defined.

(** C3 at [two_batches]: 1000 calls of [iterate_once(10)]. *)
Lemma train_regression_fixed_epochs_witness :
  calls regression_end = calls regression_start ++ repeat (IterateOnce 10) 1000.
Proof.
  refine (proj1 (proj2 (proj2 (train_regression_fixed_epochs two_batches)))
            regression_start regression_end _).
  vm_compute. reflexivity.
Defined.

(** C4 at [digits]: [train] returns before its 2000 turns are over. *)
Lemma train_digit_at_most_2000_epochs_witness :
  (exists k st_k, k < 2000 /\
     turns (DigitClassificationModel.train_turn digits) k digit_start st_k /\
     DigitClassificationModel.train_turn digits st_k = (digit_end, Ok true)) \/
  turns (DigitClassificationModel.train_turn digits) 2000 digit_start digit_end.
Proof.
  refine (proj1 (proj2 (proj2 (train_digit_at_most_2000_epochs digits))
                   digit_start digit_end) _).
  vm_compute. reflexivity.
Defined.

(** C5 at a word of three characters. *)
Lemma run_is_recurrence_witness :
  LanguageIDModel.run language0 word = LanguageIDModel.spec_run language0 word.
Proof.
  refine (proj1 (@run_is_recurrence Q _ language0 word _)).
  discriminate.
Defined.

(** On [hard_words], whose only batch is a word of three characters, a turn
    from a model with parameters of shapes (2 x 2), (2 x 2) and (2 x 1) does
    not raise, does not leave the loop, and leads to such a model again. *)
Definition language_small (st : TrainState (LanguageIDModel.Model (T := Q)))
  : Prop :=
  LanguageIDModel.parameter_shapes (self st) = [(2, 2); (2, 2); (2, 1)].

Lemma hard_words_turn (st : TrainState (LanguageIDModel.Model (T := Q))) :
  language_small st ->
  exists st',
    LanguageIDModel.train_turn hard_words st = (st', Ok false) /\
    language_small st'.
Proof.
  destruct st as [[[rw cw w] [rh ch wh] [rf cf wf]] log].
  unfold language_small, LanguageIDModel.parameter_shapes, nn.shape.
  cbn [self LanguageIDModel.weight LanguageIDModel.weight_h
       LanguageIDModel.weight_f nn.rows nn.cols].
  intros E.
  assert (Ew : rw = 2 /\ cw = 2) by (split; congruence).
  assert (Eh : rh = 2 /\ ch = 2) by (split; congruence).
  assert (Ef : rf = 2 /\ cf = 1) by (split; congruence).
  destruct Ew as [-> ->], Eh as [-> ->], Ef as [-> ->]. clear E.
  eexists. split; [|shelve].
  vm_compute. reflexivity.
  Unshelve. reflexivity.
Qed.

(** C6 at [words], where [train] returns after the second epoch, and at
    [hard_words], where every epoch updates the parameters on its batch and
    [train] never returns. *)
Lemma train_language_until_threshold_witness :
  (exists k st_k, k < 2 /\
     turns (LanguageIDModel.train_turn words) k language_start st_k /\
     LanguageIDModel.train_turn words st_k = (language_end, Ok true)) /\
  LanguageIDModel.train 100 hard_words language_start = None.
Proof.
  split.
  - refine (proj1 (proj1 (train_language_until_threshold words)
                     2 language_start language_end) _).
    vm_compute. reflexivity.
  - refine (proj2 (proj2 (proj2 (proj2 (train_language_until_threshold hard_words)))
                     _) language_small _ language_start _ 100).
    + intros m. reflexivity.
    + intros s Hs. destruct (hard_words_turn Hs) as [s' [E Hs']].
      exists s', false. split; assumption.
    + reflexivity.
Defined.

(** C7 at a word of four characters for a batch of two. *)
Lemma run_shape_witness :
  exists n, LanguageIDModel.run language_full four_characters = Ok n /\
    nn.shape (nn.data n) = (2, 5) /\ nn.well_formed (nn.data n).
Proof.
  refine (@run_shape Q _ language_full 2 four_characters _ _ _).
  - repeat split; try reflexivity;
      apply Forall_forall; intros r Hr; apply repeat_spec in Hr; subst r;
      apply repeat_length.
  - simpl. lia.
  - repeat constructor; apply well_formed_by_computation; reflexivity.
Defined.

(** C8 over the rationals, up to their equality. *)
Lemma update_adds_scaled_direction_witness :
  exists p0,
    nn.update (tensor [[1; 2]]%Q) (constant [[3; 4]]%Q) 0%Q = Ok p0 /\
    nn.cells_related Qeq p0 (tensor [[1; 2]]%Q).
Proof.
  refine (proj1 (proj2 (@update_adds_scaled_direction Q _
                          (tensor [[1; 2]]%Q) (constant [[3; 4]]%Q) _ _ _))
            Qeq _).
  - apply well_formed_by_computation. reflexivity.
  - apply well_formed_by_computation. reflexivity.
  - reflexivity.
  - intros a b. cbv [s_add s_mul s_zero Scalar_Q]. rewrite !Qred_correct. ring.
Defined.

(** C9 at a word of three characters. *)
Lemma run_empty_raises_witness : 1 <= length word.
Proof.
  refine (proj2 (run_empty_raises language0) word _ _).
  vm_compute. reflexivity.
Defined.


End Runs.

(* ------------------------------------------------------------------ *)
(** * The forward passes: shapes and failures *)

Section ForwardFacts.

Context {T : Type} `{Scalar T}.

Abbreviation Tensor := (nn.Tensor T).
Abbreviation Node := (nn.Node T).

Lemma AddBias_shape (x b : Node) :
  nn.rows (nn.data b) = 1 ->
  nn.cols (nn.data x) = nn.cols (nn.data b) ->
  nn.well_formed (nn.data x) -> nn.well_formed (nn.data b) ->
  exists n, nn.AddBias x b = Ok n /\
    nn.shape (nn.data n) = nn.shape (nn.data x) /\
    nn.well_formed (nn.data n).
Proof.
  intros Er Ec [Hr Hc] Wb. unfold nn.AddBias.
  rewrite Er, Ec, !Nat.eqb_refl. simpl.
  eexists; split; [reflexivity|]. simpl.
  destruct (one_row Er Wb) as [_ Lb].
  repeat split; simpl.
  - unfold nn.shape. simpl. congruence.
  - rewrite length_map. exact Hr.
  - rewrite Forall_forall in *. intros r Hin.
    apply in_map_iff in Hin. destruct Hin as [r0 [<- Hin]].
    rewrite zip_with_length; rewrite (Hc r0 Hin); congruence.
Qed.

Lemma Linear_mismatch (x wt : Node) :
  nn.cols (nn.data x) <> nn.rows (nn.data wt) ->
  nn.Linear x wt = Raise AssertionError.
Proof.
  intros E. unfold nn.Linear.
  apply Nat.eqb_neq in E. rewrite E. reflexivity.
Qed.

Lemma Linear_inv (x wt n : Node) :
  nn.Linear x wt = Ok n -> nn.cols (nn.data x) = nn.rows (nn.data wt).
Proof.
  unfold nn.Linear.
  destruct (nn.cols (nn.data x) =? nn.rows (nn.data wt)) eqn:E;
    [intros _; apply Nat.eqb_eq, E | discriminate].
Qed.

(** The two-layer network shared by the regression and the digit models:
    linear, bias, rectification, linear, bias. *)
Lemma two_layers_shape (x w1 b1 w2 b2 : Node) (n_in n_hidden n_out : nat) :
  nn.shape (nn.data w1) = (n_in, n_hidden) ->
  nn.shape (nn.data b1) = (1, n_hidden) -> nn.well_formed (nn.data b1) ->
  nn.shape (nn.data w2) = (n_hidden, n_out) ->
  nn.shape (nn.data b2) = (1, n_out) -> nn.well_formed (nn.data b2) ->
  nn.well_formed (nn.data x) ->
  (nn.cols (nn.data x) = n_in ->
   exists n,
     (l1 <- nn.Linear x w1 ;; a1 <- nn.AddBias l1 b1 ;; r1 <- nn.ReLU a1 ;;
      l2 <- nn.Linear r1 w2 ;; nn.AddBias l2 b2)%result = Ok n /\
     nn.shape (nn.data n) = (nn.rows (nn.data x), n_out) /\
     nn.well_formed (nn.data n)) /\
  (nn.cols (nn.data x) <> n_in ->
   (l1 <- nn.Linear x w1 ;; a1 <- nn.AddBias l1 b1 ;; r1 <- nn.ReLU a1 ;;
    l2 <- nn.Linear r1 w2 ;; nn.AddBias l2 b2)%result = Raise AssertionError).
Proof.
  intros Ew1 Eb1 Wb1 Ew2 Eb2 Wb2 Wx.
  destruct (shape_inv Ew1) as [Ew1r Ew1c]. destruct (shape_inv Eb1) as [Eb1r Eb1c].
  destruct (shape_inv Ew2) as [Ew2r Ew2c]. destruct (shape_inv Eb2) as [Eb2r Eb2c].
  split.
  - intros Ex.
    destruct (@Linear_shape T _ x w1) as [l1 [H1 [_ [S1 W1]]]];
      [congruence | exact Wx |].
    destruct (shape_inv S1) as [S1r S1c].
    destruct (@AddBias_shape l1 b1) as [a1 [H2 [S2 W2]]];
      [exact Eb1r | congruence | exact W1 | exact Wb1 |].
    destruct (@ReLU_shape T _ a1) as [r1 [H3 [_ [S3 W3]]]]; [exact W2|].
    rewrite S2, S1 in S3. destruct (shape_inv S3) as [S3r S3c].
    destruct (@Linear_shape T _ r1 w2) as [l2 [H4 [_ [S4 W4]]]];
      [congruence | exact W3 |].
    destruct (shape_inv S4) as [S4r S4c].
    destruct (@AddBias_shape l2 b2) as [n [H5 [S5 W5]]];
      [exact Eb2r | congruence | exact W4 | exact Wb2 |].
    exists n. rewrite H1. cbn [rbind]. rewrite H2. cbn [rbind].
    rewrite H3. cbn [rbind]. rewrite H4. cbn [rbind].
    split; [exact H5|]. split; [|exact W5].
    rewrite S5, S4. congruence.
  - intros Ex. rewrite Linear_mismatch; [reflexivity | congruence].
Qed.

End ForwardFacts.

Section ForwardModels.

Context {T : Type} `{Backend T}.

Abbreviation Node := (nn.Node T).

(** X1 (RegressionModel.run).  With the parameters of [__init__], [run] on a
    batch of any number of rows and one column returns a node of as many rows
    and one column; on a batch of another number of columns it raises an
    assertion error. *)
Theorem regression_run_shape (m : RegressionModel.Model) (x : Node) :
  RegressionModel.initialised m -> nn.well_formed (nn.data x) ->
  (nn.cols (nn.data x) = 1 ->
   exists n, RegressionModel.run m x = Ok n /\
     nn.shape (nn.data n) = (nn.rows (nn.data x), 1) /\
     nn.well_formed (nn.data n)) /\
  (nn.cols (nn.data x) <> 1 -> RegressionModel.run m x = Raise AssertionError).
Proof.
  intros [[Ew1 _] [[Eb1 Wb1] [[Ew2 _] [Eb2 Wb2]]]] Wx.
  unfold RegressionModel.run.
  apply (@two_layers_shape T _ x (RegressionModel.weight1_node m)
           (RegressionModel.bias1_node m) (RegressionModel.weight2_node m)
           (RegressionModel.bias2_node m) 1 100 1); assumption.
Qed.

(** X2 (DigitClassificationModel.run).  With the parameters of [__init__],
    [run] on a batch of any number of rows and 784 columns returns a node of
    as many rows and 10 columns; on a batch of another number of columns it
    raises an assertion error. *)
Theorem digit_run_shape (m : DigitClassificationModel.Model) (x : Node) :
  DigitClassificationModel.initialised m -> nn.well_formed (nn.data x) ->
  (nn.cols (nn.data x) = 784 ->
   exists n, DigitClassificationModel.run m x = Ok n /\
     nn.shape (nn.data n) = (nn.rows (nn.data x), 10) /\
     nn.well_formed (nn.data n)) /\
  (nn.cols (nn.data x) <> 784 ->
   DigitClassificationModel.run m x = Raise AssertionError).
Proof.
  intros [[Ew1 _] [[Eb1 Wb1] [[Ew2 _] [Eb2 Wb2]]]] Wx.
  unfold DigitClassificationModel.run.
  apply (@two_layers_shape T _ x (DigitClassificationModel.weight1_node m)
           (DigitClassificationModel.bias1_node m)
           (DigitClassificationModel.weight2_node m)
           (DigitClassificationModel.bias2_node m) 784 100 10); assumption.
Qed.

End ForwardModels.

(* ------------------------------------------------------------------ *)
(** * PerceptronModel: when a prediction exists, what training reaches *)

Section UpdateShape.

Context {T : Type} `{Scalar T}.

Lemma update_inv (p p' : nn.Tensor T) (d : nn.Node T) (s : T) :
  nn.update p d s = Ok p' ->
  nn.shape (nn.data d) = nn.shape p /\ nn.shape p' = nn.shape p /\
  (nn.well_formed p -> nn.well_formed (nn.data d) -> nn.well_formed p').
Proof.
  unfold nn.update.
  destruct (nn.same_shape (nn.data d) p) eqn:E; cbn [assert rbind];
    [|discriminate].
  apply same_shape_spec in E. intros E'; inversion E'; subst; clear E'.
  split; [exact E|]. split; [reflexivity|].
  intros [Hr Hc] [Hr' Hc']. destruct (shape_inv E) as [Er Ec].
  unfold nn.shape in E. split; simpl.
  - rewrite zip_with_length; congruence.
  - rewrite Forall_forall in Hc, Hc'.
    apply zip_with_Forall. intros a b Ha Hb.
    rewrite zip_with_length; rewrite (Hc a Ha); auto.
    rewrite (Hc' b Hb); auto.
Qed.

Lemma update_mismatch (p : nn.Tensor T) (d : nn.Node T) (s : T) :
  nn.shape (nn.data d) <> nn.shape p -> nn.update p d s = Raise AssertionError.
Proof.
  intros E. unfold nn.update.
  destruct (nn.same_shape (nn.data d) p) eqn:E'; [|reflexivity].
  apply same_shape_spec in E'. contradiction.
Qed.

Lemma repeat_singletons (A : Type) (a : A) (k : nat) :
  concat (repeat [a] k) = repeat a k.
Proof. induction k as [|k IH]; simpl; [|rewrite IH]; reflexivity. Qed.

End UpdateShape.

Section PerceptronMore.

Context {T : Type} `{Scalar T}.

Import PerceptronModel.

Abbreviation Node := (nn.Node T).
Abbreviation State := (TrainState (Model (T := T))).

Lemma run_mismatch (m : Model) (x : Node) (dimensions : nat) :
  initialised dimensions m ->
  nn.shape (nn.data x) <> (1, dimensions) ->
  run m x = Raise AssertionError.
Proof.
  intros [Ew _] Ex. destruct (shape_inv Ew) as [Ewr Ewc].
  unfold run, nn.DotProduct. cbn [get_weights nn.parameter_node nn.data].
  destruct (nn.rows (nn.data x) =? 1) eqn:Er; cbn [assert rbind];
    [|reflexivity].
  destruct (nn.cols (w m) =? nn.cols (nn.data x)) eqn:Ec; cbn [assert rbind];
    [|reflexivity].
  apply Nat.eqb_eq in Er, Ec. exfalso. apply Ex.
  unfold nn.shape. congruence.
Qed.

(** X3 (PerceptronModel.run, get_prediction).  For a perceptron of
    [dimensions] dimensions, [get_prediction] returns a class, 1 or -1,
    exactly on the inputs of shape (1 x dimensions); on every other input,
    a batch of several samples included, [run] and [get_prediction] raise an
    assertion error. *)
Theorem get_prediction_defined (m : Model) (x : Node) (dimensions : nat) :
  initialised dimensions m ->
  (nn.shape (nn.data x) = (1, dimensions) ->
   exists p, get_prediction m x = Ok p /\ (p = 1 \/ p = -1)%Z) /\
  (nn.shape (nn.data x) <> (1, dimensions) ->
   run m x = Raise AssertionError /\
   get_prediction m x = Raise AssertionError) /\
  ((exists p, get_prediction m x = Ok p) <->
   nn.shape (nn.data x) = (1, dimensions)).
Proof.
  intros Hm.
  assert (Hyes : nn.shape (nn.data x) = (1, dimensions) ->
                 exists p, get_prediction m x = Ok p /\ (p = 1 \/ p = -1)%Z).
  { intros Ex. destruct Hm as [Ew Ww].
    destruct (shape_inv Ew) as [Ewr Ewc]. destruct (shape_inv Ex) as [Exr Exc].
    destruct (@DotProduct_single T _ (get_weights m) x) as [n [Hn Hv]];
      simpl; try congruence.
    rewrite (get_prediction_of_score _ _ Hn Hv).
    eexists; split; [reflexivity|].
    destruct (s_geb _ _); auto. }
  assert (Hno : nn.shape (nn.data x) <> (1, dimensions) ->
                run m x = Raise AssertionError /\
                get_prediction m x = Raise AssertionError).
  { intros Ex. pose proof (@run_mismatch m x dimensions Hm Ex) as E.
    split; [exact E|]. unfold get_prediction. rewrite E. reflexivity. }
  split; [exact Hyes|]. split; [exact Hno|].
  split.
  - intros [p Hp].
    destruct (Nat.eq_dec (nn.rows (nn.data x)) 1) as [Er|Er];
      [destruct (Nat.eq_dec (nn.cols (nn.data x)) dimensions) as [Ec|Ec]|].
    + unfold nn.shape. congruence.
    + destruct Hno as [_ E]; [unfold nn.shape; congruence | congruence].
    + destruct Hno as [_ E]; [unfold nn.shape; congruence | congruence].
  - intros Ex. destruct (Hyes Ex) as [p [Hp _]]. exists p; exact Hp.
Qed.

(** The state a sample leaves: as it was, or with the weights updated by the
    sample. *)
Lemma train_sample_state (outcome : bool) (xy : Node * Node) (st : State) :
  fst (train_sample outcome xy st) = st \/
  exists label w',
    nn.update (w (self st)) (fst xy) label = Ok w' /\
    fst (train_sample outcome xy st) = mkState (mkModel w') (calls st).
Proof.
  destruct xy as [x y]. cbn [fst].
  unfold train_sample, bind, reading, update_w, update_parameter, writing, ret.
  destruct (nn.as_scalar y) as [label|e]; [|left; reflexivity].
  destruct (get_prediction (self st) x) as [p|e]; [|left; reflexivity].
  destruct (negb (s_eqb label (s_of_Z p))); [|left; reflexivity].
  destruct (nn.update (w (self st)) x label) as [w'|e] eqn:U;
    cbn [rbind]; [|left; reflexivity].
  right. exists label, w'. split; [exact U | reflexivity].
Qed.

Lemma train_sample_keeps_calls (outcome : bool) (xy : Node * Node) :
  keeps_calls (train_sample outcome xy).
Proof.
  intros st. destruct (train_sample_state outcome xy st) as [E|[l [w' [_ E]]]];
    rewrite E; reflexivity.
Qed.

Lemma train_pass_calls (dataset : Dataset T Node Model) (st : State) :
  calls (fst (train_pass dataset st)) = calls st ++ [IterateOnce 1].
Proof.
  rewrite train_pass_unfold.
  rewrite (keeps_calls_for_each train_sample); [reflexivity|].
  intros b a. apply train_sample_keeps_calls.
Qed.

Lemma train_returns_classified (dataset : Dataset T Node Model) (fuel : nat)
  (st st' : State) :
  train fuel dataset st = Some (st', Ok tt) ->
  Forall (classified (self st')) (iterate_once dataset 1) /\
  exists k, 1 <= k <= fuel /\ calls st' = calls st ++ repeat (IterateOnce 1) k.
Proof.
  intros E. unfold train in E. apply while_true_returns_iff in E.
  destruct E as [k [st_k [Hk [Ht Hlast]]]].
  assert (Hc : calls st_k = calls st ++ repeat (IterateOnce 1) k).
  { rewrite <- repeat_singletons.
    apply (@turns_calls _ (train_pass dataset) [IterateOnce 1]); [|exact Ht].
    intros st0 st1 E0. pose proof (train_pass_calls dataset st0) as C.
    rewrite E0 in C. exact C. }
  rewrite train_pass_unfold in Hlast. apply pass_flag_set in Hlast.
  destruct Hlast as [-> Hall]. split; [exact Hall|].
  exists (S k). split; [lia|]. cbn [record_call calls].
  rewrite Hc, <- app_assoc. f_equal.
  clear. induction k as [|k IH]; simpl; [reflexivity | rewrite IH; reflexivity].
Qed.

Lemma train_on_classified (dataset : Dataset T Node Model) (fuel : nat)
  (st : State) :
  Forall (classified (self st)) (iterate_once dataset 1) ->
  train (S fuel) dataset st =
    Some (mkState (self st) (calls st ++ [IterateOnce 1]), Ok tt).
Proof.
  intros Hall. unfold train. cbn [while_true].
  rewrite train_pass_unfold.
  rewrite (proj2 (pass_flag_set (iterate_once dataset 1)
                    (record_call (IterateOnce 1) st)
                    (record_call (IterateOnce 1) st))
             (conj eq_refl Hall)).
  reflexivity.
Qed.

(** X4 (PerceptronModel.train, what a return means).  When [train] returns,
    the weights it leaves classify every sample of the dataset as labelled;
    it has asked the dataset for one pass of single samples per turn, at
    least once, and for nothing else. *)
Theorem train_returns_with_all_classified (dataset : Dataset T Node Model)
  (fuel : nat) (st st' : State) :
  train fuel dataset st = Some (st', Ok tt) ->
  Forall (classified (self st')) (iterate_once dataset 1) /\
  exists k, 1 <= k <= fuel /\ calls st' = calls st ++ repeat (IterateOnce 1) k.
Proof. apply train_returns_classified. Qed.

(** X5 (PerceptronModel.train, on weights that need no change).  When the
    weights classify every sample, [train] returns after one pass and leaves
    them as they are.  So training again after a training that returned
    takes one pass and changes no weight. *)
Theorem train_again_changes_nothing (dataset : Dataset T Node Model) :
  (forall fuel st,
     Forall (classified (self st)) (iterate_once dataset 1) ->
     train (S fuel) dataset st =
       Some (mkState (self st) (calls st ++ [IterateOnce 1]), Ok tt)) /\
  (forall fuel fuel' st st',
     train fuel dataset st = Some (st', Ok tt) ->
     train (S fuel') dataset st' =
       Some (mkState (self st') (calls st' ++ [IterateOnce 1]), Ok tt)).
Proof.
  split.
  - intros fuel st. apply train_on_classified.
  - intros fuel fuel' st st' E. apply train_on_classified.
    apply (@train_returns_classified dataset fuel st st' E).
Qed.

(** X6 (PerceptronModel.train, the weights keep their shape).  On a dataset
    of well-formed samples, training a perceptron of [dimensions] dimensions
    leaves a perceptron of [dimensions] dimensions, whether [train] returns
    or raises. *)
Theorem train_keeps_initialised (dataset : Dataset T Node Model)
  (dimensions fuel : nat) (st st' : State) (r : result unit) :
  Forall (fun xy => nn.well_formed (nn.data (fst xy))) (iterate_once dataset 1) ->
  initialised dimensions (self st) ->
  train fuel dataset st = Some (st', r) ->
  initialised dimensions (self st').
Proof.
  intros Hwf Hst E. unfold train in E.
  assert (Hpass : forall s : State,
             initialised dimensions (self s) ->
             initialised dimensions (self (fst (train_pass dataset s)))).
  { intros s Hs. rewrite train_pass_unfold.
    apply (@for_each_invariant _ (fun s => initialised dimensions (self s)));
      [|exact Hs].
    intros b xy st0 Hin [Ew Ww].
    destruct (train_sample_state b xy st0) as [->|[label [w' [U ->]]]];
      [split; assumption|].
    destruct (@update_inv _ _ _ _ _ _ U) as [_ [Es Hw]].
    rewrite Forall_forall in Hwf.
    split; cbn [self w]; [congruence | apply Hw; auto]. }
  exact (@while_true_invariant _ (fun s => initialised dimensions (self s))
           (train_pass dataset) Hpass fuel st st' r Hst E).
Qed.

End PerceptronMore.

(* ------------------------------------------------------------------ *)
(** * Training: what is kept, what a return means, how a failure ends it *)

Section UpdateParameterFacts.

Context {T Model : Type} `{Scalar T}.

Abbreviation State := (TrainState Model).

Lemma update_parameter_state (get : Model -> nn.Tensor T)
  (set : Model -> nn.Tensor T -> Model) (d : nn.Node T) (s : T) (st : State) :
  (exists v, nn.update (get (self st)) d s = Ok v /\
     update_parameter get set d s st =
       (mkState (set (self st) v) (calls st), Ok tt)) \/
  (exists e, nn.update (get (self st)) d s = Raise e /\
     update_parameter get set d s st = (st, Raise e)).
Proof.
  unfold update_parameter, writing.
  destruct (nn.update (get (self st)) d s) as [v|e]; cbn [rbind]; eauto.
Qed.

Lemma update_parameter_invariant (Q : Model -> Prop)
  (get : Model -> nn.Tensor T) (set : Model -> nn.Tensor T -> Model)
  (d : nn.Node T) (s : T) :
  (forall m v, Q m -> nn.shape v = nn.shape (get m) -> Q (set m v)) ->
  forall st : State,
    model_satisfies Q st ->
    model_satisfies Q (fst (update_parameter get set d s st)).
Proof.
  intros Hset st Hst.
  destruct (update_parameter_state get set d s st) as [[v [U ->]]|[e [_ ->]]];
    [|exact Hst].
  apply Hset; [exact Hst|].
  destruct (@update_inv _ _ _ _ _ _ U) as [_ [Es _]]. exact Es.
Qed.

Lemma reading_invariant (P : State -> Prop) (A : Type) (f : State -> result A) :
  forall st, P st -> P (fst (reading f st)).
Proof. intros st Hst. exact Hst. Qed.

Lemma ret_invariant (P : State -> Prop) (A : Type) (a : A) :
  forall st, P st -> P (fst (ret a st)).
Proof. intros st Hst. exact Hst. Qed.

Lemma call_iterate_once_invariant (Q : Model -> Prop) (Input : Type)
  (dataset : Dataset T Input Model) (batch_size : nat) :
  forall st : State,
    model_satisfies Q st ->
    model_satisfies Q (fst (call_iterate_once dataset batch_size st)).
Proof. intros st Hst. exact Hst. Qed.

Lemma call_get_validation_accuracy_invariant (Q : Model -> Prop) (Input : Type)
  (dataset : Dataset T Input Model) :
  forall st : State,
    model_satisfies Q st ->
    model_satisfies Q (fst (call_get_validation_accuracy dataset st)).
Proof. intros st Hst. exact Hst. Qed.

End UpdateParameterFacts.

(** Splits a goal [forall st, P st -> P (fst (c st))], for [P] a property of
    the model, along the binds of [c], down to the updates and the bodies of
    the loops over the batches. *)
Ltac preserved_by_step P :=
  cbv beta;
  lazymatch goal with
  | |- forall st, _ -> _ (fst (bind _ _ st)) =>
      apply (@bind_invariant _ P); [ | intro ]
  | |- forall st, _ -> _ (fst (reading _ st)) =>
      apply reading_invariant
  | |- forall st, _ -> _ (fst (ret _ st)) =>
      apply ret_invariant
  | |- forall st, _ -> _ (fst (call_iterate_once _ _ st)) =>
      apply call_iterate_once_invariant
  | |- forall st, _ -> _ (fst (call_get_validation_accuracy _ st)) =>
      apply call_get_validation_accuracy_invariant
  | |- forall st, _ -> _ (fst (for_each _ _ _ st)) =>
      apply (@for_each_invariant _ P); intros ? ? ? _
  end.

Ltac preserved_by_steps P := repeat preserved_by_step P.

Section ShapesKept.

Context {T : Type} `{Backend T}.

Abbreviation Node := (nn.Node T).

Abbreviation regression_shapes v :=
  (model_satisfies
     (fun m : RegressionModel.Model (T := T) =>
        RegressionModel.parameter_shapes m = v)).
Abbreviation digit_shapes v :=
  (model_satisfies
     (fun m : DigitClassificationModel.Model (T := T) =>
        DigitClassificationModel.parameter_shapes m = v)).
Abbreviation language_shapes v :=
  (model_satisfies
     (fun m : LanguageIDModel.Model (T := T) =>
        LanguageIDModel.parameter_shapes m = v)).

Lemma regression_batch_shapes (v : list (nat * nat)) (xy : Node * Node) :
  forall st,
    regression_shapes v st ->
    regression_shapes v (fst (RegressionModel.train_batch xy st)).
Proof.
  destruct xy as [x y]. unfold RegressionModel.train_batch.
  preserved_by_steps (regression_shapes v);
    apply update_parameter_invariant; intros m w Hm Ew;
    unfold RegressionModel.parameter_shapes in *; simpl; congruence.
Qed.

Lemma digit_batch_shapes (v : list (nat * nat)) (xy : Node * Node) :
  forall st,
    digit_shapes v st ->
    digit_shapes v (fst (DigitClassificationModel.train_batch xy st)).
Proof.
  destruct xy as [x y]. unfold DigitClassificationModel.train_batch.
  preserved_by_steps (digit_shapes v);
    apply update_parameter_invariant; intros m w Hm Ew;
    unfold DigitClassificationModel.parameter_shapes in *; simpl; congruence.
Qed.

Lemma language_batch_shapes (v : list (nat * nat)) (xy : list Node * Node) :
  forall st,
    language_shapes v st ->
    language_shapes v (fst (LanguageIDModel.train_batch xy st)).
Proof.
  destruct xy as [x y]. unfold LanguageIDModel.train_batch.
  preserved_by_steps (language_shapes v);
    apply update_parameter_invariant; intros m w Hm Ew;
    unfold LanguageIDModel.parameter_shapes in *; simpl; congruence.
Qed.

(** X7 (the three [train] loops with gradients, the parameters keep their
    shapes).  Whatever the dataset and the gradients, and whether the loop
    returns or raises, RegressionModel.train, DigitClassificationModel.train
    and LanguageIDModel.train leave every parameter with the shape it had. *)
Theorem train_keeps_parameter_shapes :
  (forall (dataset : Dataset T Node RegressionModel.Model) st,
     RegressionModel.parameter_shapes
       (self (fst (RegressionModel.train dataset st))) =
     RegressionModel.parameter_shapes (self st)) /\
  (forall (dataset : Dataset T Node DigitClassificationModel.Model) st,
     DigitClassificationModel.parameter_shapes
       (self (fst (DigitClassificationModel.train dataset st))) =
     DigitClassificationModel.parameter_shapes (self st)) /\
  (forall (dataset : Dataset T (list Node) LanguageIDModel.Model) fuel st st' r,
     LanguageIDModel.train fuel dataset st = Some (st', r) ->
     LanguageIDModel.parameter_shapes (self st') =
     LanguageIDModel.parameter_shapes (self st)).
Proof.
  split; [|split].
  - intros dataset st.
    apply (@for_range_invariant _
             (regression_shapes (RegressionModel.parameter_shapes (self st))));
      [|reflexivity].
    unfold RegressionModel.train_epoch.
    preserved_by_steps
      (regression_shapes (RegressionModel.parameter_shapes (self st))).
    apply regression_batch_shapes.
  - intros dataset st.
    apply (@for_range_invariant _
             (digit_shapes (DigitClassificationModel.parameter_shapes (self st))));
      [|reflexivity].
    unfold DigitClassificationModel.train_turn,
      DigitClassificationModel.train_epoch.
    preserved_by_steps
      (digit_shapes (DigitClassificationModel.parameter_shapes (self st))).
    apply digit_batch_shapes.
  - intros dataset fuel st st' r E.
    apply (@while_true_invariant _
             (language_shapes (LanguageIDModel.parameter_shapes (self st)))
             (LanguageIDModel.train_turn dataset)) with (3 := E);
      [|reflexivity].
    unfold LanguageIDModel.train_turn, LanguageIDModel.train_epoch.
    preserved_by_steps
      (language_shapes (LanguageIDModel.parameter_shapes (self st))).
    apply language_batch_shapes.
Qed.

End ShapesKept.

(* ------------------------------------------------------------------ *)
(** * Training: failures and returns *)

Section RepeatFacts.

Lemma concat_repeat_snoc (A : Type) (c : list A) (k : nat) :
  concat (repeat c k) ++ c = concat (repeat c (S k)).
Proof.
  induction k as [|k IH]; simpl; [rewrite app_nil_r; reflexivity|].
  rewrite <- app_assoc. f_equal. exact IH.
Qed.

End RepeatFacts.

Section RegressionOutcomes.

Context {T : Type} `{Backend T}.

Import RegressionModel.

Abbreviation Node := (nn.Node T).
Abbreviation State := (TrainState (Model (T := T))).

Local Ltac norm :=
  cbn [rbind self calls set_weight1 set_weight2 set_bias1 set_bias2
       weight1 weight2 bias1 bias2].
Local Ltac step_with E := rewrite E; norm.

(** X8 (RegressionModel.train, a failure ends the training).  [train] raises
    exactly when one of its 1000 epochs raises, all the epochs before having
    gone through: with the exception and in the state of that epoch.  An
    epoch raises exactly at its first batch that raises; the batches before
    it have updated the parameters, the batches after it are not run. *)
Theorem train_regression_stops_at_failure (dataset : Dataset T Node Model) :
  (forall st st' e,
     train dataset st = (st', Raise e) <->
     exists k st_k, k < 1000 /\
       turns (train_epoch dataset ;; ret false)%train k st st_k /\
       train_epoch dataset st_k = (st', Raise e)) /\
  (forall st st' e,
     train_epoch dataset st = (st', Raise e) <->
     exists before xy after st1,
       iterate_once dataset 10 = before ++ xy :: after /\
       for_each (fun _ xy => train_batch xy) before tt
         (mkState (self st) (calls st ++ [IterateOnce 10])) = (st1, Ok tt) /\
       train_batch xy st1 = (st', Raise e)).
Proof.
  split.
  - intros st st' e. unfold train. rewrite for_range_raises_iff.
    assert (Hturn : forall s,
               (train_epoch dataset ;; ret false)%train s = (st', Raise e) <->
               train_epoch dataset s = (st', Raise e)).
    { intros s. unfold bind, ret.
      destruct (train_epoch dataset s) as [s1 [[]|e1]]; cbv beta.
      - split; intros E; inversion E.
      - split; intros E; inversion E; reflexivity. }
    split; intros [k [st_k [Hk [Ht E]]]]; exists k, st_k;
      (split; [exact Hk|]); (split; [exact Ht|]); apply Hturn; exact E.
  - intros st st' e.
    change (train_epoch dataset st)
      with (for_each (fun _ xy => train_batch xy) (iterate_once dataset 10) tt
              (mkState (self st) (calls st ++ [IterateOnce 10]))).
    rewrite for_each_raises_iff. split.
    + intros [l1 [a [l2 [[] [st1 [El [Hl E]]]]]]]. exists l1, a, l2, st1. auto.
    + intros [l1 [a [l2 [st1 [El [Hl E]]]]]]. exists l1, a, l2, tt, st1. auto.
Qed.

(** X9 (RegressionModel.train, a batch is not undone).  A batch whose forward
    pass or whose gradients raise leaves the model as it was.  A batch that
    raises at the third parameter, for want of a third gradient or because
    the update refuses it, has already updated [weight1] and [weight2], and
    leaves [bias1] and [bias2] as they were. *)
Theorem train_batch_failure_is_partial (st : State) (x y : Node) (e : exn) :
  ((loss <- get_loss (self st) x y ;;
    gradients loss [weight1_node (self st); weight2_node (self st);
                    bias1_node (self st); bias2_node (self st)])%result
     = Raise e ->
   train_batch (x, y) st = (st, Raise e)) /\
  (forall loss gs g0 g1 w1 w2,
     get_loss (self st) x y = Ok loss ->
     gradients loss [weight1_node (self st); weight2_node (self st);
                     bias1_node (self st); bias2_node (self st)] = Ok gs ->
     getitem gs 0 = Ok g0 -> getitem gs 1 = Ok g1 ->
     nn.update (weight1 (self st)) g0 (s_lit (-0.02)%Q) = Ok w1 ->
     nn.update (weight2 (self st)) g1 (s_lit (-0.02)%Q) = Ok w2 ->
     (getitem gs 2 = Raise e \/
      exists g2, getitem gs 2 = Ok g2 /\
        nn.update (bias1 (self st)) g2 (s_lit (-0.02)%Q) = Raise e) ->
     train_batch (x, y) st =
       (mkState (mkModel w1 (bias1 (self st)) w2 (bias2 (self st))) (calls st),
        Raise e)).
Proof.
  unfold train_batch, bind, reading, update_parameter, writing, learning_rate.
  split.
  - cbn zeta. intros E. rewrite E. reflexivity.
  - intros loss gs g0 g1 w1 w2 El Eg E0 E1 U0 U1 Hthird.
    cbn zeta. step_with El. step_with Eg. step_with E0. step_with U0.
    step_with E1. step_with U1.
    destruct Hthird as [E2|[g2 [E2 U2]]].
    + step_with E2. reflexivity.
    + step_with E2. step_with U2. reflexivity.
Qed.

End RegressionOutcomes.

Section DigitOutcomes.

Context {T : Type} `{Backend T}.

Import DigitClassificationModel.

Abbreviation Node := (nn.Node T).
Abbreviation State := (TrainState (Model (T := T))).

(** A turn that goes through: one epoch, one check, on the model as the
    epoch left it. *)
Lemma digit_turn_ok (dataset : Dataset T Node Model) (st st' : State)
  (leave : bool) :
  train_turn dataset st = (st', Ok leave) ->
  calls st' = calls st ++ [IterateOnce 10; GetValidationAccuracy] /\
  leave = s_geb (get_validation_accuracy dataset (self st')) (s_lit 0.97%Q).
Proof.
  intros E. apply digit_turn_iff in E. destruct E as [st_e [E [-> ->]]].
  pose proof (keeps_calls_for_each (fun _ xy => train_batch xy)
                (fun _ xy => digit_batch_keeps_calls xy)
                (iterate_once dataset 10) tt
                (mkState (self st) (calls st ++ [IterateOnce 10]))) as C.
  rewrite E in C. cbn [fst calls] in C. cbn [self calls].
  rewrite C, <- app_assoc. split; reflexivity.
Qed.

Lemma digit_turns_calls (dataset : Dataset T Node Model) (k : nat)
  (st st' : State) :
  turns (train_turn dataset) k st st' ->
  calls st' =
    calls st ++ concat (repeat [IterateOnce 10; GetValidationAccuracy] k).
Proof.
  apply (@turns_calls _ (train_turn dataset)
           [IterateOnce 10; GetValidationAccuracy]).
  intros st0 st1 E. apply (digit_turn_ok _ _ E).
Qed.

(** The loss differentiated is the softmax loss of the scores. *)
Lemma digit_get_loss_inv (m : Model) (x y loss : Node) :
  get_loss m x y = Ok loss ->
  exists logits, run m x = Ok logits /\
    SoftmaxLoss logits y = Ok loss /\
    nn.graph loss = nn.GSoftmaxLoss (nn.graph logits) (nn.graph y).
Proof.
  unfold get_loss. destruct (run m x) as [p|e]; cbn [rbind]; [|discriminate].
  intros E. exists p. split; [reflexivity|]. split; [exact E|].
  unfold SoftmaxLoss, nn.loss_node in E.
  destruct (assert _); cbn [rbind] in E; [|discriminate].
  destruct (softmax_loss _ _); cbn [rbind] in E; [|discriminate].
  inversion E; reflexivity.
Qed.

(** X10 (DigitClassificationModel.train, what a return means).  When [train]
    returns it has run between 1 and 2000 epochs, each followed by one check
    of the validation accuracy and by no other call; and either the model it
    leaves has a validation accuracy [>= 0.97], or all 2000 epochs were
    run. *)
Theorem train_digit_return (dataset : Dataset T Node Model) (st st' : State) :
  train dataset st = (st', Ok tt) ->
  exists k, 1 <= k <= 2000 /\
    calls st' =
      calls st ++ concat (repeat [IterateOnce 10; GetValidationAccuracy] k) /\
    (s_geb (get_validation_accuracy dataset (self st')) (s_lit 0.97%Q) = true \/
     k = 2000).
Proof.
  intros E. unfold train in E. apply for_range_returns_iff in E.
  destruct E as [[k [st_k [Hk [Ht Hlast]]]]|Ht].
  - exists (S k). split; [lia|].
    destruct (digit_turn_ok _ _ Hlast) as [C L].
    split; [|left; symmetry; exact L].
    rewrite C, (digit_turns_calls Ht), <- app_assoc, concat_repeat_snoc.
    reflexivity.
  - exists 2000. split; [lia|]. split; [|right; reflexivity].
    apply (digit_turns_calls Ht).
Qed.


(** X12 (DigitClassificationModel.train, one batch).  A batch goes through
    exactly when the gradients of the softmax loss of the scores of [run]
    with respect to [weight1; weight2; bias1; bias2] are computed and each
    of the four parameters is updated with the gradient at its own position,
    multiplied by -0.02; the calls on the dataset are as before. *)
Theorem train_digit_batch_rule (st st' : State) (x y : Node) :
  (train_batch (x, y) st = (st', Ok tt) <->
   exists loss gs g0 g1 g2 g3 w1 w2 b1 b2,
     get_loss (self st) x y = Ok loss /\
     gradients loss [weight1_node (self st); weight2_node (self st);
                     bias1_node (self st); bias2_node (self st)] = Ok gs /\
     getitem gs 0 = Ok g0 /\ getitem gs 1 = Ok g1 /\
     getitem gs 2 = Ok g2 /\ getitem gs 3 = Ok g3 /\
     nn.update (weight1 (self st)) g0 (s_lit (-0.02)%Q) = Ok w1 /\
     nn.update (weight2 (self st)) g1 (s_lit (-0.02)%Q) = Ok w2 /\
     nn.update (bias1 (self st)) g2 (s_lit (-0.02)%Q) = Ok b1 /\
     nn.update (bias2 (self st)) g3 (s_lit (-0.02)%Q) = Ok b2 /\
     st' = mkState (mkModel w1 b1 w2 b2) (calls st)) /\
  (forall loss,
     get_loss (self st) x y = Ok loss ->
     exists logits, run (self st) x = Ok logits /\
       SoftmaxLoss logits y = Ok loss /\
       nn.graph loss = nn.GSoftmaxLoss (nn.graph logits) (nn.graph y)).
Proof.
  split; [apply digit_batch_iff | intros loss; apply digit_get_loss_inv].
Qed.

End DigitOutcomes.

Section LanguageOutcomes.

Context {T : Type} `{Backend T}.

Import LanguageIDModel.

Abbreviation Node := (nn.Node T).
Abbreviation State := (TrainState (Model (T := T))).

Lemma language_turn_ok (dataset : Dataset T (list Node) Model) (st st' : State)
  (leave : bool) :
  train_turn dataset st = (st', Ok leave) ->
  calls st' = calls st ++ [IterateOnce 2; GetValidationAccuracy] /\
  leave = s_geb (get_validation_accuracy dataset (self st')) (s_lit 0.82%Q).
Proof.
  intros E. apply language_turn_iff in E. destruct E as [st_e [E [-> ->]]].
  pose proof (keeps_calls_for_each (fun _ xy => train_batch xy)
                (fun _ xy => language_batch_keeps_calls xy)
                (iterate_once dataset 2) tt
                (mkState (self st) (calls st ++ [IterateOnce 2]))) as C.
  rewrite E in C. cbn [fst calls] in C. cbn [self calls].
  rewrite C, <- app_assoc. split; reflexivity.
Qed.

(** X13 (LanguageIDModel.train, what a return or a failure leaves).  When
    [train] returns, the model it leaves has a validation accuracy [>= 0.82];
    it has run at least one epoch, each epoch followed by one check of the
    accuracy and by no other call.  When [train] raises, every epoch but the
    last was followed by its check, and the last, which raised, was not. *)
Theorem train_language_outcome (dataset : Dataset T (list Node) Model)
  (fuel : nat) (st st' : State) :
  (train fuel dataset st = Some (st', Ok tt) ->
   s_geb (get_validation_accuracy dataset (self st')) (s_lit 0.82%Q) = true /\
   exists k, 1 <= k <= fuel /\
     calls st' =
       calls st ++ concat (repeat [IterateOnce 2; GetValidationAccuracy] k)) /\
  (forall e,
     train fuel dataset st = Some (st', Raise e) ->
     exists k, k < fuel /\
       calls st' =
         calls st ++ concat (repeat [IterateOnce 2; GetValidationAccuracy] k)
           ++ [IterateOnce 2]).
Proof.
  assert (Hturns : forall k s s',
             turns (train_turn dataset) k s s' ->
             calls s' =
               calls s ++ concat (repeat [IterateOnce 2; GetValidationAccuracy] k)).
  { apply (@turns_calls _ (train_turn dataset)
             [IterateOnce 2; GetValidationAccuracy]).
    intros st0 st1 E. apply (language_turn_ok _ _ E). }
  split.
  - intros E. unfold train in E. apply while_true_returns_iff in E.
    destruct E as [k [st_k [Hk [Ht Hlast]]]].
    destruct (language_turn_ok _ _ Hlast) as [C L].
    split; [symmetry; exact L|].
    exists (S k). split; [lia|].
    rewrite C, (Hturns _ _ _ Ht), <- app_assoc, concat_repeat_snoc.
    reflexivity.
  - intros e E. unfold train in E. apply while_true_raises_iff in E.
    destruct E as [k [st_k [Hk [Ht Hlast]]]].
    exists k. split; [exact Hk|].
    rewrite app_assoc, <- (Hturns _ _ _ Ht).
    pose proof (epoch_updates_calls dataset 2 train_batch
                  language_batch_keeps_calls st_k) as C.
    unfold train_turn, train_epoch, batch_size, bind, call_iterate_once,
      call_get_validation_accuracy, record_call, ret in *.
    destruct (for_each _ _ _ _) as [st_e [[]|e1]]; cbn [fst calls] in *.
    + discriminate.
    + inversion Hlast; subst. exact C.
Qed.

End LanguageOutcomes.

(* ------------------------------------------------------------------ *)
(** * The forward passes: the rows of a batch do not interact *)

Section StackedBatches.

Context {T : Type} `{Scalar T}.

Abbreviation Tensor := (nn.Tensor T).
Abbreviation Node := (nn.Node T).

Lemma Linear_data (x wt n : Node) :
  nn.Linear x wt = Ok n ->
  nn.cols (nn.data x) = nn.rows (nn.data wt) /\
  nn.data n =
    nn.mkTensor (nn.rows (nn.data x)) (nn.cols (nn.data wt))
      (map (fun r => map (fun j => nn.dot r (nn.column j (nn.data wt)))
                       (seq 0 (nn.cols (nn.data wt))))
         (nn.cells (nn.data x))).
Proof.
  unfold nn.Linear.
  destruct (nn.cols (nn.data x) =? nn.rows (nn.data wt)) eqn:E;
    cbn [assert rbind]; [|discriminate].
  intros E'; inversion E'; subst. split; [apply Nat.eqb_eq, E | reflexivity].
Qed.

Lemma AddBias_data (x b n : Node) :
  nn.AddBias x b = Ok n ->
  nn.rows (nn.data b) = 1 /\ nn.cols (nn.data x) = nn.cols (nn.data b) /\
  nn.data n =
    nn.mkTensor (nn.rows (nn.data x)) (nn.cols (nn.data x))
      (map (fun r => nn.zip_with s_add r (nn.first_row (nn.data b)))
         (nn.cells (nn.data x))).
Proof.
  unfold nn.AddBias.
  destruct (nn.rows (nn.data b) =? 1) eqn:E1; cbn [assert rbind];
    [|discriminate].
  destruct (nn.cols (nn.data x) =? nn.cols (nn.data b)) eqn:E2;
    cbn [assert rbind]; [|discriminate].
  intros E'; inversion E'; subst.
  split; [apply Nat.eqb_eq, E1|]. split; [apply Nat.eqb_eq, E2 | reflexivity].
Qed.

Lemma Linear_vstack (x x1 x2 wt n1 n2 : Node) :
  nn.data x = vstack (nn.data x1) (nn.data x2) ->
  nn.Linear x1 wt = Ok n1 -> nn.Linear x2 wt = Ok n2 ->
  exists n, nn.Linear x wt = Ok n /\
    nn.data n = vstack (nn.data n1) (nn.data n2).
Proof.
  intros Ex H1 H2.
  destruct (@Linear_data x1 wt n1 H1) as [E1 D1].
  destruct (@Linear_data x2 wt n2 H2) as [E2 D2].
  unfold nn.Linear. rewrite Ex. cbn [vstack nn.cols nn.rows nn.cells].
  rewrite E1, Nat.eqb_refl. cbn [assert rbind].
  eexists; split; [reflexivity|]. cbn [nn.data].
  rewrite D1, D2. unfold vstack. cbn [nn.cols nn.rows nn.cells].
  rewrite map_app. reflexivity.
Qed.

Lemma AddBias_vstack (x x1 x2 b n1 n2 : Node) :
  nn.data x = vstack (nn.data x1) (nn.data x2) ->
  nn.AddBias x1 b = Ok n1 -> nn.AddBias x2 b = Ok n2 ->
  exists n, nn.AddBias x b = Ok n /\
    nn.data n = vstack (nn.data n1) (nn.data n2).
Proof.
  intros Ex H1 H2.
  destruct (@AddBias_data x1 b n1 H1) as [R1 [E1 D1]].
  destruct (@AddBias_data x2 b n2 H2) as [R2 [E2 D2]].
  unfold nn.AddBias. rewrite Ex. cbn [vstack nn.cols nn.rows nn.cells].
  rewrite R1, E1, !Nat.eqb_refl. cbn [assert rbind].
  eexists; split; [reflexivity|]. cbn [nn.data].
  rewrite D1, D2. unfold vstack. cbn [nn.cols nn.rows nn.cells].
  rewrite map_app, E1. reflexivity.
Qed.

Lemma ReLU_vstack (x x1 x2 n1 n2 : Node) :
  nn.data x = vstack (nn.data x1) (nn.data x2) ->
  nn.ReLU x1 = Ok n1 -> nn.ReLU x2 = Ok n2 ->
  exists n, nn.ReLU x = Ok n /\
    nn.data n = vstack (nn.data n1) (nn.data n2).
Proof.
  intros Ex H1 H2. unfold nn.ReLU in *.
  inversion H1; subst. inversion H2; subst.
  eexists; split; [reflexivity|]. cbn [nn.data].
  rewrite Ex. unfold vstack. cbn [nn.cols nn.rows nn.cells].
  rewrite map_app. reflexivity.
Qed.

(** The two-layer network on two batches, one on top of the other. *)
Lemma two_layers_vstack (w1 b1 w2 b2 x x1 x2 n1 n2 : Node) :
  nn.data x = vstack (nn.data x1) (nn.data x2) ->
  (l1 <- nn.Linear x1 w1 ;; a1 <- nn.AddBias l1 b1 ;; r1 <- nn.ReLU a1 ;;
   l2 <- nn.Linear r1 w2 ;; nn.AddBias l2 b2)%result = Ok n1 ->
  (l1 <- nn.Linear x2 w1 ;; a1 <- nn.AddBias l1 b1 ;; r1 <- nn.ReLU a1 ;;
   l2 <- nn.Linear r1 w2 ;; nn.AddBias l2 b2)%result = Ok n2 ->
  exists n,
    (l1 <- nn.Linear x w1 ;; a1 <- nn.AddBias l1 b1 ;; r1 <- nn.ReLU a1 ;;
     l2 <- nn.Linear r1 w2 ;; nn.AddBias l2 b2)%result = Ok n /\
    nn.data n = vstack (nn.data n1) (nn.data n2).
Proof.
  intros Ex H1 H2.
  destruct (nn.Linear x1 w1) as [l1|] eqn:L1; cbn [rbind] in H1; [|discriminate].
  destruct (nn.AddBias l1 b1) as [a1|] eqn:A1; cbn [rbind] in H1; [|discriminate].
  destruct (nn.ReLU a1) as [r1|] eqn:R1; cbn [rbind] in H1; [|discriminate].
  destruct (nn.Linear r1 w2) as [m1|] eqn:M1; cbn [rbind] in H1; [|discriminate].
  destruct (nn.Linear x2 w1) as [l2|] eqn:L2; cbn [rbind] in H2; [|discriminate].
  destruct (nn.AddBias l2 b1) as [a2|] eqn:A2; cbn [rbind] in H2; [|discriminate].
  destruct (nn.ReLU a2) as [r2|] eqn:R2; cbn [rbind] in H2; [|discriminate].
  destruct (nn.Linear r2 w2) as [m2|] eqn:M2; cbn [rbind] in H2; [|discriminate].
  destruct (@Linear_vstack x x1 x2 w1 l1 l2 Ex L1 L2) as [l [Hl Dl]].
  destruct (@AddBias_vstack l l1 l2 b1 a1 a2 Dl A1 A2) as [a [Ha Da]].
  destruct (@ReLU_vstack a a1 a2 r1 r2 Da R1 R2) as [r [Hr Dr]].
  destruct (@Linear_vstack r r1 r2 w2 m1 m2 Dr M1 M2) as [m [Hm Dm]].
  destruct (@AddBias_vstack m m1 m2 b2 n1 n2 Dm H1 H2) as [n [Hn Dn]].
  exists n. rewrite Hl. cbn [rbind]. rewrite Ha. cbn [rbind].
  rewrite Hr. cbn [rbind]. rewrite Hm. cbn [rbind]. split; assumption.
Qed.

(** X14 (RegressionModel.run and DigitClassificationModel.run, batches).  The
    rows of a batch do not interact: when [run] returns on each of two
    batches, it returns on the two stacked, and its value is the two values
    stacked.  No assumption is made on the parameters. *)
Theorem run_on_stacked_batches :
  (forall (m : RegressionModel.Model) (x x1 x2 n1 n2 : Node),
     nn.data x = vstack (nn.data x1) (nn.data x2) ->
     RegressionModel.run m x1 = Ok n1 -> RegressionModel.run m x2 = Ok n2 ->
     exists n, RegressionModel.run m x = Ok n /\
       nn.data n = vstack (nn.data n1) (nn.data n2)) /\
  (forall (m : DigitClassificationModel.Model) (x x1 x2 n1 n2 : Node),
     nn.data x = vstack (nn.data x1) (nn.data x2) ->
     DigitClassificationModel.run m x1 = Ok n1 ->
     DigitClassificationModel.run m x2 = Ok n2 ->
     exists n, DigitClassificationModel.run m x = Ok n /\
       nn.data n = vstack (nn.data n1) (nn.data n2)).
Proof.
  split; intros m x x1 x2 n1 n2.
  - apply two_layers_vstack.
  - apply two_layers_vstack.
Qed.

End StackedBatches.

(* ------------------------------------------------------------------ *)
(** * LanguageIDModel.run: one more character, and batches that do not fit *)

Section LanguageRunMore.

Context {T : Type} `{Scalar T}.

Import LanguageIDModel.

Abbreviation Node := (nn.Node T).

Lemma Linear_ok (x wt : Node) :
  nn.cols (nn.data x) = nn.rows (nn.data wt) ->
  exists n, nn.Linear x wt = Ok n /\
    nn.shape (nn.data n) = (nn.rows (nn.data x), nn.cols (nn.data wt)).
Proof.
  intros E. unfold nn.Linear. rewrite E, Nat.eqb_refl. cbn [assert rbind].
  eexists; split; reflexivity.
Qed.

Lemma Add_mismatch (x y : Node) :
  nn.shape (nn.data x) <> nn.shape (nn.data y) ->
  nn.Add x y = Raise AssertionError.
Proof.
  intros E. unfold nn.Add.
  destruct (nn.same_shape (nn.data x) (nn.data y)) eqn:E'; [|reflexivity].
  apply same_shape_spec in E'. contradiction.
Qed.

Lemma run_final_hidden_state (m : Model) (xs : list Node) :
  run m xs =
    (h <- final_hidden_state m xs ;; nn.Linear h (weight_f_node m))%result.
Proof.
  unfold run, final_hidden_state.
  destruct (getitem xs 0) as [x0|e]; cbn [rbind]; [|reflexivity].
  destruct (nn.Linear x0 (weight_node m)) as [first|e]; cbn [rbind];
    reflexivity.
Qed.

Lemma final_hidden_state_snoc (m : Model) (xs : list Node) (x : Node) :
  xs <> [] ->
  final_hidden_state m (xs ++ [x]) =
    (h <- final_hidden_state m xs ;; run_step m h x)%result.
Proof.
  intros Hne. destruct xs as [|x0 rest]; [congruence|].
  unfold final_hidden_state. cbn [app getitem nth_error rbind skipn].
  destruct (nn.Linear x0 (weight_node m)) as [first|e]; cbn [rbind];
    [|reflexivity].
  rewrite rfold_app. destruct (rfold (run_step m) rest first) as [h|e];
    cbn [rbind]; [|reflexivity].
  cbn [rfold]. apply rbind_Ok_r.
Qed.

(** X15 (LanguageIDModel.run, one more character).  [run] is the linear
    projection of the hidden state its loop ends with, and reading one more
    character takes that hidden state one step further: the word need not be
    read again from its first character. *)
Theorem run_one_more_character (m : Model) (xs : list Node) (x : Node) :
  xs <> [] ->
  run m xs =
    (h <- final_hidden_state m xs ;; nn.Linear h (weight_f_node m))%result /\
  final_hidden_state m (xs ++ [x]) =
    (h <- final_hidden_state m xs ;; run_step m h x)%result /\
  run m (xs ++ [x]) =
    (h <- final_hidden_state m xs ;;
     h' <- run_step m h x ;;
     nn.Linear h' (weight_f_node m))%result.
Proof.
  intros Hne. split; [apply run_final_hidden_state|].
  split; [apply final_hidden_state_snoc; exact Hne|].
  rewrite run_final_hidden_state, final_hidden_state_snoc by exact Hne.
  apply rbind_assoc.
Qed.

(** X16 (LanguageIDModel.run, characters that do not fit).  With the
    parameters of [__init__]: [run] raises an assertion error when the first
    node has not 47 columns; and, after nodes of shape (batch x 47), when a
    node has another shape, be it another batch size or another number of
    columns.  The nodes after it are not looked at. *)
Theorem run_rejects_other_shapes (m : Model) :
  initialised m ->
  (forall x after,
     nn.cols (nn.data x) <> 47 ->
     run m (x :: after) = Raise AssertionError) /\
  (forall batch before x after,
     before <> [] ->
     Forall (fun x => nn.shape (nn.data x) = (batch, 47) /\
                      nn.well_formed (nn.data x)) before ->
     nn.shape (nn.data x) <> (batch, 47) ->
     run m (before ++ x :: after) = Raise AssertionError).
Proof.
  intros Hinit. pose proof Hinit as [[Ew _] [[Eh _] [Ef _]]].
  destruct (shape_inv Ew) as [Ewr Ewc]. destruct (shape_inv Eh) as [Ehr Ehc].
  unfold num_chars, hidden in *.
  split.
  - intros x after Ex. unfold run. cbn [getitem nth_error rbind].
    rewrite Linear_mismatch; [reflexivity|].
    cbn [weight_node nn.parameter_node nn.data]. congruence.
  - intros batch before x after Hne Hall Ex.
    destruct before as [|x0 rest]; [congruence|].
    destruct (Forall_inv Hall) as [Ex0 Wx0].
    pose proof (Forall_inv_tail Hall) as Hrest.
    destruct (shape_inv Ex0) as [Ex0r Ex0c].
    destruct (@Linear_shape T _ x0 (weight_node m)) as [a [Ha [_ [Sa Wa]]]];
      [simpl; congruence | exact Wx0 |].
    simpl in Sa.
    pose proof (@run_loop_shape T _ m batch Ew Eh) as Hloop.
    destruct (Hloop rest a) as [h [Hh [Sh Wh]]];
      [exact Hrest | unfold hidden; congruence | exact Wa |].
    destruct (shape_inv Sh) as [Shr Shc]. unfold hidden in *.
    unfold run. cbn [app getitem nth_error rbind skipn].
    rewrite Ha. cbn [rbind]. rewrite rfold_app, Hh. cbn [rbind rfold].
    assert (Hstep : run_step m h x = Raise AssertionError).
    { unfold run_step.
      destruct (Nat.eq_dec (nn.cols (nn.data x)) 47) as [Ec|Ec].
      - destruct (@Linear_ok x (weight_node m)) as [c [Hc Sc]];
          [simpl; congruence|].
        destruct (@Linear_ok h (weight_h_node m)) as [d [Hd Sd]];
          [simpl; congruence|].
        simpl in Sc, Sd.
        rewrite Hc. cbn [rbind]. rewrite Hd. cbn [rbind].
        rewrite Add_mismatch; [reflexivity|].
        rewrite Sc, Sd. intros E. apply Ex. unfold nn.shape.
        inversion E. congruence.
      - rewrite Linear_mismatch; [reflexivity|]. simpl. congruence. }
    rewrite Hstep. reflexivity.
Qed.

End LanguageRunMore.

(* ------------------------------------------------------------------ *)
(** * The losses and the labels; datasets without a batch *)

Section LossFacts.

Context {T : Type} `{Backend T}.

Abbreviation Node := (nn.Node T).

Lemma loss_node_inv (forward : nn.Tensor T -> nn.Tensor T -> result (nn.Tensor T))
  (mk : nn.Graph T -> nn.Graph T -> nn.Graph T) (a b loss : Node) :
  nn.loss_node forward mk a b = Ok loss ->
  nn.shape (nn.data a) = nn.shape (nn.data b).
Proof.
  unfold nn.loss_node.
  destruct (nn.same_shape (nn.data a) (nn.data b)) eqn:E; cbn [assert rbind];
    [|discriminate].
  intros _. apply same_shape_spec, E.
Qed.

Lemma loss_node_mismatch
  (forward : nn.Tensor T -> nn.Tensor T -> result (nn.Tensor T))
  (mk : nn.Graph T -> nn.Graph T -> nn.Graph T) (a b : Node) :
  nn.shape (nn.data a) <> nn.shape (nn.data b) ->
  nn.loss_node forward mk a b = Raise AssertionError.
Proof.
  intros E. unfold nn.loss_node.
  destruct (nn.same_shape (nn.data a) (nn.data b)) eqn:E'; [|reflexivity].
  apply same_shape_spec in E'. contradiction.
Qed.

(** The two-layer network followed by a loss. *)
Lemma two_layers_loss (loss_of : Node -> Node -> result Node)
  (x y w1 b1 w2 b2 : Node) (n_in n_hidden n_out : nat) :
  (forall a b loss, loss_of a b = Ok loss ->
     nn.shape (nn.data a) = nn.shape (nn.data b)) ->
  (forall a b, nn.shape (nn.data a) <> nn.shape (nn.data b) ->
     loss_of a b = Raise AssertionError) ->
  nn.shape (nn.data w1) = (n_in, n_hidden) ->
  nn.shape (nn.data b1) = (1, n_hidden) -> nn.well_formed (nn.data b1) ->
  nn.shape (nn.data w2) = (n_hidden, n_out) ->
  nn.shape (nn.data b2) = (1, n_out) -> nn.well_formed (nn.data b2) ->
  nn.well_formed (nn.data x) ->
  let forward :=
    (l1 <- nn.Linear x w1 ;; a1 <- nn.AddBias l1 b1 ;; r1 <- nn.ReLU a1 ;;
     l2 <- nn.Linear r1 w2 ;; nn.AddBias l2 b2)%result in
  (forall loss,
     (prediction <- forward ;; loss_of prediction y)%result = Ok loss ->
     nn.cols (nn.data x) = n_in /\
     nn.shape (nn.data y) = (nn.rows (nn.data x), n_out)) /\
  (nn.cols (nn.data x) <> n_in \/
   nn.shape (nn.data y) <> (nn.rows (nn.data x), n_out) ->
   (prediction <- forward ;; loss_of prediction y)%result = Raise AssertionError).
Proof.
  intros Hinv Hmis Ew1 Eb1 Wb1 Ew2 Eb2 Wb2 Wx forward.
  destruct (@two_layers_shape T _ x w1 b1 w2 b2 n_in n_hidden n_out
              Ew1 Eb1 Wb1 Ew2 Eb2 Wb2 Wx) as [Hyes Hno].
  fold forward in Hyes, Hno.
  destruct (Nat.eq_dec (nn.cols (nn.data x)) n_in) as [Ec|Ec].
  - destruct (Hyes Ec) as [n [Hn [Sn _]]]. rewrite Hn. cbn [rbind]. split.
    + intros loss E. split; [exact Ec|].
      rewrite <- (Hinv _ _ _ E). exact Sn.
    + intros [C|C]; [contradiction|].
      apply Hmis. rewrite Sn. congruence.
  - rewrite (Hno Ec). cbn [rbind]. split; [discriminate | reflexivity].
Qed.

(** X17 (RegressionModel.get_loss, DigitClassificationModel.get_loss, the
    labels).  With the parameters of [__init__], [get_loss] returns a loss
    only for a batch of one column, resp. 784 columns, and labels of as
    many rows as the batch and one column, resp. 10 columns; on any other
    batch or labels it raises an assertion error. *)
Theorem get_loss_wants_matching_labels :
  (forall (m : RegressionModel.Model) (x y : Node),
     RegressionModel.initialised m -> nn.well_formed (nn.data x) ->
     (forall loss, RegressionModel.get_loss m x y = Ok loss ->
        nn.cols (nn.data x) = 1 /\
        nn.shape (nn.data y) = (nn.rows (nn.data x), 1)) /\
     (nn.cols (nn.data x) <> 1 \/
      nn.shape (nn.data y) <> (nn.rows (nn.data x), 1) ->
      RegressionModel.get_loss m x y = Raise AssertionError)) /\
  (forall (m : DigitClassificationModel.Model) (x y : Node),
     DigitClassificationModel.initialised m -> nn.well_formed (nn.data x) ->
     (forall loss, DigitClassificationModel.get_loss m x y = Ok loss ->
        nn.cols (nn.data x) = 784 /\
        nn.shape (nn.data y) = (nn.rows (nn.data x), 10)) /\
     (nn.cols (nn.data x) <> 784 \/
      nn.shape (nn.data y) <> (nn.rows (nn.data x), 10) ->
      DigitClassificationModel.get_loss m x y = Raise AssertionError)).
Proof.
  split; intros m x y [[Ew1 _] [[Eb1 Wb1] [[Ew2 _] [Eb2 Wb2]]]] Wx.
  - apply (@two_layers_loss SquareLoss x y
             (RegressionModel.weight1_node m) (RegressionModel.bias1_node m)
             (RegressionModel.weight2_node m) (RegressionModel.bias2_node m)
             1 100 1); try assumption.
    + intros a b loss. apply loss_node_inv.
    + intros a b. apply loss_node_mismatch.
  - apply (@two_layers_loss SoftmaxLoss x y
             (DigitClassificationModel.weight1_node m)
             (DigitClassificationModel.bias1_node m)
             (DigitClassificationModel.weight2_node m)
             (DigitClassificationModel.bias2_node m)
             784 100 10); try assumption.
    + intros a b loss. apply loss_node_inv.
    + intros a b. apply loss_node_mismatch.
Qed.

End LossFacts.

Section EmptyDataset.

Context {T : Type} `{Backend T}.

Abbreviation Node := (nn.Node T).

Lemma for_range_constant_turn (St : Type) (body : M St bool)
  (next : St -> St) :
  (forall s, body s = (next s, Ok false)) ->
  forall n s, for_range n body s = (Nat.iter n next s, Ok tt).
Proof.
  intros Hbody. induction n as [|n IH]; intros s; [reflexivity|].
  simpl. unfold bind. rewrite Hbody, IH. f_equal.
  clear. induction n as [|n IH]; simpl; [reflexivity | rewrite IH; reflexivity].
Qed.

Lemma iter_record_calls (Model : Type) (c : list call) (n : nat)
  (st : TrainState Model) :
  Nat.iter n (fun s => mkState (self s) (calls s ++ c)) st =
    mkState (self st) (calls st ++ concat (repeat c n)).
Proof.
  induction n as [|n IH]; simpl.
  - rewrite app_nil_r. destruct st; reflexivity.
  - rewrite IH. cbn [self calls]. f_equal.
    rewrite <- app_assoc. f_equal. apply concat_repeat_snoc.
Qed.

(** X18 (the four [train] loops on a dataset without a batch).  When the
    dataset yields no batch no parameter changes.  The perceptron returns
    after one pass.  The regression model returns after 1000 empty epochs.
    The digit model returns after one epoch and one check if the model it
    was given has a validation accuracy [>= 0.97], and after 2000 epochs and
    2000 checks if not.  The language model returns after one epoch and one
    check if the model it was given has a validation accuracy [>= 0.82],
    and never returns if not. *)
Theorem train_without_batches :
  (forall (dataset : Dataset T Node PerceptronModel.Model) fuel st,
     iterate_once dataset 1 = [] ->
     PerceptronModel.train (S fuel) dataset st =
       Some (mkState (self st) (calls st ++ [IterateOnce 1]), Ok tt)) /\
  (forall (dataset : Dataset T Node RegressionModel.Model) st,
     iterate_once dataset 10 = [] ->
     RegressionModel.train dataset st =
       (mkState (self st) (calls st ++ repeat (IterateOnce 10) 1000), Ok tt)) /\
  (forall (dataset : Dataset T Node DigitClassificationModel.Model) st,
     iterate_once dataset 10 = [] ->
     DigitClassificationModel.train dataset st =
       if s_geb (get_validation_accuracy dataset (self st)) (s_lit 0.97%Q)
       then (mkState (self st)
               (calls st ++ [IterateOnce 10; GetValidationAccuracy]), Ok tt)
       else (mkState (self st)
               (calls st ++
                concat (repeat [IterateOnce 10; GetValidationAccuracy] 2000)),
             Ok tt)) /\
  (forall (dataset : Dataset T (list Node) LanguageIDModel.Model) fuel st,
     iterate_once dataset 2 = [] ->
     LanguageIDModel.train (S fuel) dataset st =
       if s_geb (get_validation_accuracy dataset (self st)) (s_lit 0.82%Q)
       then Some (mkState (self st)
                    (calls st ++ [IterateOnce 2; GetValidationAccuracy]), Ok tt)
       else None).
Proof.
  split; [|split; [|split]].
  - intros dataset fuel st E.
    unfold PerceptronModel.train. cbn [while_true].
    rewrite train_pass_unfold, E. reflexivity.
  - intros dataset st E. unfold RegressionModel.train.
    rewrite (@for_range_constant_turn _ _
               (fun s => mkState (self s) (calls s ++ [IterateOnce 10]))).
    + rewrite iter_record_calls, repeat_singletons. reflexivity.
    + intros s. unfold bind, RegressionModel.train_epoch, bind,
        call_iterate_once, record_call, ret. rewrite E. reflexivity.
  - intros dataset st E.
    assert (Hturn : forall s,
               DigitClassificationModel.train_turn dataset s =
                 (mkState (self s)
                    (calls s ++ [IterateOnce 10; GetValidationAccuracy]),
                  Ok (s_geb (get_validation_accuracy dataset (self s))
                        (s_lit 0.97%Q)))).
    { intros s. unfold DigitClassificationModel.train_turn,
        DigitClassificationModel.train_epoch, bind, call_iterate_once,
        call_get_validation_accuracy, record_call, ret,
        DigitClassificationModel.batch_size.
      rewrite E. cbn [for_each ret self calls]. unfold ret.
      rewrite <- app_assoc. reflexivity. }
    unfold DigitClassificationModel.train.
    destruct (s_geb (get_validation_accuracy dataset (self st)) (s_lit 0.97%Q))
      eqn:G.
    + cbn [for_range]. unfold bind. rewrite Hturn, G. reflexivity.
    + assert (Hall : forall n s, self s = self st ->
                 for_range n (DigitClassificationModel.train_turn dataset) s =
                   (mkState (self s)
                      (calls s ++
                       concat (repeat [IterateOnce 10; GetValidationAccuracy] n)),
                    Ok tt)).
      { induction n as [|n IH]; intros s Es.
        - simpl. rewrite app_nil_r. destruct s; reflexivity.
        - cbn [for_range]. unfold bind. rewrite Hturn, Es, G.
          rewrite IH by reflexivity. cbn [self calls].
          rewrite <- app_assoc. reflexivity. }
      rewrite Hall by reflexivity. reflexivity.
  - intros dataset fuel st E.
    assert (Hturn : forall s,
               LanguageIDModel.train_turn dataset s =
                 (mkState (self s)
                    (calls s ++ [IterateOnce 2; GetValidationAccuracy]),
                  Ok (s_geb (get_validation_accuracy dataset (self s))
                        (s_lit 0.82%Q)))).
    { intros s. unfold LanguageIDModel.train_turn,
        LanguageIDModel.train_epoch, bind, call_iterate_once,
        call_get_validation_accuracy, record_call, ret,
        LanguageIDModel.batch_size.
      rewrite E. cbn [for_each ret self calls]. unfold ret.
      rewrite <- app_assoc. reflexivity. }
    unfold LanguageIDModel.train.
    destruct (s_geb (get_validation_accuracy dataset (self st)) (s_lit 0.82%Q))
      eqn:G.
    + cbn [while_true]. rewrite Hturn, G. reflexivity.
    + assert (Hall : forall n s, self s = self st ->
                 while_true n (LanguageIDModel.train_turn dataset) s = None).
      { induction n as [|n IH]; intros s Es; [reflexivity|].
        cbn [while_true]. rewrite Hturn, Es, G. apply IH. reflexivity. }
      apply Hall. reflexivity.
Qed.

End EmptyDataset.

(* ------------------------------------------------------------------ *)
(** * PerceptronModel over the rationals: what an update does to the score *)

Section PerceptronScore.

Import PerceptronModel.

Lemma fold_add_qsum (l : list Q) :
  forall acc : Q, (fold_left s_add l acc == acc + qsum l)%Q.
Proof.
  induction l as [|a l IH]; intros acc; unfold qsum;
    cbn [fold_left fold_right].
  - ring.
  - fold (qsum l). rewrite IH. change (s_add acc a) with (Qred (acc + a)).
    rewrite Qred_correct. ring.
Qed.

Lemma qsum_products (u v : list Q) :
  (qsum (nn.zip_with s_mul u v) == qsum (nn.zip_with Qmult u v))%Q.
Proof.
  revert v; induction u as [|a u IH]; intros [|b v];
    cbn [nn.zip_with]; try reflexivity.
  unfold qsum; cbn [fold_right].
  fold (qsum (nn.zip_with s_mul u v)). fold (qsum (nn.zip_with Qmult u v)).
  rewrite IH. change (s_mul a b) with (Qred (a * b)).
  rewrite Qred_correct. reflexivity.
Qed.

Lemma dot_qsum (u v : list Q) :
  (nn.dot u v == qsum (nn.zip_with Qmult u v))%Q.
Proof.
  unfold nn.dot. rewrite fold_add_qsum, qsum_products.
  cbv [s_zero Scalar_Q]. ring.
Qed.

Lemma qsum_updated (s : Q) (u v : list Q) :
  length u = length v ->
  (qsum (nn.zip_with Qmult
           (nn.zip_with (fun a g => s_add a (s_mul s g)) u v) v) ==
   qsum (nn.zip_with Qmult u v) + s * qsum (nn.zip_with Qmult v v))%Q.
Proof.
  revert v; induction u as [|a u IH]; intros [|b v] E; cbn [length] in E;
    try discriminate; cbn [nn.zip_with]; unfold qsum; cbn [fold_right].
  - ring.
  - fold (qsum (nn.zip_with Qmult
                  (nn.zip_with (fun a g => s_add a (s_mul s g)) u v) v)).
    fold (qsum (nn.zip_with Qmult u v)). fold (qsum (nn.zip_with Qmult v v)).
    rewrite IH by lia.
    change (s_add a (s_mul s b)) with (Qred (a + Qred (s * b))).
    rewrite !Qred_correct. ring.
Qed.

Lemma qsum_squares (v : list Q) : (0 <= qsum (nn.zip_with Qmult v v))%Q.
Proof.
  induction v as [|b v IH]; cbn [nn.zip_with]; unfold qsum; cbn [fold_right];
    [apply Qle_refl|].
  fold (qsum (nn.zip_with Qmult v v)).
  rewrite <- (Qplus_0_l 0). apply Qplus_le_compat; [|exact IH].
  destruct (Qlt_le_dec b 0) as [L|L].
  - setoid_replace (b * b)%Q with ((- b) * (- b))%Q by ring.
    apply Qmult_le_0_compat; apply (Qopp_le_compat b 0), Qlt_le_weak, L.
  - apply Qmult_le_0_compat; exact L.
Qed.

(** X19 (PerceptronModel.train, the update and the score).  Over the
    rationals, the update [w.update(x, y)] made on a sample moves the score of
    that sample by [y] times the dot product of [x] with itself, which is not
    negative: the score does not go down for the label 1 and does not go up
    for the label -1. *)
Theorem update_moves_score (m : Model (T := Q)) (x : nn.Node Q) (label : Q)
  (dimensions : nat) (w' : nn.Tensor Q) :
  initialised dimensions m ->
  nn.shape (nn.data x) = (1, dimensions) -> nn.well_formed (nn.data x) ->
  nn.update (w m) x label = Ok w' ->
  exists before after,
    score m x = Ok before /\ score (mkModel w') x = Ok after /\
    (after ==
     before + label * nn.dot (nn.first_row (nn.data x)) (nn.first_row (nn.data x)))%Q /\
    (label == 1 -> before <= after)%Q /\
    (label == -1 -> after <= before)%Q.
Proof.
  intros [Ew Ww] Ex Wx U.
  destruct (shape_inv Ew) as [Ewr Ewc]. destruct (shape_inv Ex) as [Exr Exc].
  destruct (@update_inv Q _ _ _ _ _ U) as [_ [Es Hw']].
  specialize (Hw' Ww Wx).
  assert (Ew' : nn.shape w' = (1, dimensions)) by congruence.
  destruct (shape_inv Ew') as [Ew'r Ew'c].
  destruct (@DotProduct_single Q _ (get_weights m) x) as [n [Hn Hv]];
    simpl; try congruence.
  destruct (@DotProduct_single Q _ (get_weights (mkModel w')) x)
    as [n' [Hn' Hv']]; simpl; try congruence.
  simpl in Hv, Hv'.
  exists (nn.dot (nn.first_row (w m)) (nn.first_row (nn.data x))),
         (nn.dot (nn.first_row w') (nn.first_row (nn.data x))).
  split; [unfold score, run; rewrite Hn; exact Hv|].
  split; [unfold score, run; rewrite Hn'; exact Hv'|].
  assert (Hfirst : nn.first_row w' =
            nn.zip_with (fun a g => s_add a (s_mul label g))
              (nn.first_row (w m)) (nn.first_row (nn.data x))).
  { rewrite (@update_ok Q _ (w m) x label) in U by congruence.
    inversion U; subst w'. unfold nn.first_row at 1. cbn [nn.cells].
    destruct (one_row Ewr Ww) as [-> _]. destruct (one_row Exr Wx) as [-> _].
    reflexivity. }
  assert (Hlen : length (nn.first_row (w m)) = length (nn.first_row (nn.data x))).
  { destruct (one_row Ewr Ww) as [_ ->]. destruct (one_row Exr Wx) as [_ ->].
    congruence. }
  assert (Hmove :
    (nn.dot (nn.first_row w') (nn.first_row (nn.data x)) ==
     nn.dot (nn.first_row (w m)) (nn.first_row (nn.data x)) +
     label * nn.dot (nn.first_row (nn.data x)) (nn.first_row (nn.data x)))%Q).
  { rewrite Hfirst, !dot_qsum. apply qsum_updated, Hlen. }
  pose proof (qsum_squares (nn.first_row (nn.data x))) as Hsq.
  rewrite <- dot_qsum in Hsq.
  split; [exact Hmove|]. split; intros El; rewrite Hmove, El.
  - rewrite <- (Qplus_0_r (nn.dot (nn.first_row (w m)) _)) at 1.
    apply Qplus_le_compat; [apply Qle_refl|]. rewrite Qmult_1_l. exact Hsq.
  - rewrite <- (Qplus_0_r (nn.dot (nn.first_row (w m)) _)) at 2.
    apply Qplus_le_compat; [apply Qle_refl|].
    setoid_replace (-1 * nn.dot (nn.first_row (nn.data x))
                            (nn.first_row (nn.data x)))%Q
      with (- nn.dot (nn.first_row (nn.data x)) (nn.first_row (nn.data x)))%Q
      by ring.
    apply (Qopp_le_compat 0), Hsq.
Qed.

End PerceptronScore.

(* ------------------------------------------------------------------ *)
(** * The further statements at the data of [Instances] *)

Section MoreRuns.

Import Instances.

Lemma full_well_formed (rows cols : nat) (v : Q) :
  nn.well_formed (full rows cols v).
Proof.
  split; simpl.
  - apply repeat_length.
  - apply Forall_forall. intros r Hr. apply repeat_spec in Hr. subst r.
    apply repeat_length.
Qed.

Example regression_fails_at_second_batch :
  RegressionModel.train second_batch_too_wide regression_start =
    (regression_one_batch, Raise AssertionError).
Proof. vm_compute. reflexivity. Qed.

Example regression_batch_with_two_gradients :
  @RegressionModel.train_batch Q _ two_gradients
    (constant [[1]; [2]]%Q, constant [[1]; [0]]%Q) regression_start =
    (regression_two_updates, Raise IndexError).
Proof. vm_compute. reflexivity. Qed.

(** X1 on a batch of three numbers. *)
Lemma regression_run_shape_witness :
  exists n, RegressionModel.run regression_full (constant [[1]; [2]; [3]]%Q) = Ok n /\
    nn.shape (nn.data n) = (3, 1) /\ nn.well_formed (nn.data n).
Proof.
  refine (proj1 (@regression_run_shape Q _ regression_full
                   (constant [[1]; [2]; [3]]%Q) _ _) _).
  - repeat split; apply full_well_formed.
  - apply well_formed_by_computation. reflexivity.
  - reflexivity.
Defined.

(** X2 on a batch of two images. *)
Lemma digit_run_shape_witness :
  exists n, DigitClassificationModel.run digit_full
              (nn.Constant (full 2 784 1%Q)) = Ok n /\
    nn.shape (nn.data n) = (2, 10) /\ nn.well_formed (nn.data n).
Proof.
  refine (proj1 (@digit_run_shape Q _ digit_full
                   (nn.Constant (full 2 784 1%Q)) _ _) _).
  - repeat split; apply full_well_formed.
  - apply full_well_formed.
  - reflexivity.
Defined.

(** X3 on a batch of two points: no prediction. *)
Lemma get_prediction_defined_witness :
  PerceptronModel.run perceptron1 (constant [[1; -2]; [0; 1]]%Q) =
    Raise AssertionError /\
  PerceptronModel.get_prediction perceptron1 (constant [[1; -2]; [0; 1]]%Q) =
    Raise AssertionError.
Proof.
  refine (proj1 (proj2 (@get_prediction_defined Q _ perceptron1
                          (constant [[1; -2]; [0; 1]]%Q) 2 _)) _).
  - split; [reflexivity | apply well_formed_by_computation; reflexivity].
  - discriminate.
Defined.

(** X4 at [points]. *)
Lemma train_returns_with_all_classified_witness :
  Forall (PerceptronModel.classified (self perceptron_end))
    (iterate_once points 1) /\
  exists k, 1 <= k <= 2 /\
    calls perceptron_end = calls perceptron_start ++ repeat (IterateOnce 1) k.
Proof.
  refine (@train_returns_with_all_classified Q _ points 2
            perceptron_start perceptron_end _).
  vm_compute. reflexivity.
Defined.

(** X5 at [points]: a second training after the first. *)
Lemma train_again_changes_nothing_witness :
  PerceptronModel.train 1 points perceptron_end =
    Some (mkState (self perceptron_end)
            (calls perceptron_end ++ [IterateOnce 1]), Ok tt).
Proof.
  refine (proj2 (@train_again_changes_nothing Q _ points)
            2 0 perceptron_start perceptron_end _).
  vm_compute. reflexivity.
Defined.

(** X6 at [points]. *)
Lemma train_keeps_initialised_witness :
  PerceptronModel.initialised 2 (self perceptron_end).
Proof.
  refine (@train_keeps_initialised Q _ points 2 2
            perceptron_start perceptron_end (Ok tt) _ _ _).
  - repeat constructor; apply well_formed_by_computation; reflexivity.
  - split; [reflexivity | apply well_formed_by_computation; reflexivity].
  - vm_compute. reflexivity.
Defined.

(** X7 at [words]. *)
Lemma train_keeps_parameter_shapes_witness :
  LanguageIDModel.parameter_shapes (self language_end) =
  LanguageIDModel.parameter_shapes (self language_start).
Proof.
  refine (proj2 (proj2 (@train_keeps_parameter_shapes Q _ _))
            words 2 language_start language_end (Ok tt) _).
  vm_compute. reflexivity.
Defined.

(** X8 at [second_batch_too_wide]: the first epoch raises at the second
    batch. *)
Lemma train_regression_stops_at_failure_witness :
  exists k st_k, k < 1000 /\
    turns (RegressionModel.train_epoch second_batch_too_wide ;; ret false)%train
      k regression_start st_k /\
    RegressionModel.train_epoch second_batch_too_wide st_k =
      (regression_one_batch, Raise AssertionError).
Proof.
  refine (proj1 (proj1 (@train_regression_stops_at_failure Q _ _
                          second_batch_too_wide)
                   regression_start regression_one_batch AssertionError) _).
  vm_compute. reflexivity.
Defined.

(** X9 with [two_gradients]: the third gradient is missing. *)
Lemma train_batch_failure_is_partial_witness :
  @RegressionModel.train_batch Q _ two_gradients
    (constant [[1]; [2]]%Q, constant [[1]; [0]]%Q) regression_start =
    (regression_two_updates, Raise IndexError).
Proof.
  refine (proj2 (@train_batch_failure_is_partial Q _ two_gradients
                   regression_start (constant [[1]; [2]]%Q)
                   (constant [[1]; [0]]%Q) IndexError)
            _ _ _ _ _ _ _ _ _ _ _ _ (or_introl _));
    vm_compute; reflexivity.
Defined.

(** X10 at [digits]. *)
Lemma train_digit_return_witness :
  exists k, 1 <= k <= 2000 /\
    calls digit_end =
      calls digit_start ++
      concat (repeat [IterateOnce 10; GetValidationAccuracy] k) /\
    (s_geb (get_validation_accuracy digits (self digit_end)) (s_lit 0.97%Q) = true \/
     k = 2000).
Proof.
  refine (@train_digit_return Q _ _ digits digit_start digit_end _).
  vm_compute. reflexivity.
Defined.


(** X12 at the batch of [easy_digits]. *)
Lemma train_digit_batch_rule_witness :
  exists loss gs g0 g1 g2 g3 w1 w2 b1 b2,
    DigitClassificationModel.get_loss (self digit_start)
      (constant [[1; 2]]%Q) (constant [[1; 0]]%Q) = Ok loss /\
    gradients loss
      [DigitClassificationModel.weight1_node (self digit_start);
       DigitClassificationModel.weight2_node (self digit_start);
       DigitClassificationModel.bias1_node (self digit_start);
       DigitClassificationModel.bias2_node (self digit_start)] = Ok gs /\
    getitem gs 0 = Ok g0 /\ getitem gs 1 = Ok g1 /\
    getitem gs 2 = Ok g2 /\ getitem gs 3 = Ok g3 /\
    nn.update (DigitClassificationModel.weight1 (self digit_start)) g0
      (s_lit (-0.02)%Q) = Ok w1 /\
    nn.update (DigitClassificationModel.weight2 (self digit_start)) g1
      (s_lit (-0.02)%Q) = Ok w2 /\
    nn.update (DigitClassificationModel.bias1 (self digit_start)) g2
      (s_lit (-0.02)%Q) = Ok b1 /\
    nn.update (DigitClassificationModel.bias2 (self digit_start)) g3
      (s_lit (-0.02)%Q) = Ok b2 /\
    mkState (self digit_easy_epoch) [] =
      mkState (DigitClassificationModel.mkModel w1 b1 w2 b2) (calls digit_start).
Proof.
  refine (proj1 (proj1 (@train_digit_batch_rule Q _ _ digit_start
                          (mkState (self digit_easy_epoch) [])
                          (constant [[1; 2]]%Q) (constant [[1; 0]]%Q))) _).
  vm_compute. reflexivity.
Defined.

(** X13 at [words]. *)
Lemma train_language_outcome_witness :
  s_geb (get_validation_accuracy words (self language_end)) (s_lit 0.82%Q) = true /\
  exists k, 1 <= k <= 2 /\
    calls language_end =
      calls language_start ++
      concat (repeat [IterateOnce 2; GetValidationAccuracy] k).
Proof.
  refine (proj1 (@train_language_outcome Q _ _ words 2
                   language_start language_end) _).
  vm_compute. reflexivity.
Defined.

(** X14 at a regression model and two batches of one and two numbers. *)
Lemma run_on_stacked_batches_witness :
  exists n,
    RegressionModel.run regression0 (constant [[1]; [2]; [3]]%Q) = Ok n /\
    nn.data n =
      vstack (nn.data (regression_value (constant [[1]]%Q)))
        (nn.data (regression_value (constant [[2]; [3]]%Q))).
Proof.
  refine (proj1 (@run_on_stacked_batches Q _) regression0
            (constant [[1]; [2]; [3]]%Q) (constant [[1]]%Q)
            (constant [[2]; [3]]%Q)
            (regression_value (constant [[1]]%Q))
            (regression_value (constant [[2]; [3]]%Q)) _ _ _).
  - reflexivity.
  - vm_compute. reflexivity.
  - vm_compute. reflexivity.
Defined.

Example regression_values :
  nn.data (regression_value (constant [[1]]%Q)) = tensor [[1]]%Q /\
  nn.data (regression_value (constant [[2]; [3]]%Q)) = tensor [[2]; [3]]%Q /\
  nn.data (regression_value (constant [[1]; [2]; [3]]%Q)) =
    tensor [[1]; [2]; [3]]%Q.
Proof. repeat split; vm_compute; reflexivity. Qed.

(** X15 at the word of three characters and one more. *)
Lemma run_one_more_character_witness :
  LanguageIDModel.run language0 (word ++ [constant [[0; 1]]%Q]) =
    (h <- LanguageIDModel.final_hidden_state language0 word ;;
     h' <- LanguageIDModel.run_step language0 h (constant [[0; 1]]%Q) ;;
     nn.Linear h' (LanguageIDModel.weight_f_node language0))%result.
Proof.
  refine (proj2 (proj2 (@run_one_more_character Q _ language0 word
                          (constant [[0; 1]]%Q) _))).
  discriminate.
Defined.

(** X16 at a batch of three after two batches of two. *)
Lemma run_rejects_other_shapes_witness :
  LanguageIDModel.run language_full
    ([nn.Constant (full 2 47 1%Q); nn.Constant (full 2 47 0%Q)] ++
     nn.Constant (full 3 47 1%Q) :: [nn.Constant (full 2 47 1%Q)]) =
    Raise AssertionError.
Proof.
  refine (proj2 (@run_rejects_other_shapes Q _ language_full _) 2
            [nn.Constant (full 2 47 1%Q); nn.Constant (full 2 47 0%Q)]
            (nn.Constant (full 3 47 1%Q)) [nn.Constant (full 2 47 1%Q)] _ _ _).
  - repeat split; apply full_well_formed.
  - discriminate.
  - repeat constructor; apply full_well_formed.
  - discriminate.
Defined.

(** X17 at labels of two columns. *)
Lemma get_loss_wants_matching_labels_witness :
  RegressionModel.get_loss regression_full (constant [[1]; [2]; [3]]%Q)
    (constant [[1; 0]; [0; 1]; [1; 1]]%Q) = Raise AssertionError.
Proof.
  refine (proj2 (proj1 (@get_loss_wants_matching_labels Q _ _) regression_full
                   (constant [[1]; [2]; [3]]%Q)
                   (constant [[1; 0]; [0; 1]; [1; 1]]%Q) _ _) (or_intror _)).
  - repeat split; apply full_well_formed.
  - apply well_formed_by_computation. reflexivity.
  - discriminate.
Defined.

(** X18 at [no_words], whose accuracy is 0.5. *)
Lemma train_without_batches_witness :
  LanguageIDModel.train 100 no_words language_start =
    if s_geb (get_validation_accuracy no_words (self language_start))
         (s_lit 0.82%Q)
    then Some (mkState (self language_start)
                 (calls language_start ++
                  [IterateOnce 2; GetValidationAccuracy]), Ok tt)
    else None.
Proof.
  refine (proj2 (proj2 (proj2 (@train_without_batches Q _ _)))
            no_words 99 language_start _).
  reflexivity.
Defined.

(** X19 at the second of [points]: the score goes from 0 to -2. *)
Lemma update_moves_score_witness :
  exists before after,
    PerceptronModel.score perceptron0 (constant [[-1; -1]]%Q) = Ok before /\
    PerceptronModel.score (PerceptronModel.mkModel (tensor [[1; 1]]%Q))
      (constant [[-1; -1]]%Q) = Ok after /\
    (after ==
     before + -1 * nn.dot (nn.first_row (nn.data (constant [[-1; -1]]%Q)))
                      (nn.first_row (nn.data (constant [[-1; -1]]%Q))))%Q /\
    (-1 == 1 -> before <= after)%Q /\
    (-1 == -1 -> after <= before)%Q.
Proof.
  refine (@update_moves_score perceptron0 (constant [[-1; -1]]%Q) (-1)%Q 2
            (tensor [[1; 1]]%Q) _ _ _ _).
  - split; [reflexivity | apply well_formed_by_computation; reflexivity].
  - reflexivity.
  - apply well_formed_by_computation. reflexivity.
  - vm_compute. reflexivity.
Defined.

End MoreRuns.
